(** * NetoLight: telemetry validation and multi-resolution aggregation

    A shallow embedding of the telemetry pipeline of the NetoLight API
    ([api/services.py], [api/repositories.py], [api/utils.py],
    [api/main.py]) together with the properties that its specification
    states about it.

    Conventions.
    - A Python [float] is an IEEE-754 binary64 value: a [spec_float] with
      the arithmetic and comparisons of [SpecFloat] at precision 53 and
      maximal exponent 1024.  [struct] moves it to and from its 64-bit
      pattern.
    - [bytes] are lists of integers in [0, 256); [str] values that only
      carry ASCII text are lists of [ascii].
    - A raised Python exception is the [Raise] branch of [result]. *)

From Stdlib Require Import ZArith List String Ascii Bool Lia.
From Stdlib Require Import Zbitwise SpecFloat.
Import ListNotations.
Local Open Scope Z_scope.

(** ** Exceptions and the error monad *)

Inductive exn : Type :=
| BinasciiError          (* binascii.Error *)
| StructError            (* struct.error *)
| IndexError
| ValueError
| ValidationError        (* pydantic *)
| ZeroDivisionError
| MultipleResultsFound   (* sqlalchemy.exc *)
| RedisError.

Inductive result (A : Type) : Type :=
| Ok (a : A)
| Raise (e : exn).
Arguments Ok {A} a.
Arguments Raise {A} e.

Definition bind {A B : Type} (r : result A) (k : A -> result B) : result B :=
  match r with
  | Ok a => k a
  | Raise e => Raise e
  end.

Notation "x <- c1 ;; c2" := (bind c1 (fun x => c2))
  (at level 61, c1 at next level, right associativity).

(** ** Bytes *)

Definition is_byte (b : Z) : Prop := 0 <= b < 256.

(** Python slicing [l[lo:hi]] for [0 <= lo <= hi]: it never raises and is
    clamped to the length of [l]. *)
Definition slice {A : Type} (lo hi : nat) (l : list A) : list A :=
  firstn (hi - lo) (skipn lo l).

(** ** The base64 transport encoding

    [b2a_base64] and [a2b_base64] follow [binascii.b2a_base64] (without the
    trailing newline) and [binascii.a2b_base64] in its default, non-strict
    mode, which are what [base64.b64encode] and [base64.b64decode] call. *)
Module Base64.

Definition alphabet : list ascii :=
  list_ascii_of_string
    "ABCDEFGHIJKLMNOPQRSTUVWXYZabcdefghijklmnopqrstuvwxyz0123456789+/".

Definition BASE64_PAD : ascii := "="%char.

(** [table_b2a_base64]: sextet to character. *)
Definition table_b2a (n : Z) : ascii :=
  nth (Z.to_nat n) alphabet BASE64_PAD.

(** [table_a2b_base64]: character to sextet, [None] for a character
    outside the alphabet. *)
Definition table_a2b (c : ascii) : option Z :=
  let n := Z.of_N (N_of_ascii c) in
  if (65 <=? n) && (n <=? 90) then Some (n - 65)
  else if (97 <=? n) && (n <=? 122) then Some (n - 71)
  else if (48 <=? n) && (n <=? 57) then Some (n + 4)
  else if n =? 43 then Some 62
  else if n =? 47 then Some 63
  else None.

Fixpoint b2a_base64 (bs : list Z) : list ascii :=
  match bs with
  | [] => []
  | [b1] =>
      [ table_b2a (Z.shiftr b1 2);
        table_b2a (Z.shiftl (Z.land b1 3) 4);
        BASE64_PAD; BASE64_PAD ]
  | [b1; b2] =>
      [ table_b2a (Z.shiftr b1 2);
        table_b2a (Z.lor (Z.shiftl (Z.land b1 3) 4) (Z.shiftr b2 4));
        table_b2a (Z.shiftl (Z.land b2 15) 2);
        BASE64_PAD ]
  | b1 :: b2 :: b3 :: rest =>
      table_b2a (Z.shiftr b1 2)
      :: table_b2a (Z.lor (Z.shiftl (Z.land b1 3) 4) (Z.shiftr b2 4))
      :: table_b2a (Z.lor (Z.shiftl (Z.land b2 15) 2) (Z.shiftr b3 6))
      :: table_b2a (Z.land b3 63)
      :: b2a_base64 rest
  end.

(** The decoding loop.  [quad_pos] is the position inside the current
    group of four characters, [leftchar] the bits carried over, [pads]
    the number of consecutive pad characters seen while [quad_pos >= 2],
    [acc] the bytes produced so far, most recent first. *)
Fixpoint a2b_loop (s : list ascii) (quad_pos : nat) (leftchar : Z)
         (pads : nat) (acc : list Z) : result (list Z) :=
  match s with
  | [] =>
      match quad_pos with
      | O => Ok (rev acc)
      | _ => Raise BinasciiError
      end
  | c :: s' =>
      if Ascii.eqb c BASE64_PAD then
        if Nat.leb 2 quad_pos then
          if Nat.leb 4 (quad_pos + S pads) then Ok (rev acc)
          else a2b_loop s' quad_pos leftchar (S pads) acc
        else a2b_loop s' quad_pos leftchar pads acc
      else
        match table_a2b c with
        | None => a2b_loop s' quad_pos leftchar pads acc
        | Some this_ch =>
            match quad_pos with
            | 0%nat => a2b_loop s' 1 this_ch 0 acc
            | 1%nat =>
                a2b_loop s' 2 (Z.land this_ch 15) 0
                  (Z.lor (Z.shiftl leftchar 2) (Z.shiftr this_ch 4) :: acc)
            | 2%nat =>
                a2b_loop s' 3 (Z.land this_ch 3) 0
                  (Z.lor (Z.shiftl leftchar 4) (Z.shiftr this_ch 2) :: acc)
            | _ =>
                a2b_loop s' 0 0 0
                  (Z.lor (Z.shiftl leftchar 6) this_ch :: acc)
            end
        end
  end.

Definition a2b_base64 (s : list ascii) : result (list Z) :=
  a2b_loop s 0 0 0 [].

Definition b64encode (bs : list Z) : list ascii := b2a_base64 bs.

(** [base64.b64decode(s)] with a [str] argument first encodes it as
    ASCII, which raises [ValueError] on any other character. *)
Definition b64decode (s : list ascii) : result (list Z) :=
  if forallb (fun c => N.ltb (N_of_ascii c) 128) s
  then a2b_base64 s
  else Raise ValueError.

End Base64.

(** ** IEEE-754 binary64 arithmetic with Python's conventions *)
Module Float64.

Definition prec : Z := 53.
Definition emax : Z := 1024.

Definition float : Type := spec_float.

Definition add : float -> float -> float := SFadd prec emax.
Definition sub : float -> float -> float := SFsub prec emax.
Definition mul : float -> float -> float := SFmul prec emax.
Definition div : float -> float -> float := SFdiv prec emax.
Definition eqb : float -> float -> bool := SFeqb.
Definition ltb : float -> float -> bool := SFltb.
Definition leb : float -> float -> bool := SFleb.
(** [x > y] and [x != y] as Python evaluates them. *)
Definition gtb (x y : float) : bool := SFltb y x.
Definition neqb (x y : float) : bool := negb (SFeqb x y).

Definition isnan (x : float) : bool :=
  match x with S754_nan => true | _ => false end.

Definition signbit (x : float) : bool :=
  match x with
  | S754_zero s | S754_infinity s | S754_finite s _ _ => s
  | S754_nan => false
  end.

(** The double nearest to an integer. *)
Definition of_Z (z : Z) : float := binary_normalize prec emax z 0 false.

(** The double nearest to [(-1)^s * a / b], for [0 <= a] and [0 < b]:
    a decimal literal, or the true division of two Python integers. *)
Definition of_ratio (s : bool) (a b : Z) : float :=
  match a, b with
  | Zpos pa, Zpos pb =>
      SFdiv prec emax (S754_finite s pa 0) (S754_finite false pb 0)
  | _, _ => S754_zero s
  end.

Definition int_truediv (a b : Z) : float :=
  of_ratio (a <? 0) (Z.abs a) b.

(** *** Bit patterns ([struct.pack('<d', x)] read as an integer) *)

Definition is_bits64 (b : Z) : Prop := 0 <= b < 2 ^ 64.

Definition exponent_field (b : Z) : Z := Z.land (Z.shiftr b 52) 2047.
Definition mantissa_field (b : Z) : Z := Z.land b (2 ^ 52 - 1).

(** A pattern denotes a finite double when its exponent field is not
    all ones. *)
Definition is_finite_bits (b : Z) : Prop := exponent_field b <> 2047.

Definition of_bits (b : Z) : float :=
  let s := Z.testbit b 63 in
  let e := exponent_field b in
  let m := mantissa_field b in
  if e =? 0 then
    match m with
    | Zpos p => S754_finite s p (-1074)
    | _ => S754_zero s
    end
  else if e =? 2047 then
    if m =? 0 then S754_infinity s else S754_nan
  else
    match m + 2 ^ 52 with
    | Zpos p => S754_finite s p (e - 1075)
    | _ => S754_nan
    end.

Definition sign_field (s : bool) : Z := if s then 2 ^ 63 else 0.

Definition to_bits (x : float) : Z :=
  match x with
  | S754_zero s => sign_field s
  | S754_infinity s => sign_field s + 2047 * 2 ^ 52
  | S754_nan => 2047 * 2 ^ 52 + 2 ^ 51
  | S754_finite s m e =>
      if Zpos m <? 2 ^ 52 then sign_field s + Zpos m
      else sign_field s + (e + 1075) * 2 ^ 52 + (Zpos m - 2 ^ 52)
  end.

(** *** C library functions used by CPython *)

(** [fmod(x, y)]: exact, with the sign of [x]. *)
Definition fmod (x y : float) : float :=
  match x, y with
  | S754_nan, _ | _, S754_nan => S754_nan
  | S754_infinity _, _ => S754_nan
  | _, S754_zero _ => S754_nan
  | _, S754_infinity _ => x
  | S754_zero _, _ => x
  | S754_finite sx mx ex, S754_finite _ my ey =>
      let e := Z.min ex ey in
      let X := Zpos mx * 2 ^ (ex - e) in
      let Y := Zpos my * 2 ^ (ey - e) in
      binary_normalize prec emax (cond_Zopp sx (X mod Y)) e sx
  end.

Definition floor (x : float) : float :=
  match x with
  | S754_finite s m e =>
      if 0 <=? e then x
      else binary_normalize prec emax
             (cond_Zopp s (Zpos m) / 2 ^ (- e)) 0 s
  | _ => x
  end.

(** [copysign(0.0, x)]. *)
Definition copysign_zero (x : float) : float := S754_zero (signbit x).

(** *** Python operators *)

(** [x / y] on floats. *)
Definition truediv (x y : float) : result float :=
  if eqb y (S754_zero false) then Raise ZeroDivisionError
  else Ok (div x y).

(** [_float_div_mod] of [floatobject.c], quotient part. *)
Definition float_div_mod_quot (vx wx : float) : float :=
  let mod_ := fmod vx wx in
  let div0 := div (sub vx mod_) wx in
  let div1 :=
    if neqb mod_ (S754_zero false) then
      if negb (Bool.eqb (ltb wx (S754_zero false))
                        (ltb mod_ (S754_zero false)))
      then sub div0 (of_Z 1) else div0
    else div0 in
  if neqb div1 (S754_zero false) then
    let floordiv := floor div1 in
    if gtb (sub div1 floordiv) (of_ratio false 1 2)
    then add floordiv (of_Z 1) else floordiv
  else copysign_zero (div vx wx).

(** [x // y] on floats. *)
Definition floordiv (x y : float) : result float :=
  if eqb y (S754_zero false) then Raise ZeroDivisionError
  else Ok (float_div_mod_quot x y).

(** The integer nearest to [a / b] for [0 < b], ties to even. *)
Definition round_half_even (a b : Z) : Z :=
  let q := a / b in
  match Z.compare (2 * (a mod b)) b with
  | Lt => q
  | Gt => q + 1
  | Eq => if Z.even q then q else q + 1
  end.

(** [round(x, ndigits)] for a small [ndigits >= 0]: the decimal with
    [ndigits] fractional digits nearest to [x] (ties to even on the exact
    binary value), converted back to the nearest double. *)
Definition round (x : float) (ndigits : Z) : float :=
  match x with
  | S754_finite s m e =>
      if 0 <=? e then x
      else of_ratio s
             (round_half_even (Zpos m * 10 ^ ndigits) (2 ^ (- e)))
             (10 ^ ndigits)
  | _ => x
  end.

End Float64.

(** ** [struct.pack('<d', x)] and [struct.unpack('<d', b)] *)
Module Struct.

(** The [n] low-order bytes of [x], least significant first. *)
Fixpoint pack_le (n : nat) (x : Z) : list Z :=
  match n with
  | O => []
  | S n' => Z.land x 255 :: pack_le n' (Z.shiftr x 8)
  end.

Fixpoint unpack_le (bs : list Z) : Z :=
  match bs with
  | [] => 0
  | b :: bs' => Z.lor b (Z.shiftl (unpack_le bs') 8)
  end.

Definition pack_d (x : Float64.float) : list Z :=
  pack_le 8 (Float64.to_bits x).

(** [struct.unpack('<d', b)] requires a buffer of exactly 8 bytes. *)
Definition unpack_d (b : list Z) : result Float64.float :=
  if Nat.eqb (List.length b) 8
  then Ok (Float64.of_bits (unpack_le b))
  else Raise StructError.

End Struct.

(** ** Dates and times

    A [datetime] is held as the number of microseconds between
    1970-01-01T00:00:00 and its wall-clock reading (proleptic Gregorian
    calendar, the fields [year .. microsecond] of the Python object), with
    its optional [tzinfo].  Time zones are fixed offsets: since 2000
    [America/Santo_Domingo] is UTC-04:00 without daylight saving.  The
    bounds [MINYEAR .. MAXYEAR] of Python are not modelled. *)
Module Datetime.

Record tzinfo : Type := { utcoffset : Z (* microseconds *) }.

Definition UTC : tzinfo := {| utcoffset := 0 |}.
Definition America_Santo_Domingo : tzinfo :=
  {| utcoffset := -4 * 3600 * 1000000 |}.

Record datetime : Type := {
  wall : Z;
  tz : option tzinfo
}.

Definition us_per_second : Z := 1000000.
Definition us_per_hour : Z := 3600 * us_per_second.
Definition us_per_day : Z := 24 * us_per_hour.

(** Days since 1970-01-01 of a civil date, and back. *)
Definition days_from_civil (y m d : Z) : Z :=
  let y' := if m <=? 2 then y - 1 else y in
  let era := y' / 400 in
  let yoe := y' - era * 400 in
  let mp := if 2 <? m then m - 3 else m + 9 in
  let doy := (153 * mp + 2) / 5 + d - 1 in
  let doe := yoe * 365 + yoe / 4 - yoe / 100 + doy in
  era * 146097 + doe - 719468.

Definition civil_from_days (z : Z) : Z * Z * Z :=
  let z' := z + 719468 in
  let era := z' / 146097 in
  let doe := z' - era * 146097 in
  let yoe := (doe - doe / 1460 + doe / 36524 - doe / 146096) / 365 in
  let doy := doe - (365 * yoe + yoe / 4 - yoe / 100) in
  let mp := (5 * doy + 2) / 153 in
  let d := doy - (153 * mp + 2) / 5 + 1 in
  let m := if mp <? 10 then mp + 3 else mp - 9 in
  ((if m <=? 2 then yoe + era * 400 + 1 else yoe + era * 400), m, d).

(** [datetime.datetime(year, month, day, hour, minute, second,
    microsecond, tzinfo)]. *)
Definition mk_datetime (y m d hh mm ss us : Z) (t : option tzinfo)
  : datetime :=
  {| wall := days_from_civil y m d * us_per_day + hh * us_per_hour
             + mm * 60 * us_per_second + ss * us_per_second + us;
     tz := t |}.

Definition date_of (dt : datetime) : Z * Z * Z :=
  civil_from_days (wall dt / us_per_day).
Definition year (dt : datetime) : Z := fst (fst (date_of dt)).
Definition month (dt : datetime) : Z := snd (fst (date_of dt)).
Definition day (dt : datetime) : Z := snd (date_of dt).
Definition hour (dt : datetime) : Z := (wall dt mod us_per_day) / us_per_hour.
Definition minute (dt : datetime) : Z :=
  (wall dt mod us_per_hour) / (60 * us_per_second).
Definition second (dt : datetime) : Z :=
  (wall dt mod (60 * us_per_second)) / us_per_second.
Definition microsecond (dt : datetime) : Z := wall dt mod us_per_second.

(** [dt.weekday()]: Monday is 0; 1970-01-01 was a Thursday. *)
Definition weekday (dt : datetime) : Z := (wall dt / us_per_day + 3) mod 7.

(** The instant (microseconds since the epoch, UTC) that a datetime
    denotes.  A naive datetime is read in the zone [local] of the process,
    as [astimezone] and the database driver do. *)
Definition instant (local : tzinfo) (dt : datetime) : Z :=
  match tz dt with
  | Some z => wall dt - utcoffset z
  | None => wall dt - utcoffset local
  end.

(** [dt.astimezone(z)]. *)
Definition astimezone (local : tzinfo) (z : tzinfo) (dt : datetime)
  : datetime :=
  {| wall := instant local dt + utcoffset z; tz := Some z |}.

(** [a == b]: two aware datetimes are equal when they denote the same
    instant, two naive ones when their fields agree, and a naive one never
    equals an aware one. *)
Definition eqb (a b : datetime) : bool :=
  match tz a, tz b with
  | Some za, Some zb => (wall a - utcoffset za) =? (wall b - utcoffset zb)
  | None, None => wall a =? wall b
  | _, _ => false
  end.

(** [(a - b)] for two aware datetimes, as a number of microseconds, and
    [timedelta.total_seconds()] of such a difference. *)
Definition sub_aware (local : tzinfo) (a b : datetime) : Z :=
  instant local a - instant local b.

Definition total_seconds (td : Z) : Float64.float :=
  Float64.int_truediv td us_per_second.

(** A [timestamptz] column holds an instant; the driver hands it back as
    an aware datetime in UTC. *)
Definition of_timestamptz (t : Z) : datetime :=
  {| wall := t; tz := Some UTC |}.

End Datetime.

(** ** [api/utils.py] *)
Module Utils.
Import Datetime.

(** [dt.replace(microsecond=0, second=0, minute=0)]. *)
Definition round_to_hour (dt : datetime) : datetime :=
  {| wall := wall dt - wall dt mod us_per_hour; tz := tz dt |}.

(** [datetime.datetime.combine(dt, datetime.time.min)]: the date of [dt]
    with the time, and the [tzinfo], of [time.min]. *)
Definition round_to_day (dt : datetime) : datetime :=
  {| wall := wall dt - wall dt mod us_per_day; tz := None |}.

(** [round_to_day(dt) - datetime.timedelta(days=dt.weekday())]. *)
Definition round_to_week (dt : datetime) : datetime :=
  let weekday := weekday dt in
  let d := round_to_day dt in
  {| wall := wall d - weekday * us_per_day; tz := tz d |}.

Definition round_to_month (dt : datetime) : datetime :=
  mk_datetime (year dt) (month dt) 1 0 0 0 0 (Some America_Santo_Domingo).

Definition convert_to_default_tz (local : tzinfo) (dt : datetime)
  : datetime :=
  astimezone local America_Santo_Domingo dt.

End Utils.

(** ** [api/schemas.py] and [api/models.py]

    One module per class, with the record called [t].  String columns that
    are only copied from the request into the row (tenant, application,
    device profile, device name, address) are left out. *)

Module StreetlampDeviceState.
Record t : Type := {
  voltage : Float64.float;
  current : Float64.float;
  energy_out : Float64.float;
  energy_in : Float64.float;
  power : Float64.float;
  frequency : Float64.float;
  status_on : bool
}.
End StreetlampDeviceState.

Module StreetlampStateCreate.
Record t : Type := {
  deduplication_id : string;
  time : Datetime.datetime;
  dev_eui : string;          (* [device_info.dev_eui] *)
  data : list ascii
}.
End StreetlampStateCreate.

Inductive AlarmType : Type :=
| INVALID_VALUE | OVER_VOLTAGE | OVER_CURRENT
| OVER_POWER | OVER_ENERGY | OVER_FREQUENCY.

Inductive AlarmSeverity : Type := CRITICAL | MAJOR | MINOR.

(** Table [streetlamps]. *)
Module Streetlamp.
Record t : Type := { device_eui : string }.
End Streetlamp.

(** Table [streetlamp_states]; [time] is a [timestamptz]. *)
Module StreetlampState.
Record t : Type := {
  id : Z;
  deduplication_id : string;
  time : Z;
  dev_eui : string;
  dev_voltage : Float64.float;
  dev_current : Float64.float;
  dev_energy_out : Float64.float;
  dev_energy_in : Float64.float;
  dev_power : Float64.float;
  dev_frequency : Float64.float;
  dev_status_on : bool
}.
End StreetlampState.

(** Table [streetlamp_alarms]. *)
Module StreetlampAlarm.
Record t : Type := {
  time : Z;
  atype : AlarmType;
  severity : AlarmSeverity;
  cleared : bool;
  dev_eui : string;
  dev_voltage : Float64.float;
  dev_current : Float64.float;
  dev_energy_out : Float64.float;
  dev_energy_in : Float64.float;
  dev_power : Float64.float;
  dev_frequency : Float64.float;
  dev_status_on : bool
}.
End StreetlampAlarm.

(** Table [stream_states]: the watermarks. *)
Module StreamState.
Record t : Type := {
  name : string;
  producer_ts : option Z;
  consumer_ts : option Z
}.
End StreamState.

(** Tables [hourly_streetlamp_state], [daily_...], [weekly_...] and
    [monthly_...]; [bucket] is the column [hour], [day], [week] or
    [month]. *)
Module RollupState.
Record t : Type := {
  bucket : Z;
  dev_eui : string;
  voltage : Float64.float;
  current : Float64.float;
  energy_out : Float64.float;
  energy_in : Float64.float;
  power : Float64.float;
  frequency : Float64.float;
  on_time : Float64.float
}.
End RollupState.

(** The relational store. *)
Module Db.
Record t : Type := {
  streetlamps : list Streetlamp.t;
  streetlamp_states : list StreetlampState.t;
  streetlamp_alarms : list StreetlampAlarm.t;
  stream_states : list StreamState.t;
  hourly_streetlamp_state : list RollupState.t;
  daily_streetlamp_state : list RollupState.t;
  weekly_streetlamp_state : list RollupState.t;
  monthly_streetlamp_state : list RollupState.t
}.

Definition empty : t :=
  {| streetlamps := []; streetlamp_states := []; streetlamp_alarms := [];
     stream_states := []; hourly_streetlamp_state := [];
     daily_streetlamp_state := []; weekly_streetlamp_state := [];
     monthly_streetlamp_state := [] |}.

Definition set_streetlamp_states (v : list StreetlampState.t) (d : t) : t :=
  {| streetlamps := streetlamps d; streetlamp_states := v;
     streetlamp_alarms := streetlamp_alarms d;
     stream_states := stream_states d;
     hourly_streetlamp_state := hourly_streetlamp_state d;
     daily_streetlamp_state := daily_streetlamp_state d;
     weekly_streetlamp_state := weekly_streetlamp_state d;
     monthly_streetlamp_state := monthly_streetlamp_state d |}.

Definition set_streetlamp_alarms (v : list StreetlampAlarm.t) (d : t) : t :=
  {| streetlamps := streetlamps d; streetlamp_states := streetlamp_states d;
     streetlamp_alarms := v;
     stream_states := stream_states d;
     hourly_streetlamp_state := hourly_streetlamp_state d;
     daily_streetlamp_state := daily_streetlamp_state d;
     weekly_streetlamp_state := weekly_streetlamp_state d;
     monthly_streetlamp_state := monthly_streetlamp_state d |}.

Definition set_stream_states (v : list StreamState.t) (d : t) : t :=
  {| streetlamps := streetlamps d; streetlamp_states := streetlamp_states d;
     streetlamp_alarms := streetlamp_alarms d;
     stream_states := v;
     hourly_streetlamp_state := hourly_streetlamp_state d;
     daily_streetlamp_state := daily_streetlamp_state d;
     weekly_streetlamp_state := weekly_streetlamp_state d;
     monthly_streetlamp_state := monthly_streetlamp_state d |}.

Definition set_hourly (v : list RollupState.t) (d : t) : t :=
  {| streetlamps := streetlamps d; streetlamp_states := streetlamp_states d;
     streetlamp_alarms := streetlamp_alarms d;
     stream_states := stream_states d;
     hourly_streetlamp_state := v;
     daily_streetlamp_state := daily_streetlamp_state d;
     weekly_streetlamp_state := weekly_streetlamp_state d;
     monthly_streetlamp_state := monthly_streetlamp_state d |}.

Definition set_daily (v : list RollupState.t) (d : t) : t :=
  {| streetlamps := streetlamps d; streetlamp_states := streetlamp_states d;
     streetlamp_alarms := streetlamp_alarms d;
     stream_states := stream_states d;
     hourly_streetlamp_state := hourly_streetlamp_state d;
     daily_streetlamp_state := v;
     weekly_streetlamp_state := weekly_streetlamp_state d;
     monthly_streetlamp_state := monthly_streetlamp_state d |}.

Definition set_weekly (v : list RollupState.t) (d : t) : t :=
  {| streetlamps := streetlamps d; streetlamp_states := streetlamp_states d;
     streetlamp_alarms := streetlamp_alarms d;
     stream_states := stream_states d;
     hourly_streetlamp_state := hourly_streetlamp_state d;
     daily_streetlamp_state := daily_streetlamp_state d;
     weekly_streetlamp_state := v;
     monthly_streetlamp_state := monthly_streetlamp_state d |}.

Definition set_monthly (v : list RollupState.t) (d : t) : t :=
  {| streetlamps := streetlamps d; streetlamp_states := streetlamp_states d;
     streetlamp_alarms := streetlamp_alarms d;
     stream_states := stream_states d;
     hourly_streetlamp_state := hourly_streetlamp_state d;
     daily_streetlamp_state := daily_streetlamp_state d;
     weekly_streetlamp_state := weekly_streetlamp_state d;
     monthly_streetlamp_state := v |}.
End Db.

(** ** The telemetry codec ([api/services.py]) *)

Definition ord (c : ascii) : Z := Z.of_N (N_of_ascii c).

Definition encode_float (h : ascii) (val : Float64.float) : list Z :=
  ord h :: Struct.pack_d val.

Definition encode_state_data (sds : StreetlampDeviceState.t) : list ascii :=
  Base64.b64encode
    (encode_float "V" (StreetlampDeviceState.voltage sds)
     ++ encode_float "I" (StreetlampDeviceState.current sds)
     ++ encode_float "M" (StreetlampDeviceState.energy_out sds)
     ++ encode_float "E" (StreetlampDeviceState.energy_in sds)
     ++ encode_float "W" (StreetlampDeviceState.power sds)
     ++ encode_float "F" (StreetlampDeviceState.frequency sds)
     ++ [ord "S"]
     ++ [if StreetlampDeviceState.status_on sds then 1 else 0]
     ++ [255; 255; 255; 255; 255; 255; 255; 255]).

(** The slice [b[i + 1 + 8 * i : 9 * (i + 1)]] taken for field [i]. *)
Definition field_slice (i : nat) (b : list Z) : list Z :=
  slice (i + 1 + 8 * i) (9 * (i + 1)) b.

(** [(bool(x[0]),)] for the status slice. *)
Definition unpack_status (x : list Z) : result bool :=
  match x with
  | [] => Raise IndexError
  | b :: _ => Ok (negb (b =? 0))
  end.

Definition decode_state_data (s : list ascii)
  : result StreetlampDeviceState.t :=
  b <- Base64.b64decode s ;;
  v0 <- Struct.unpack_d (field_slice 0 b) ;;
  v1 <- Struct.unpack_d (field_slice 1 b) ;;
  v2 <- Struct.unpack_d (field_slice 2 b) ;;
  v3 <- Struct.unpack_d (field_slice 3 b) ;;
  v4 <- Struct.unpack_d (field_slice 4 b) ;;
  v5 <- Struct.unpack_d (field_slice 5 b) ;;
  v6 <- unpack_status (field_slice 6 b) ;;
  Ok {| StreetlampDeviceState.voltage := v0;
        StreetlampDeviceState.current := v1;
        StreetlampDeviceState.energy_out := v2;
        StreetlampDeviceState.energy_in := v3;
        StreetlampDeviceState.power := v4;
        StreetlampDeviceState.frequency := v5;
        StreetlampDeviceState.status_on := v6 |}.

(** ** [api/repositories.py] *)

(** [Result.scalar_one_or_none()]. *)
Definition scalar_one_or_none {A : Type} (rows : list A) : result (option A) :=
  match rows with
  | [] => Ok None
  | [r] => Ok (Some r)
  | _ => Raise MultipleResultsFound
  end.

(** SQL [min] and [max] over a column: [NULL] on no row. *)
Definition sql_min (xs : list Z) : option Z :=
  match xs with
  | [] => None
  | x :: xs' => Some (fold_left Z.min xs' x)
  end.

Definition sql_max (xs : list Z) : option Z :=
  match xs with
  | [] => None
  | x :: xs' => Some (fold_left Z.max xs' x)
  end.

Module StreetlampStateRepository.

Definition rows_at (dev_eui : string) (t : option Z)
           (tbl : list StreetlampState.t) : list StreetlampState.t :=
  match t with
  | None => []
  | Some t =>
      filter (fun r => (StreetlampState.time r =? t)
                       && String.eqb (StreetlampState.dev_eui r) dev_eui) tbl
  end.

Definition times_of (dev_eui : string) (tbl : list StreetlampState.t)
  : list Z :=
  map StreetlampState.time
      (filter (fun r => String.eqb (StreetlampState.dev_eui r) dev_eui) tbl).

Definition find_oldest_by_dev_eui (dev_eui : string)
           (tbl : list StreetlampState.t)
  : result (option StreetlampState.t) :=
  scalar_one_or_none (rows_at dev_eui (sql_min (times_of dev_eui tbl)) tbl).

Definition find_latest_by_dev_eui (dev_eui : string)
           (tbl : list StreetlampState.t)
  : result (option StreetlampState.t) :=
  scalar_one_or_none (rows_at dev_eui (sql_max (times_of dev_eui tbl)) tbl).

(** [insert ... returning id]: the new row takes its id from the
    sequence of the table.  The sequence is not part of the store here:
    the row count plus one stands for its next value, which is that
    value only as long as no row was deleted and no insert rolled back.
    The properties below use the id only as the id of the appended
    row. *)
Definition next_id (tbl : list StreetlampState.t) : Z :=
  Z.of_nat (List.length tbl) + 1.

Definition insert (ss : StreetlampState.t) (tbl : list StreetlampState.t)
  : list StreetlampState.t * option Z :=
  let i := next_id tbl in
  (tbl ++ [ {| StreetlampState.id := i;
               StreetlampState.deduplication_id :=
                 StreetlampState.deduplication_id ss;
               StreetlampState.time := StreetlampState.time ss;
               StreetlampState.dev_eui := StreetlampState.dev_eui ss;
               StreetlampState.dev_voltage := StreetlampState.dev_voltage ss;
               StreetlampState.dev_current := StreetlampState.dev_current ss;
               StreetlampState.dev_energy_out :=
                 StreetlampState.dev_energy_out ss;
               StreetlampState.dev_energy_in :=
                 StreetlampState.dev_energy_in ss;
               StreetlampState.dev_power := StreetlampState.dev_power ss;
               StreetlampState.dev_frequency :=
                 StreetlampState.dev_frequency ss;
               StreetlampState.dev_status_on :=
                 StreetlampState.dev_status_on ss |} ],
   Some i).

End StreetlampStateRepository.

Module StreetlampAlarmRepository.

Definition insert (sal : StreetlampAlarm.t) (tbl : list StreetlampAlarm.t)
  : list StreetlampAlarm.t :=
  tbl ++ [sal].

End StreetlampAlarmRepository.

(** [find_oldest_by_dev_eui] of the hourly and daily repositories. *)
Module RollupRepository.

Definition buckets_of (dev_eui : string) (tbl : list RollupState.t)
  : list Z :=
  map RollupState.bucket
      (filter (fun r => String.eqb (RollupState.dev_eui r) dev_eui) tbl).

Definition find_oldest_by_dev_eui (dev_eui : string)
           (tbl : list RollupState.t) : result (option RollupState.t) :=
  scalar_one_or_none
    match sql_min (buckets_of dev_eui tbl) with
    | None => []
    | Some t =>
        filter (fun r => (RollupState.bucket r =? t)
                         && String.eqb (RollupState.dev_eui r) dev_eui) tbl
    end.

End RollupRepository.

Module StreamStateRepository.

(** SQL [lower] on ASCII text. *)
Definition lower_ascii (c : ascii) : ascii :=
  let n := N_of_ascii c in
  if (N.leb 65 n && N.leb n 90)%bool then ascii_of_N (n + 32) else c.

Fixpoint lower (s : string) : string :=
  match s with
  | EmptyString => EmptyString
  | String c s' => String (lower_ascii c) (lower s')
  end.

(** [select ... where lower(name) = lower(:name)] then [.scalar()]: the
    first matching row, if any. *)
Definition find_by_name (name : string) (tbl : list StreamState.t)
  : option StreamState.t :=
  find (fun r => String.eqb (lower (StreamState.name r)) (lower name)) tbl.

(** [insert ... on conflict (name) do update set producer_ts = ...]. *)
Fixpoint upsert_producer (name : string) (ts : Z) (tbl : list StreamState.t)
  : list StreamState.t :=
  match tbl with
  | [] => [ {| StreamState.name := name;
               StreamState.producer_ts := Some ts;
               StreamState.consumer_ts := None |} ]
  | r :: tbl' =>
      if String.eqb (StreamState.name r) name
      then {| StreamState.name := StreamState.name r;
              StreamState.producer_ts := Some ts;
              StreamState.consumer_ts := StreamState.consumer_ts r |} :: tbl'
      else r :: upsert_producer name ts tbl'
  end.

Definition update_producer (local : Datetime.tzinfo) (name : string)
           (producer_ts : Datetime.datetime) (tbl : list StreamState.t)
  : list StreamState.t :=
  upsert_producer name (Datetime.instant local producer_ts) tbl.

(** [update stream_states set consumer_ts = ... where name = :name]. *)
Definition update_consumer (local : Datetime.tzinfo) (name : string)
           (consumer_ts : Datetime.datetime) (tbl : list StreamState.t)
  : list StreamState.t :=
  map (fun r =>
         if String.eqb (StreamState.name r) name
         then {| StreamState.name := StreamState.name r;
                 StreamState.producer_ts := StreamState.producer_ts r;
                 StreamState.consumer_ts :=
                   Some (Datetime.instant local consumer_ts) |}
         else r) tbl.

End StreamStateRepository.

(** ** [api/services.py]: the validator and the raw-reading service *)

Definition _make_alarm (local : Datetime.tzinfo) (time : Datetime.datetime)
           (dev_eui : string) (sds : StreetlampDeviceState.t)
           (atype : AlarmType) (severity : AlarmSeverity)
  : StreetlampAlarm.t :=
  {| StreetlampAlarm.time := Datetime.instant local time;
     StreetlampAlarm.atype := atype;
     StreetlampAlarm.severity := severity;
     StreetlampAlarm.cleared := false;
     StreetlampAlarm.dev_eui := dev_eui;
     StreetlampAlarm.dev_voltage := StreetlampDeviceState.voltage sds;
     StreetlampAlarm.dev_current := StreetlampDeviceState.current sds;
     StreetlampAlarm.dev_energy_out := StreetlampDeviceState.energy_out sds;
     StreetlampAlarm.dev_energy_in := StreetlampDeviceState.energy_in sds;
     StreetlampAlarm.dev_power := StreetlampDeviceState.power sds;
     StreetlampAlarm.dev_frequency := StreetlampDeviceState.frequency sds;
     StreetlampAlarm.dev_status_on := StreetlampDeviceState.status_on sds |}.

Module StreetlampStateService.
Import Datetime.

Definition min_valid_value : Float64.float := Float64.of_ratio false 1 10000.
Definition max_valid_value : Float64.float := Float64.of_Z 1000.
Definition max_power : Float64.float := Float64.of_Z 95.
Definition max_frequency : Float64.float := Float64.of_Z 65.
Definition max_ecr : Float64.float := Float64.of_Z 100000.

(** [math.isnan(x) or x < min_valid_value or x > max_valid_value]. *)
Definition invalid_value (x : Float64.float) : bool :=
  Float64.isnan x
  || Float64.ltb x min_valid_value
  || Float64.gtb x max_valid_value.

(** The condition of the first [if] of [create]. *)
Definition any_invalid_value (sds : StreetlampDeviceState.t) : bool :=
  invalid_value (StreetlampDeviceState.voltage sds)
  || invalid_value (StreetlampDeviceState.current sds)
  || invalid_value (StreetlampDeviceState.power sds)
  || invalid_value (StreetlampDeviceState.frequency sds).

(** [t = (ss.time - ls.time).total_seconds() // 3600] followed by
    [t = 1 if t == 0 else t]. *)
Definition energy_rate_divisor (local : tzinfo) (time ls_time : datetime)
  : result Float64.float :=
  t <- Float64.floordiv (total_seconds (sub_aware local time ls_time))
                        (Float64.of_Z 3600) ;;
  Ok (if Float64.eqb t (S754_zero false) then Float64.of_Z 1 else t).

(** [(ss.dev_energy_in - ls.dev_energy_in) / t > max_ecr]. *)
Definition over_energy (local : tzinfo) (time ls_time : datetime)
           (energy_in ls_energy_in : Float64.float) : result bool :=
  t <- energy_rate_divisor local time ls_time ;;
  r <- Float64.truediv (Float64.sub energy_in ls_energy_in) t ;;
  Ok (Float64.gtb r max_ecr).

Definition raise_alarm (local : tzinfo) (time : datetime) (dev_eui : string)
           (sds : StreetlampDeviceState.t) (atype : AlarmType)
           (severity : AlarmSeverity) (db : Db.t) : Db.t :=
  Db.set_streetlamp_alarms
    (StreetlampAlarmRepository.insert
       (_make_alarm local time dev_eui sds atype severity)
       (Db.streetlamp_alarms db))
    db.

(** The tail of [create]: insert the reading and move the hourly producer
    watermark of the device. *)
Definition insert_state (local : tzinfo) (ssc : StreetlampStateCreate.t)
           (time : datetime) (sds : StreetlampDeviceState.t) (db : Db.t)
  : Db.t * option Z :=
  let ss :=
    {| StreetlampState.id := 0;
       StreetlampState.deduplication_id :=
         StreetlampStateCreate.deduplication_id ssc;
       StreetlampState.time := instant local time;
       StreetlampState.dev_eui := StreetlampStateCreate.dev_eui ssc;
       StreetlampState.dev_voltage := StreetlampDeviceState.voltage sds;
       StreetlampState.dev_current := StreetlampDeviceState.current sds;
       StreetlampState.dev_energy_out := StreetlampDeviceState.energy_out sds;
       StreetlampState.dev_energy_in := StreetlampDeviceState.energy_in sds;
       StreetlampState.dev_power := StreetlampDeviceState.power sds;
       StreetlampState.dev_frequency := StreetlampDeviceState.frequency sds;
       StreetlampState.dev_status_on := StreetlampDeviceState.status_on sds
    |} in
  let '(tbl, ssid) :=
    StreetlampStateRepository.insert ss (Db.streetlamp_states db) in
  let db := Db.set_streetlamp_states tbl db in
  match ssid with
  | Some _ =>
      (Db.set_stream_states
         (StreamStateRepository.update_producer local
            ("streetlamp:state:hourly:" ++ StreetlampStateCreate.dev_eui ssc)
            (Utils.round_to_hour time)
            (Db.stream_states db))
         db,
       ssid)
  | None => (db, ssid)
  end.

Definition create (local : tzinfo) (ssc : StreetlampStateCreate.t)
           (db : Db.t) : result (Db.t * option Z) :=
  sds <- decode_state_data (StreetlampStateCreate.data ssc) ;;
  let time :=
    astimezone local America_Santo_Domingo (StreetlampStateCreate.time ssc) in
  let dev_eui := StreetlampStateCreate.dev_eui ssc in
  if any_invalid_value sds then
    Ok (raise_alarm local time dev_eui sds INVALID_VALUE MINOR db, None)
  else if Float64.gtb (StreetlampDeviceState.power sds) max_power then
    Ok (raise_alarm local time dev_eui sds OVER_POWER CRITICAL db, None)
  else if Float64.gtb (StreetlampDeviceState.frequency sds) max_frequency then
    Ok (raise_alarm local time dev_eui sds OVER_FREQUENCY CRITICAL db, None)
  else
    ls <- StreetlampStateRepository.find_latest_by_dev_eui dev_eui
            (Db.streetlamp_states db) ;;
    match ls with
    | Some ls =>
        over <- over_energy local time
                  (of_timestamptz (StreetlampState.time ls))
                  (StreetlampDeviceState.energy_in sds)
                  (StreetlampState.dev_energy_in ls) ;;
        if over : bool then
          Ok (raise_alarm local time dev_eui sds OVER_ENERGY MAJOR db, None)
        else Ok (insert_state local ssc time sds db)
    | None => Ok (insert_state local ssc time sds db)
    end.

End StreetlampStateService.

(** ** [api/services.py]: the rollup aggregators *)

Record _StreamDataRange : Type := {
  t0 : Datetime.datetime;
  t1 : Datetime.datetime
}.

(** The grouped [insert ... from select ... on conflict do update] of a
    rollup repository runs inside the database.  It is a parameter of each
    service: given the device, the bounds and the store it yields the new
    target table and the row count, or fails. *)
Definition pull_t : Type :=
  string -> Datetime.datetime -> Datetime.datetime -> Db.t ->
  result (list RollupState.t * Z).

(** The common shape of [_get_hourly_range], [_get_daily_range],
    [_get_weekly_range] and [_get_monthly_range]; [oldest] looks up the
    oldest source row of the device and yields its timestamp as [t0]. *)
Definition get_range (local : Datetime.tzinfo)
           (oldest : result (option Datetime.datetime))
           (strname : string) (db : Db.t)
  : result (option _StreamDataRange) :=
  match StreamStateRepository.find_by_name strname (Db.stream_states db) with
  | None => Ok None
  | Some ss_str =>
      match StreamState.producer_ts ss_str with
      | None => Ok None
      | Some producer_ts =>
          seed <- match StreamState.consumer_ts ss_str with
                  | None => oldest
                  | Some consumer_ts =>
                      Ok (Some (Datetime.of_timestamptz consumer_ts))
                  end ;;
          match seed with
          | None => Ok None
          | Some t0 =>
              let t1 := Datetime.of_timestamptz producer_ts in
              if Datetime.eqb t0 t1 then Ok None
              else Ok (Some {| t0 := Utils.convert_to_default_tz local t0;
                               t1 := Utils.convert_to_default_tz local t1 |})
          end
      end
  end.

Module StreetlampHourlyAggregationService.
Section Service.
Variable local : Datetime.tzinfo.
Variable pull : pull_t.          (* [hourly_state_repo.pull] *)

Definition strname (device_eui : string) : string :=
  "streetlamp:state:hourly:" ++ device_eui.

Definition _get_hourly_range (strname dev_eui : string) (db : Db.t)
  : result (option _StreamDataRange) :=
  get_range local
    (oss <- StreetlampStateRepository.find_oldest_by_dev_eui dev_eui
              (Db.streetlamp_states db) ;;
     Ok (option_map
           (fun oss => Utils.round_to_hour
                         (Datetime.of_timestamptz (StreetlampState.time oss)))
           oss))
    strname db.

(** The body of the [for] loop of [aggregate]. *)
Definition aggregate_device (s : Streetlamp.t) (acc : Db.t * Z)
  : result (Db.t * Z) :=
  let '(db, tnr) := acc in
  let strname := strname (Streetlamp.device_eui s) in
  r <- _get_hourly_range strname (Streetlamp.device_eui s) db ;;
  match r with
  | None => Ok (db, tnr)
  | Some {| t0 := t0; t1 := t1 |} =>
      p <- pull (Streetlamp.device_eui s) t0 t1 db ;;
      let '(tbl, nr) := p in
      let db := Db.set_hourly tbl db in
      let db :=
        Db.set_stream_states
          (StreamStateRepository.update_consumer local strname t1
             (Db.stream_states db)) db in
      let db :=
        Db.set_stream_states
          (StreamStateRepository.update_producer local
             ("streetlamp:state:daily:" ++ Streetlamp.device_eui s)
             (Utils.round_to_day t1)
             (Db.stream_states db)) db in
      Ok (db, tnr + nr)
  end.

Fixpoint aggregate_loop (devices : list Streetlamp.t) (acc : Db.t * Z)
  : result (Db.t * Z) :=
  match devices with
  | [] => Ok acc
  | s :: devices' =>
      acc' <- aggregate_device s acc ;;
      aggregate_loop devices' acc'
  end.

Definition aggregate (db : Db.t) : result (Db.t * Z) :=
  aggregate_loop (Db.streetlamps db) (db, 0).

End Service.
End StreetlampHourlyAggregationService.

Module StreetlampDailyAggregationService.
Section Service.
Variable local : Datetime.tzinfo.
Variable pull : pull_t.          (* [daily_state_repo.pull] *)

Definition strname (device_eui : string) : string :=
  "streetlamp:state:daily:" ++ device_eui.

Definition _get_daily_range (strname dev_eui : string) (db : Db.t)
  : result (option _StreamDataRange) :=
  get_range local
    (ohse <- RollupRepository.find_oldest_by_dev_eui dev_eui
               (Db.hourly_streetlamp_state db) ;;
     Ok (option_map
           (fun ohse => Datetime.of_timestamptz (RollupState.bucket ohse))
           ohse))
    strname db.

Definition aggregate_device (s : Streetlamp.t) (acc : Db.t * Z)
  : result (Db.t * Z) :=
  let '(db, tnd) := acc in
  let strname := strname (Streetlamp.device_eui s) in
  r <- _get_daily_range strname (Streetlamp.device_eui s) db ;;
  match r with
  | None => Ok (db, tnd)
  | Some {| t0 := t0; t1 := t1 |} =>
      p <- pull (Streetlamp.device_eui s) t0 t1 db ;;
      let '(tbl, nd) := p in
      let db := Db.set_daily tbl db in
      let db :=
        Db.set_stream_states
          (StreamStateRepository.update_consumer local strname t1
             (Db.stream_states db)) db in
      let db :=
        Db.set_stream_states
          (StreamStateRepository.update_producer local
             ("streetlamp:state:weekly:" ++ Streetlamp.device_eui s)
             (Utils.round_to_week t1)
             (Db.stream_states db)) db in
      let db :=
        Db.set_stream_states
          (StreamStateRepository.update_producer local
             ("streetlamp:state:monthly:" ++ Streetlamp.device_eui s)
             (Utils.round_to_month t1)
             (Db.stream_states db)) db in
      Ok (db, tnd + nd)
  end.

Fixpoint aggregate_loop (devices : list Streetlamp.t) (acc : Db.t * Z)
  : result (Db.t * Z) :=
  match devices with
  | [] => Ok acc
  | s :: devices' =>
      acc' <- aggregate_device s acc ;;
      aggregate_loop devices' acc'
  end.

Definition aggregate (db : Db.t) : result (Db.t * Z) :=
  aggregate_loop (Db.streetlamps db) (db, 0).

End Service.
End StreetlampDailyAggregationService.

Module StreetlampWeeklyAggregationService.
Section Service.
Variable local : Datetime.tzinfo.
Variable pull : pull_t.          (* [weekly_state_repo.pull] *)

Definition strname (device_eui : string) : string :=
  "streetlamp:state:weekly:" ++ device_eui.

Definition _get_weekly_range (strname dev_eui : string) (db : Db.t)
  : result (option _StreamDataRange) :=
  get_range local
    (odse <- RollupRepository.find_oldest_by_dev_eui dev_eui
               (Db.daily_streetlamp_state db) ;;
     Ok (option_map
           (fun odse => Datetime.of_timestamptz (RollupState.bucket odse))
           odse))
    strname db.

Definition aggregate_device (s : Streetlamp.t) (acc : Db.t * Z)
  : result (Db.t * Z) :=
  let '(db, tnw) := acc in
  let strname := strname (Streetlamp.device_eui s) in
  r <- _get_weekly_range strname (Streetlamp.device_eui s) db ;;
  match r with
  | None => Ok (db, tnw)
  | Some {| t0 := t0; t1 := t1 |} =>
      p <- pull (Streetlamp.device_eui s) t0 t1 db ;;
      let '(tbl, nw) := p in
      let db := Db.set_weekly tbl db in
      let db :=
        Db.set_stream_states
          (StreamStateRepository.update_consumer local strname t1
             (Db.stream_states db)) db in
      Ok (db, tnw + nw)
  end.

Fixpoint aggregate_loop (devices : list Streetlamp.t) (acc : Db.t * Z)
  : result (Db.t * Z) :=
  match devices with
  | [] => Ok acc
  | s :: devices' =>
      acc' <- aggregate_device s acc ;;
      aggregate_loop devices' acc'
  end.

Definition aggregate (db : Db.t) : result (Db.t * Z) :=
  aggregate_loop (Db.streetlamps db) (db, 0).

End Service.
End StreetlampWeeklyAggregationService.

Module StreetlampMonthlyAggregationService.
Section Service.
Variable local : Datetime.tzinfo.
Variable pull : pull_t.          (* [monthly_state_repo.pull] *)

Definition strname (device_eui : string) : string :=
  "streetlamp:state:monthly:" ++ device_eui.

Definition _get_monthly_range (strname dev_eui : string) (db : Db.t)
  : result (option _StreamDataRange) :=
  get_range local
    (odse <- RollupRepository.find_oldest_by_dev_eui dev_eui
               (Db.daily_streetlamp_state db) ;;
     Ok (option_map
           (fun odse => Datetime.of_timestamptz (RollupState.bucket odse))
           odse))
    strname db.

Definition aggregate_device (s : Streetlamp.t) (acc : Db.t * Z)
  : result (Db.t * Z) :=
  let '(db, tnm) := acc in
  let strname := strname (Streetlamp.device_eui s) in
  r <- _get_monthly_range strname (Streetlamp.device_eui s) db ;;
  match r with
  | None => Ok (db, tnm)
  | Some {| t0 := t0; t1 := t1 |} =>
      p <- pull (Streetlamp.device_eui s) t0 t1 db ;;
      let '(tbl, nm) := p in
      let db := Db.set_monthly tbl db in
      let db :=
        Db.set_stream_states
          (StreamStateRepository.update_consumer local strname t1
             (Db.stream_states db)) db in
      Ok (db, tnm + nm)
  end.

Fixpoint aggregate_loop (devices : list Streetlamp.t) (acc : Db.t * Z)
  : result (Db.t * Z) :=
  match devices with
  | [] => Ok acc
  | s :: devices' =>
      acc' <- aggregate_device s acc ;;
      aggregate_loop devices' acc'
  end.

Definition aggregate (db : Db.t) : result (Db.t * Z) :=
  aggregate_loop (Db.streetlamps db) (db, 0).

End Service.
End StreetlampMonthlyAggregationService.

(** ** [api/main.py]: the queue consumer and the scheduler loop *)

(** A Redis stream id [ms-seq]; ['0-0'] is [(0, 0)]. *)
Definition stream_id : Type := (Z * Z)%type.

Definition stream_id_ltb (a b : stream_id) : bool :=
  (fst a <? fst b) || ((fst a =? fst b) && (snd a <? snd b)).

(** The field ['value'] of a queue entry: JSON text that
    [StreetlampStateCreate.parse_raw] either accepts or rejects. *)
Inductive raw_value : Type :=
| Json (ssc : StreetlampStateCreate.t)
| Malformed.

Definition parse_raw (v : raw_value) : result StreetlampStateCreate.t :=
  match v with
  | Json ssc => Ok ssc
  | Malformed => Raise ValidationError
  end.

Record entry : Type := { item_id : stream_id; value : raw_value }.

Inductive log_record : Type :=
| LogInfo (msg : string)
| LogDebug (msg : string) (n : Z)
| LogError (msg : string) (e : exn)
| LogException (msg : string) (e : exn).

(** The store, the stream ['nl:streetlamp_states'] and the log. *)
Module World.
Record t : Type := {
  db : Db.t;
  queue : list entry;
  log : list log_record
}.
End World.

(** [xread(streams={key: last_id_seen}, count=batch_size)]. *)
Definition xread (last_id_seen : stream_id) (count : nat)
           (queue : list entry) : list entry :=
  firstn count (filter (fun e => stream_id_ltb last_id_seen (item_id e)) queue).

Definition xdel (i : stream_id) (queue : list entry) : list entry :=
  filter (fun e => negb ((fst (item_id e) =? fst i)
                         && (snd (item_id e) =? snd i))) queue.

Module Main.
Section Process.
Variable local : Datetime.tzinfo.
(** Whether [xdel] on an entry fails with [redis.RedisError]. *)
Variable xdel_raises : stream_id -> bool.
Variables hourly_pull daily_pull weekly_pull monthly_pull : pull_t.

(** The variables of [proc_streetlamp_state_batch] while it runs. *)
Record batch_state : Type := {
  b_db : Db.t;
  b_queue : list entry;
  b_log : list log_record;
  n : Z;
  last_id_seen : stream_id
}.

(** The [try] block of the inner loop: create the reading when the
    payload has data, then delete the entry. *)
Definition try_item (it : entry) (ssc : StreetlampStateCreate.t)
           (st : batch_state) : batch_state * option exn :=
  let created :=
    match StreetlampStateCreate.data ssc with
    | [] => Ok (b_db st, n st)
    | _ :: _ =>
        r <- StreetlampStateService.create local ssc (b_db st) ;;
        let '(db, ssid) := r in
        Ok (db, match ssid with Some _ => n st + 1 | None => n st end)
    end in
  match created with
  | Raise e => (st, Some e)
  | Ok (db, n') =>
      let st := {| b_db := db; b_queue := b_queue st; b_log := b_log st;
                   n := n'; last_id_seen := last_id_seen st |} in
      if xdel_raises (item_id it) then (st, Some RedisError)
      else ({| b_db := b_db st; b_queue := xdel (item_id it) (b_queue st);
               b_log := b_log st; n := n st;
               last_id_seen := last_id_seen st |}, None)
  end.

(** One turn of the inner [for]: [parse_raw], the [try], its
    [except redis.RedisError] and its [finally].  The second component is
    the exception that leaves the loop body, if any. *)
Definition proc_item (it : entry) (st : batch_state)
  : batch_state * option exn :=
  match parse_raw (value it) with
  | Raise e => (st, Some e)
  | Ok ssc =>
      let '(st, e) := try_item it ssc st in
      let st := {| b_db := b_db st; b_queue := b_queue st; b_log := b_log st;
                   n := n st; last_id_seen := item_id it |} in
      match e with
      | Some RedisError =>
          ({| b_db := b_db st; b_queue := b_queue st;
              b_log := b_log st
                       ++ [LogError "Failed creating streetlamp states"
                                    RedisError];
              n := n st; last_id_seen := last_id_seen st |}, None)
      | _ => (st, e)
      end
  end.

Fixpoint proc_items (items : list entry) (st : batch_state)
  : batch_state * option exn :=
  match items with
  | [] => (st, None)
  | it :: items' =>
      match proc_item it st with
      | (st', None) => proc_items items' st'
      | (st', Some e) => (st', Some e)
      end
  end.

(** [proc_streetlamp_state_batch(last_id_seen, batch_size)].  The session
    is committed when the block ends normally and rolled back when an
    exception leaves it; the function returns [None]. *)
Definition proc_streetlamp_state_batch (last_id_seen : stream_id)
           (batch_size : nat) (w : World.t) : World.t * unit :=
  let st := {| b_db := World.db w; b_queue := World.queue w;
               b_log := World.log w; n := 0;
               last_id_seen := last_id_seen |} in
  match proc_items (xread last_id_seen batch_size (World.queue w)) st with
  | (st', None) =>
      ({| World.db := b_db st'; World.queue := b_queue st';
          World.log := b_log st'
                       ++ [LogDebug "streetlamp state created" (n st')] |},
       tt)
  | (st', Some e) =>
      ({| World.db := World.db w; World.queue := b_queue st';
          World.log := b_log st'
                       ++ [LogException "Failed processing streetlamp states"
                                        e] |},
       tt)
  end.

(** [run_agg_process()]: the four stages in one session. *)
Definition run_agg_process (w : World.t) : World.t :=
  let started :=
    World.log w ++ [LogInfo "Started running the aggregation process"] in
  match
    (r1 <- StreetlampHourlyAggregationService.aggregate local hourly_pull
             (World.db w) ;;
     r2 <- StreetlampDailyAggregationService.aggregate local daily_pull
             (fst r1) ;;
     r3 <- StreetlampWeeklyAggregationService.aggregate local weekly_pull
             (fst r2) ;;
     r4 <- StreetlampMonthlyAggregationService.aggregate local monthly_pull
             (fst r3) ;;
     Ok (fst r4))
  with
  | Ok db =>
      {| World.db := db; World.queue := World.queue w;
         World.log :=
           started ++ [LogInfo "Finished running the aggregation process"] |}
  | Raise e =>
      {| World.db := World.db w; World.queue := World.queue w;
         World.log :=
           started
           ++ [LogException "Failed to finish running the aggregation process"
                            e] |}
  end.

(** One turn of the [while True] of [proc_streetlamp_states]; [now] and
    [now'] are the two readings of [time.time()], [t] the time of the last
    aggregation pass. *)
Definition proc_streetlamp_states_turn (now now' : Float64.float)
           (last_id_seen : stream_id) (st : World.t * Float64.float)
  : World.t * Float64.float :=
  let '(w, t) := st in
  let '(w, _) := proc_streetlamp_state_batch last_id_seen 1000 w in
  if Float64.gtb (Float64.sub now t) (Float64.of_Z (15 * 60))
  then (run_agg_process w, now')
  else (w, t).

(** [proc_streetlamp_states()] run for as many turns as there are clock
    readings; [last_id_seen] is bound once, before the loop. *)
Definition proc_streetlamp_states (clock : list (Float64.float * Float64.float))
           (w : World.t) : World.t * Float64.float :=
  let last_id_seen : stream_id := (0, 0) in
  fold_left
    (fun st c => proc_streetlamp_states_turn (fst c) (snd c) last_id_seen st)
    clock (w, S754_zero false).

End Process.
End Main.

(** ** [api/services.py]: the summary calculator *)

Module StreetlampStateSummary.
Record t : Type := {
  ndevices : Z;
  voltage : Float64.float;
  current : Float64.float;
  energy_out : Float64.float;
  energy_in : Float64.float;
  power : Float64.float;
  frequency : Float64.float;
  on_time : Float64.float
}.
End StreetlampStateSummary.

Module StreetlampsEnergySavings.
Record t : Type := {
  percentage : Float64.float;
  avg_in_watts : Float64.float
}.
End StreetlampsEnergySavings.

Module DashboardService.

Definition _get_energy_savings_summary
           (summ : option StreetlampStateSummary.t)
  : result StreetlampsEnergySavings.t :=
  match summ with
  | None =>
      Ok {| StreetlampsEnergySavings.percentage := S754_zero false;
            StreetlampsEnergySavings.avg_in_watts := S754_zero false |}
  | Some summ =>
      h <- Float64.truediv (StreetlampStateSummary.on_time summ)
                           (Float64.of_Z 3600) ;;
      let total := Float64.mul (Float64.of_Z 250) h in
      let savings := Float64.sub total (StreetlampStateSummary.energy_in summ) in
      p <- (if Float64.neqb total (S754_zero false)
            then Float64.truediv (Float64.mul (Float64.of_Z 100) savings) total
            else Ok (S754_zero false)) ;;
      a <- (if negb (StreetlampStateSummary.ndevices summ =? 0)
            then Float64.truediv savings
                   (Float64.of_Z (StreetlampStateSummary.ndevices summ))
            else Ok (S754_zero false)) ;;
      Ok {| StreetlampsEnergySavings.percentage := Float64.round p 1;
            StreetlampsEnergySavings.avg_in_watts := Float64.round a 2 |}
  end.

End DashboardService.

(** * Vocabulary of the properties *)

Import Datetime Utils.

Definition is_finite (x : Float64.float) : bool :=
  match x with
  | S754_zero _ | S754_finite _ _ _ => true
  | _ => false
  end.

(** Codec *)
Definition valid_double (x : Float64.float) : Prop :=
  valid_binary Float64.prec Float64.emax x = true /\ is_finite x = true.

Definition valid_state (r : StreetlampDeviceState.t) : Prop :=
  valid_double (StreetlampDeviceState.voltage r)
  /\ valid_double (StreetlampDeviceState.current r)
  /\ valid_double (StreetlampDeviceState.energy_out r)
  /\ valid_double (StreetlampDeviceState.energy_in r)
  /\ valid_double (StreetlampDeviceState.power r)
  /\ valid_double (StreetlampDeviceState.frequency r).

(** Rule 4 in the words of the specification: the divisor is
    [max(1, floor(hours))]. *)
Definition spec_energy_rate_divisor (local : Datetime.tzinfo)
           (time ls_time : Datetime.datetime) : result Float64.float :=
  t <- Float64.floordiv
         (Datetime.total_seconds (Datetime.sub_aware local time ls_time))
         (Float64.of_Z 3600) ;;
  Ok (if Float64.gtb t (Float64.of_Z 1) then t else Float64.of_Z 1).

Definition spec_over_energy (local : Datetime.tzinfo)
           (time ls_time : Datetime.datetime)
           (energy_in ls_energy_in : Float64.float) : result bool :=
  t <- spec_energy_rate_divisor local time ls_time ;;
  r <- Float64.truediv (Float64.sub energy_in ls_energy_in) t ;;
  Ok (Float64.gtb r StreetlampStateService.max_ecr).

(** A reading reaches rule 4 with the prior reading [ls]. *)
Definition reaches_energy_rule (ssc : StreetlampStateCreate.t)
           (sds : StreetlampDeviceState.t) (db : Db.t)
           (ls : StreetlampState.t) : Prop :=
  decode_state_data (StreetlampStateCreate.data ssc) = Ok sds
  /\ StreetlampStateService.any_invalid_value sds = false
  /\ Float64.gtb (StreetlampDeviceState.power sds) StreetlampStateService.max_power = false
  /\ Float64.gtb (StreetlampDeviceState.frequency sds) StreetlampStateService.max_frequency = false
  /\ StreetlampStateRepository.find_latest_by_dev_eui
       (StreetlampStateCreate.dev_eui ssc) (Db.streetlamp_states db)
     = Ok (Some ls).

Definition over_energy_alarm (local : Datetime.tzinfo)
           (ssc : StreetlampStateCreate.t) (sds : StreetlampDeviceState.t)
           (db : Db.t) : result (Db.t * option Z) :=
  Ok (StreetlampStateService.raise_alarm local
        (Datetime.astimezone local Datetime.America_Santo_Domingo
           (StreetlampStateCreate.time ssc))
        (StreetlampStateCreate.dev_eui ssc) sds OVER_ENERGY MAJOR db, None).

Definition energy_rule_as_specified : Prop :=
  forall local ssc sds db ls,
    reaches_energy_rule ssc sds db ls ->
    (StreetlampStateService.create local ssc db = over_energy_alarm local ssc sds db
     <-> spec_over_energy local
           (Datetime.astimezone local Datetime.America_Santo_Domingo
              (StreetlampStateCreate.time ssc))
           (Datetime.of_timestamptz (StreetlampState.time ls))
           (StreetlampDeviceState.energy_in sds)
           (StreetlampState.dev_energy_in ls) = Ok true).

(** Sample readings of device [5058000000000001]. *)
Definition sample_state (energy_in : Z) (power voltage : Float64.float)
  : StreetlampDeviceState.t :=
  {| StreetlampDeviceState.voltage := voltage;
     StreetlampDeviceState.current := Float64.of_ratio false 1 10;
     StreetlampDeviceState.energy_out := S754_zero false;
     StreetlampDeviceState.energy_in := Float64.of_Z energy_in;
     StreetlampDeviceState.power := power;
     StreetlampDeviceState.frequency := Float64.of_Z 60;
     StreetlampDeviceState.status_on := true |}.

Definition message_of (dev_eui : string) (time : Datetime.datetime)
           (sds : StreetlampDeviceState.t) : StreetlampStateCreate.t :=
  {| StreetlampStateCreate.deduplication_id := "d";
     StreetlampStateCreate.time := time;
     StreetlampStateCreate.dev_eui := dev_eui;
     StreetlampStateCreate.data := encode_state_data sds |}.

Definition sample_message : Datetime.datetime -> StreetlampDeviceState.t ->
                            StreetlampStateCreate.t :=
  message_of "5058000000000001".

(** One message handled in a session of its own: a failure rolls back. *)
Definition ingest (local : Datetime.tzinfo) (ssc : StreetlampStateCreate.t)
           (db : Db.t) : Db.t :=
  match StreetlampStateService.create local ssc db with
  | Ok (db', _) => db'
  | Raise _ => db
  end.

Definition volts : Float64.float := Float64.of_ratio false 2396 10.

Definition at_hour (h : Z) : Datetime.datetime :=
  Datetime.mk_datetime 2024 3 1 h 0 0 0 (Some Datetime.UTC).

(** The store after a first reading with [energy_in = 1000] at 05:00. *)
Definition db_one_reading : Db.t :=
  ingest Datetime.UTC
    (sample_message (at_hour 5) (sample_state 1000 (Float64.of_Z 90) volts))
    Db.empty.

(** A rollup stage, as the four services instantiate it. *)
Record stage : Type := {
  stage_name : string -> string;
  stage_oldest : string -> Db.t -> result (option Datetime.datetime);
  stage_set_table : list RollupState.t -> Db.t -> Db.t;
  stage_next : list ((string -> string) * (Datetime.datetime -> Datetime.datetime))
}.

Definition set_producers (local : Datetime.tzinfo) (dev : string)
           (t1 : Datetime.datetime)
           (next : list ((string -> string) * (Datetime.datetime -> Datetime.datetime)))
           (tbl : list StreamState.t) : list StreamState.t :=
  fold_left (fun tbl nx => StreamStateRepository.update_producer local (fst nx dev) (snd nx t1) tbl)
            next tbl.

Definition stage_device (st : stage) (local : Datetime.tzinfo) (pull : pull_t)
           (s : Streetlamp.t) (acc : Db.t * Z) : result (Db.t * Z) :=
  let dev := Streetlamp.device_eui s in
  r <- get_range local (stage_oldest st dev (fst acc)) (stage_name st dev) (fst acc) ;;
  match r with
  | None => Ok acc
  | Some rg =>
      p <- pull dev (t0 rg) (t1 rg) (fst acc) ;;
      let db := stage_set_table st (fst p) (fst acc) in
      let db := Db.set_stream_states
                  (set_producers local dev (t1 rg) (stage_next st)
                     (StreamStateRepository.update_consumer local (stage_name st dev) (t1 rg)
                        (Db.stream_states db))) db in
      Ok (db, snd acc + snd p)
  end.

Fixpoint stage_loop (st : stage) (local : Datetime.tzinfo) (pull : pull_t)
         (devices : list Streetlamp.t) (acc : Db.t * Z) : result (Db.t * Z) :=
  match devices with
  | [] => Ok acc
  | s :: devices' =>
      acc' <- stage_device st local pull s acc ;;
      stage_loop st local pull devices' acc'
  end.

Definition hourly_stage : stage :=
  {| stage_name := StreetlampHourlyAggregationService.strname;
     stage_oldest := fun dev db =>
       oss <- StreetlampStateRepository.find_oldest_by_dev_eui dev
                (Db.streetlamp_states db) ;;
       Ok (option_map
             (fun oss => Utils.round_to_hour
                           (Datetime.of_timestamptz (StreetlampState.time oss)))
             oss);
     stage_set_table := Db.set_hourly;
     stage_next := [(StreetlampDailyAggregationService.strname, Utils.round_to_day)] |}.

Definition oldest_bucket (tbl : Db.t -> list RollupState.t) (dev : string) (db : Db.t)
  : result (option Datetime.datetime) :=
  o <- RollupRepository.find_oldest_by_dev_eui dev (tbl db) ;;
  Ok (option_map (fun o => Datetime.of_timestamptz (RollupState.bucket o)) o).

Definition daily_stage : stage :=
  {| stage_name := StreetlampDailyAggregationService.strname;
     stage_oldest := oldest_bucket Db.hourly_streetlamp_state;
     stage_set_table := Db.set_daily;
     stage_next := [(StreetlampWeeklyAggregationService.strname, Utils.round_to_week);
                    (StreetlampMonthlyAggregationService.strname, Utils.round_to_month)] |}.

Definition weekly_stage : stage :=
  {| stage_name := StreetlampWeeklyAggregationService.strname;
     stage_oldest := oldest_bucket Db.daily_streetlamp_state;
     stage_set_table := Db.set_weekly;
     stage_next := [] |}.

Definition monthly_stage : stage :=
  {| stage_name := StreetlampMonthlyAggregationService.strname;
     stage_oldest := oldest_bucket Db.daily_streetlamp_state;
     stage_set_table := Db.set_monthly;
     stage_next := [] |}.

Definition next_t : Type :=
  ((string -> string) * (Datetime.datetime -> Datetime.datetime))%type.

Record stage_ok (st : stage) : Prop := {
  name_inj : forall d d', stage_name st d = stage_name st d' -> d = d';
  next_apart : forall nx d d', In nx (stage_next st) ->
      String.eqb (StreamStateRepository.lower (fst nx d')) (StreamStateRepository.lower (stage_name st d)) = false;
  oldest_set_table : forall dev tbl db,
      stage_oldest st dev (stage_set_table st tbl db) = stage_oldest st dev db;
  oldest_set_streams : forall dev S db,
      stage_oldest st dev (Db.set_stream_states S db) = stage_oldest st dev db;
  streams_set_table : forall tbl db,
      Db.stream_states (stage_set_table st tbl db) = Db.stream_states db;
  streetlamps_set_table : forall tbl db,
      Db.streetlamps (stage_set_table st tbl db) = Db.streetlamps db
}.

(** Every watermark row that matches the stream name of a registered
    device up to letter case carries exactly that name. *)
Definition canonical_names (st : stage) (devices : list Streetlamp.t)
           (tbl : list StreamState.t) : Prop :=
  forall r s, In r tbl -> In s devices ->
    StreamStateRepository.lower (StreamState.name r)
    = StreamStateRepository.lower (stage_name st (Streetlamp.device_eui s)) ->
    StreamState.name r = stage_name st (Streetlamp.device_eui s).

Definition set_consumer (name : string) (ts : Z) (r : StreamState.t)
  : StreamState.t :=
  if String.eqb (StreamState.name r) name
  then {| StreamState.name := StreamState.name r;
          StreamState.producer_ts := StreamState.producer_ts r;
          StreamState.consumer_ts := Some ts |}
  else r.

Definition range_of (st : stage) (local : Datetime.tzinfo) (d : Streetlamp.t)
           (db : Db.t) : result (option _StreamDataRange) :=
  get_range local (stage_oldest st (Streetlamp.device_eui d) db)
            (stage_name st (Streetlamp.device_eui d)) db.

Definition after_pull (st : stage) (local : Datetime.tzinfo) (dev : string)
           (rg : _StreamDataRange) (tbl : list RollupState.t) (db : Db.t)
  : Db.t :=
  Db.set_stream_states
    (set_producers local dev (t1 rg) (stage_next st)
       (StreamStateRepository.update_consumer local (stage_name st dev) (t1 rg)
          (Db.stream_states (stage_set_table st tbl db))))
    (stage_set_table st tbl db).

(** The precondition of the second-pass property on a store. *)
Definition names_exact (st : stage) (db : Db.t) : Prop :=
  canonical_names st (Db.streetlamps db) (Db.stream_states db).

(** The watermark row that carries exactly [name]. *)
Definition watermark (name : string) (tbl : list StreamState.t)
  : option StreamState.t :=
  find (fun r => String.eqb (StreamState.name r) name) tbl.

Definition producer_of (name : string) (db : Db.t) : option Z :=
  match watermark name (Db.stream_states db) with
  | Some r => StreamState.producer_ts r
  | None => None
  end.

(** The failure semantics in the words of the specification: a device
    whose processing fails is skipped and the pass goes on. *)
Fixpoint isolating_loop (step : Streetlamp.t -> Db.t * Z -> result (Db.t * Z))
         (devices : list Streetlamp.t) (acc : Db.t * Z) : Db.t * Z :=
  match devices with
  | [] => acc
  | s :: devices' =>
      match step s acc with
      | Ok acc' => isolating_loop step devices' acc'
      | Raise _ => isolating_loop step devices' acc
      end
  end.

Definition device_failures_isolated : Prop :=
  forall local pull db,
    StreetlampHourlyAggregationService.aggregate local pull db
    = Ok (isolating_loop
            (StreetlampHourlyAggregationService.aggregate_device local pull)
            (Db.streetlamps db) (db, 0)).

(** The loop of the four [aggregate] methods over a step function. *)
Fixpoint raising_loop (step : Streetlamp.t -> Db.t * Z -> result (Db.t * Z))
         (devices : list Streetlamp.t) (acc : Db.t * Z) : result (Db.t * Z) :=
  match devices with
  | [] => Ok acc
  | s :: devices' => acc' <- step s acc ;; raising_loop step devices' acc'
  end.

(** What one pass does with its devices: [aggregate] as a function of
    the step. *)
Definition pass_semantics
           (aggregate : Db.t -> result (Db.t * Z))
           (step : Streetlamp.t -> Db.t * Z -> result (Db.t * Z))
           (db : Db.t) : Prop :=
  (forall r, aggregate db = Ok r ->
             r = isolating_loop step (Db.streetlamps db) (db, 0))
  /\ (forall e, aggregate db = Raise e <->
        exists ds1 s ds2 acc,
          Db.streetlamps db = ds1 ++ s :: ds2
          /\ raising_loop step ds1 (db, 0) = Ok acc
          /\ step s acc = Raise e).

(** A store with two devices: the first has two readings with the same
    timestamp, the second has readings at 05:00 and 06:00 waiting. *)
Definition two_devices : Db.t :=
  {| Db.streetlamps := [ {| Streetlamp.device_eui := "5058000000000001" |};
                         {| Streetlamp.device_eui := "5058000000000002" |} ];
     Db.streetlamp_states := []; Db.streetlamp_alarms := [];
     Db.stream_states := []; Db.hourly_streetlamp_state := [];
     Db.daily_streetlamp_state := []; Db.weekly_streetlamp_state := [];
     Db.monthly_streetlamp_state := [] |}.

Definition good_state : StreetlampDeviceState.t :=
  sample_state 1000 (Float64.of_Z 90) volts.

Definition db_duplicate_reading : Db.t :=
  ingest UTC (message_of "5058000000000002" (at_hour 6) good_state)
    (ingest UTC (message_of "5058000000000002" (at_hour 5) good_state)
       (ingest UTC (message_of "5058000000000001" (at_hour 5) good_state)
          (ingest UTC (message_of "5058000000000001" (at_hour 5) good_state)
             two_devices))).

(** A stand-in for the database's grouped upsert: the target table is
    left as it is and one row is reported. *)
Definition sample_pull (tbl : Db.t -> list RollupState.t) : pull_t :=
  fun _ _ _ db => Ok (tbl db, 1).

(** The watermark invariant: [consumer_ts], when not null, is at most
    [producer_ts]. *)
Definition watermark_ok (r : StreamState.t) : Prop :=
  match StreamState.consumer_ts r with
  | None => True
  | Some c =>
      match StreamState.producer_ts r with
      | Some p => c <= p
      | None => False
      end
  end.

Definition watermarks_ok (db : Db.t) : Prop :=
  Forall watermark_ok (Db.stream_states db).

(** No row called [name] has consumed past [ts]. *)
Definition not_consumed_past (name : string) (ts : Z)
           (tbl : list StreamState.t) : Prop :=
  forall r c, In r tbl -> StreamState.name r = name ->
              StreamState.consumer_ts r = Some c -> c <= ts.

(** The operations of the pipeline, each in a session of its own. *)
Inductive pipeline_op : Type :=
| Ingest (ssc : StreetlampStateCreate.t)
| Aggregate_hourly
| Aggregate_daily
| Aggregate_weekly
| Aggregate_monthly.

Definition commit (r : result (Db.t * Z)) (db : Db.t) : Db.t :=
  match r with
  | Ok (db', _) => db'
  | Raise _ => db
  end.

Definition run_op (local : tzinfo)
           (hourly_pull daily_pull weekly_pull monthly_pull : pull_t)
           (db : Db.t) (op : pipeline_op) : Db.t :=
  match op with
  | Ingest ssc => ingest local ssc db
  | Aggregate_hourly =>
      commit (StreetlampHourlyAggregationService.aggregate local hourly_pull db) db
  | Aggregate_daily =>
      commit (StreetlampDailyAggregationService.aggregate local daily_pull db) db
  | Aggregate_weekly =>
      commit (StreetlampWeeklyAggregationService.aggregate local weekly_pull db) db
  | Aggregate_monthly =>
      commit (StreetlampMonthlyAggregationService.aggregate local monthly_pull db)
             db
  end.

Definition watermark_invariant_as_specified : Prop :=
  forall local hourly_pull daily_pull weekly_pull monthly_pull ops db,
    watermarks_ok db ->
    watermarks_ok
      (fold_left (run_op local hourly_pull daily_pull weekly_pull monthly_pull)
                 ops db).

Definition one_device : Db.t :=
  {| Db.streetlamps := [ {| Streetlamp.device_eui := "5058000000000001" |} ];
     Db.streetlamp_states := []; Db.streetlamp_alarms := [];
     Db.stream_states := []; Db.hourly_streetlamp_state := [];
     Db.daily_streetlamp_state := []; Db.weekly_streetlamp_state := [];
     Db.monthly_streetlamp_state := [] |}.

(** Readings at 04:00 and 05:00, an hourly pass, then a late reading
    stamped 03:00. *)
Definition late_reading_run : list pipeline_op :=
  [ Ingest (sample_message (at_hour 4) good_state);
    Ingest (sample_message (at_hour 5) good_state);
    Aggregate_hourly;
    Ingest (sample_message (at_hour 3) good_state) ].

(** A step of a stage keeps the invariant when every producer timestamp
    it writes is not earlier than what the target row has consumed. *)
Definition step_keeps_watermarks (st : stage) (local : tzinfo)
           (step : Streetlamp.t -> Db.t * Z -> result (Db.t * Z)) : Prop :=
  forall s db n db' n',
    canonical_names st [s] (Db.stream_states db) ->
    NoDup (map StreamState.name (Db.stream_states db)) ->
    watermarks_ok db ->
    (forall rg nx,
       range_of st local s db = Ok (Some rg) -> In nx (stage_next st) ->
       not_consumed_past (fst nx (Streetlamp.device_eui s))
         (instant local (snd nx (t1 rg))) (Db.stream_states db)) ->
    step s (db, n) = Ok (db', n') ->
    watermarks_ok db'.

(** An entry whose payload decodes to three bytes only, followed by a
    well-formed reading. *)
Definition truncated_message : StreetlampStateCreate.t :=
  {| StreetlampStateCreate.deduplication_id := "d";
     StreetlampStateCreate.time := at_hour 5;
     StreetlampStateCreate.dev_eui := "5058000000000001";
     StreetlampStateCreate.data := list_ascii_of_string "AAAA" |}.

Definition poisoned_queue : list entry :=
  [ {| item_id := (1, 0); value := Json truncated_message |};
    {| item_id := (2, 0);
       value := Json (sample_message (at_hour 6) good_state) |} ].

Definition poisoned_world (log : list log_record) : World.t :=
  {| World.db := Db.empty; World.queue := poisoned_queue; World.log := log |}.

(** A well-formed entry handled before the failing one is deleted from
    the queue although its reading is rolled back with the session. *)
Definition reversed_queue : list entry :=
  [ {| item_id := (1, 0);
       value := Json (sample_message (at_hour 6) good_state) |};
    {| item_id := (2, 0); value := Json truncated_message |} ].

Definition savings_percentage_of (on_time energy_in : Float64.float)
  : Float64.float :=
  let total := Float64.mul (Float64.of_Z 250)
                 (Float64.div on_time (Float64.of_Z 3600)) in
  let savings := Float64.sub total energy_in in
  Float64.round
    (if Float64.neqb total (S754_zero false)
     then Float64.div (Float64.mul (Float64.of_Z 100) savings) total
     else S754_zero false) 1.

(** The value the specification's example expects:
    [100 * (250 * 12 - 900) / (250 * 12)]. *)
Definition expected_savings_pct : Float64.float :=
  Float64.div
    (Float64.mul (Float64.of_Z 100)
       (Float64.sub (Float64.mul (Float64.of_Z 250) (Float64.of_Z 12))
                    (Float64.of_Z 900)))
    (Float64.mul (Float64.of_Z 250) (Float64.of_Z 12)).

Definition summary_of (ndevices : Z) (on_time energy_in : Z)
  : StreetlampStateSummary.t :=
  {| StreetlampStateSummary.ndevices := ndevices;
     StreetlampStateSummary.voltage := Float64.of_Z 240;
     StreetlampStateSummary.current := Float64.of_Z 1;
     StreetlampStateSummary.energy_out := S754_zero false;
     StreetlampStateSummary.energy_in := Float64.of_Z energy_in;
     StreetlampStateSummary.power := Float64.of_Z 75;
     StreetlampStateSummary.frequency := Float64.of_Z 60;
     StreetlampStateSummary.on_time := Float64.of_Z on_time |}.

Definition savings_example_as_specified : Prop :=
  exists r,
    DashboardService._get_energy_savings_summary
      (Some (summary_of 1 (12 * 3600) 900000)) = Ok r
    /\ Float64.round (StreetlampsEnergySavings.percentage r) 2
       = Float64.round expected_savings_pct 2.

(** The reading stored by [db_one_reading]. *)
Definition no_reading : StreetlampState.t :=
  {| StreetlampState.id := 0; StreetlampState.deduplication_id := "";
     StreetlampState.time := 0; StreetlampState.dev_eui := "";
     StreetlampState.dev_voltage := S754_zero false;
     StreetlampState.dev_current := S754_zero false;
     StreetlampState.dev_energy_out := S754_zero false;
     StreetlampState.dev_energy_in := S754_zero false;
     StreetlampState.dev_power := S754_zero false;
     StreetlampState.dev_frequency := S754_zero false;
     StreetlampState.dev_status_on := false |}.

Definition prior_reading : StreetlampState.t :=
  hd no_reading (Db.streetlamp_states db_one_reading).

(** A reading with [voltage = NaN] and [power = 200]. *)
Definition nan_state : StreetlampDeviceState.t :=
  sample_state 1000 (Float64.of_Z 200) S754_nan.

(** One registered device with readings at 04:00 and 05:00, before and
    after a first hourly pass. *)
Definition sample_device : Streetlamp.t :=
  {| Streetlamp.device_eui := "5058000000000001" |}.

Definition db_two_readings : Db.t :=
  ingest UTC (sample_message (at_hour 5) good_state)
    (ingest UTC (sample_message (at_hour 4) good_state) one_device).

Definition db_first_pass : Db.t :=
  commit (StreetlampHourlyAggregationService.aggregate UTC
            (sample_pull Db.hourly_streetlamp_state) db_two_readings)
         db_two_readings.

Definition pending_range : _StreamDataRange :=
  match StreetlampHourlyAggregationService._get_hourly_range UTC
          (StreetlampHourlyAggregationService.strname "5058000000000001")
          "5058000000000001" db_two_readings with
  | Ok (Some rg) => rg
  | _ => {| t0 := at_hour 0; t1 := at_hour 0 |}
  end.

(** The second-pass property in the words of the specification, for the
    hourly stage: whatever the store, a pass that follows a finished
    pass skips every device and changes nothing. *)
Definition second_pass_noop_as_specified : Prop :=
  forall local pull db db1 n1,
    StreetlampHourlyAggregationService.aggregate local pull db = Ok (db1, n1) ->
    StreetlampHourlyAggregationService.aggregate local pull db1 = Ok (db1, 0)
    /\ forall s, In s (Db.streetlamps db1) ->
         StreetlampHourlyAggregationService._get_hourly_range local
           (StreetlampHourlyAggregationService.strname (Streetlamp.device_eui s))
           (Streetlamp.device_eui s) db1 = Ok None.

(** A device registered as [50580000000000ab] whose readings arrived
    under that identifier and, earlier, under [50580000000000AB]. *)
Definition lower_case_device : Db.t :=
  {| Db.streetlamps := [ {| Streetlamp.device_eui := "50580000000000ab" |} ];
     Db.streetlamp_states := []; Db.streetlamp_alarms := [];
     Db.stream_states := []; Db.hourly_streetlamp_state := [];
     Db.daily_streetlamp_state := []; Db.weekly_streetlamp_state := [];
     Db.monthly_streetlamp_state := [] |}.

Definition db_mixed_case : Db.t :=
  ingest UTC (message_of "50580000000000ab" (at_hour 6) good_state)
    (ingest UTC (message_of "50580000000000ab" (at_hour 4) good_state)
       (ingest UTC (message_of "50580000000000AB" (at_hour 5) good_state)
          (ingest UTC (message_of "50580000000000AB" (at_hour 4) good_state)
             lower_case_device))).

(** The outcome [out] of [create] is a rejection: [None] is returned,
    the readings and the watermarks are as before, and exactly one row
    was appended to the alarms, of the given kind and severity, not
    cleared, carrying the device, the instant and the values of the
    message. *)
Definition rejected_with (atype : AlarmType) (severity : AlarmSeverity)
           (local : tzinfo) (ssc : StreetlampStateCreate.t)
           (sds : StreetlampDeviceState.t) (db : Db.t)
           (out : result (Db.t * option Z)) : Prop :=
  exists db' a,
    out = Ok (db', None)
    /\ Db.streetlamp_states db' = Db.streetlamp_states db
    /\ Db.stream_states db' = Db.stream_states db
    /\ Db.streetlamp_alarms db' = Db.streetlamp_alarms db ++ [a]
    /\ StreetlampAlarm.atype a = atype
    /\ StreetlampAlarm.severity a = severity
    /\ StreetlampAlarm.cleared a = false
    /\ StreetlampAlarm.dev_eui a = StreetlampStateCreate.dev_eui ssc
    /\ StreetlampAlarm.time a = instant local (StreetlampStateCreate.time ssc)
    /\ StreetlampAlarm.dev_voltage a = StreetlampDeviceState.voltage sds
    /\ StreetlampAlarm.dev_power a = StreetlampDeviceState.power sds
    /\ StreetlampAlarm.dev_frequency a = StreetlampDeviceState.frequency sds
    /\ StreetlampAlarm.dev_energy_in a = StreetlampDeviceState.energy_in sds.

(** The outcome [out] of [create] is an acceptance: an id is returned,
    the alarms are as before, and exactly one row was appended to the
    readings, carrying the device, the instant and the energy of the
    message. *)
Definition accepted (local : tzinfo) (ssc : StreetlampStateCreate.t)
           (sds : StreetlampDeviceState.t) (db : Db.t)
           (out : result (Db.t * option Z)) : Prop :=
  exists db' i s,
    out = Ok (db', Some i)
    /\ Db.streetlamp_alarms db' = Db.streetlamp_alarms db
    /\ Db.streetlamp_states db' = Db.streetlamp_states db ++ [s]
    /\ StreetlampState.dev_eui s = StreetlampStateCreate.dev_eui ssc
    /\ StreetlampState.time s = instant local (StreetlampStateCreate.time ssc)
    /\ StreetlampState.dev_energy_in s = StreetlampDeviceState.energy_in sds.

(** A stage of [run_agg_process] raises [e] on the store that the
    stages before it returned. *)
Definition stage_raises (local : tzinfo)
           (hourly_pull daily_pull weekly_pull monthly_pull : pull_t)
           (db : Db.t) (e : exn) : Prop :=
  StreetlampHourlyAggregationService.aggregate local hourly_pull db = Raise e
  \/ (exists db1 n1,
        StreetlampHourlyAggregationService.aggregate local hourly_pull db
        = Ok (db1, n1)
        /\ StreetlampDailyAggregationService.aggregate local daily_pull db1
           = Raise e)
  \/ (exists db1 n1 db2 n2,
        StreetlampHourlyAggregationService.aggregate local hourly_pull db
        = Ok (db1, n1)
        /\ StreetlampDailyAggregationService.aggregate local daily_pull db1
           = Ok (db2, n2)
        /\ StreetlampWeeklyAggregationService.aggregate local weekly_pull db2
           = Raise e)
  \/ (exists db1 n1 db2 n2 db3 n3,
        StreetlampHourlyAggregationService.aggregate local hourly_pull db
        = Ok (db1, n1)
        /\ StreetlampDailyAggregationService.aggregate local daily_pull db1
           = Ok (db2, n2)
        /\ StreetlampWeeklyAggregationService.aggregate local weekly_pull db2
           = Ok (db3, n3)
        /\ StreetlampMonthlyAggregationService.aggregate local monthly_pull db3
           = Raise e).

(** What [run_agg_process] leaves when a stage raised [e]: the store and
    the queue as they were and the exception logged after "Started". *)
Definition rolled_back (w : World.t) (e : exn) : World.t :=
  {| World.db := World.db w; World.queue := World.queue w;
     World.log :=
       World.log w
       ++ [LogInfo "Started running the aggregation process";
           LogException "Failed to finish running the aggregation process"
                        e] |}.

(** A store whose second device cannot be handled by the daily stage:
    two hourly rows of it carry the same hour. *)
Definition hourly_row (dev_eui : string) (bucket : Z) : RollupState.t :=
  {| RollupState.bucket := bucket; RollupState.dev_eui := dev_eui;
     RollupState.voltage := volts;
     RollupState.current := Float64.of_ratio false 1 10;
     RollupState.energy_out := S754_zero false;
     RollupState.energy_in := S754_zero false;
     RollupState.power := Float64.of_Z 90;
     RollupState.frequency := Float64.of_Z 60;
     RollupState.on_time := Float64.of_Z 3600 |}.

Definition db_duplicate_hour : Db.t :=
  {| Db.streetlamps := [ {| Streetlamp.device_eui := "5058000000000001" |} ];
     Db.streetlamp_states := []; Db.streetlamp_alarms := [];
     Db.stream_states :=
       [ {| StreamState.name := "streetlamp:state:daily:5058000000000001";
            StreamState.producer_ts :=
              Some (wall (mk_datetime 2024 3 2 4 0 0 0 (Some UTC)));
            StreamState.consumer_ts := None |} ];
     Db.hourly_streetlamp_state :=
       [ hourly_row "5058000000000001" (wall (at_hour 4));
         hourly_row "5058000000000001" (wall (at_hour 4)) ];
     Db.daily_streetlamp_state := []; Db.weekly_streetlamp_state := [];
     Db.monthly_streetlamp_state := [] |}.

(** The instants at which the day, the week and the month of an aware
    datetime begin in the zone of that datetime. *)
Definition start_of_day (dt : datetime) (z : tzinfo) : Z :=
  wall dt - wall dt mod us_per_day - utcoffset z.

Definition start_of_week (dt : datetime) (z : tzinfo) : Z :=
  start_of_day dt z - weekday dt * us_per_day.

Definition start_of_month (dt : datetime) (z : tzinfo) : Z :=
  days_from_civil (year dt) (month dt) 1 * us_per_day - utcoffset z.

(** One registered device with readings at 01:00 and 02:00 UTC of
    2024-03-01, that is at 21:00 and 22:00 of 2024-02-29 in Santo
    Domingo, ingested by a process that runs in UTC. *)
Definition db_night_readings : Db.t :=
  ingest UTC (sample_message (at_hour 2) good_state)
    (ingest UTC (sample_message (at_hour 1) good_state) one_device).

Definition night_range : _StreamDataRange :=
  match StreetlampHourlyAggregationService._get_hourly_range UTC
          (StreetlampHourlyAggregationService.strname "5058000000000001")
          "5058000000000001" db_night_readings with
  | Ok (Some rg) => rg
  | _ => {| t0 := at_hour 0; t1 := at_hour 0 |}
  end.

Definition db_night_pass : Db.t :=
  commit (StreetlampHourlyAggregationService.aggregate UTC
            (sample_pull Db.hourly_streetlamp_state) db_night_readings)
         db_night_readings.

(** The store that the first hourly pass over [db_mixed_case] leaves. *)
Definition db_mixed_first_pass : Db.t :=
  commit (StreetlampHourlyAggregationService.aggregate UTC
            (sample_pull Db.hourly_streetlamp_state) db_mixed_case)
         db_mixed_case.

(** ** Further vocabulary: the codec, the stores, the queue and the clock *)

(** A well-formed double: finite, infinite or NaN. *)
Definition well_formed (x : Float64.float) : Prop :=
  valid_binary Float64.prec Float64.emax x = true.

(** The payload with arbitrary bytes where [encode_state_data] writes its
    tags, an arbitrary status byte and an arbitrary trailer. *)
Definition payload_of (tag : nat -> Z) (v i m e w f : Float64.float)
           (status : Z) (trailer : list Z) : list Z :=
  tag 0%nat :: Struct.pack_d v
  ++ tag 1%nat :: Struct.pack_d i
  ++ tag 2%nat :: Struct.pack_d m
  ++ tag 3%nat :: Struct.pack_d e
  ++ tag 4%nat :: Struct.pack_d w
  ++ tag 5%nat :: Struct.pack_d f
  ++ tag 6%nat :: status :: trailer.

(** The readings of a device in the table of raw readings. *)
Definition readings_of (dev_eui : string) (tbl : list StreetlampState.t)
  : list StreetlampState.t :=
  filter (fun r => String.eqb (StreetlampState.dev_eui r) dev_eui) tbl.

(** The devices, the raw readings and the alarms of two stores agree. *)
Definition raw_data_kept (db db' : Db.t) : Prop :=
  Db.streetlamps db' = Db.streetlamps db
  /\ Db.streetlamp_states db' = Db.streetlamp_states db
  /\ Db.streetlamp_alarms db' = Db.streetlamp_alarms db.

(** What handling one queue entry does to the store when nothing
    raises: the reading is created unless its payload is empty. *)
Definition handle_entry (local : tzinfo) (db : Db.t) (it : entry) : Db.t :=
  match parse_raw (value it) with
  | Ok ssc =>
      match StreetlampStateCreate.data ssc with
      | [] => db
      | _ :: _ => ingest local ssc db
      end
  | Raise _ => db
  end.

Definition same_id (a b : stream_id) : bool :=
  (fst a =? fst b) && (snd a =? snd b).

(** The queue entries deleted by a batch that handled [items]: those
    with the id of a handled entry whose [xdel] went through. *)
Definition deleted (xdel_raises : stream_id -> bool) (items : list entry)
           (e : entry) : bool :=
  existsb (fun it => same_id (item_id e) (item_id it)
                     && negb (xdel_raises (item_id it))) items.

(** Every entry of [items] parses and its reading is created without an
    exception on the store that the entries before it leave. *)
Definition goes_through (local : tzinfo) (items : list entry) (db : Db.t)
  : Prop :=
  forall pre it post,
    items = pre ++ it :: post ->
    exists ssc,
      parse_raw (value it) = Ok ssc
      /\ (StreetlampStateCreate.data ssc <> [] ->
          exists r,
            StreetlampStateService.create local ssc
              (fold_left (handle_entry local) pre db) = Ok r).

Definition redis_errors (xdel_raises : stream_id -> bool)
           (items : list entry) : list log_record :=
  map (fun _ => LogError "Failed creating streetlamp states" RedisError)
      (filter (fun it => xdel_raises (item_id it)) items).

(** A queue with a well-formed reading and a reading with a NaN
    voltage; the deletion of the second entry fails. *)
Definition two_entries : list entry :=
  [ {| item_id := (1, 0);
       value := Json (sample_message (at_hour 5) good_state) |};
    {| item_id := (2, 0);
       value := Json (sample_message (at_hour 6) nan_state) |} ].

Definition second_xdel_fails (i : stream_id) : bool := fst i =? 2.

(** ** [api/utils.py]: the functions that read the clock *)
Module UtilsNow.

(** The checks of the [datetime.datetime] constructor: [ValueError] when
    a field is out of range. *)
Definition is_leap (y : Z) : bool :=
  (y mod 4 =? 0) && (negb (y mod 100 =? 0) || (y mod 400 =? 0)).

Definition days_in_month (y m : Z) : Z :=
  if m =? 2 then (if is_leap y then 29 else 28)
  else if (m =? 4) || (m =? 6) || (m =? 9) || (m =? 11) then 30
  else 31.

(** [datetime.datetime(year=y, month=m, day=d, hour=hh, tzinfo=t)]. *)
Definition datetime_new (y m d hh : Z) (t : option tzinfo)
  : result datetime :=
  if (1 <=? y) && (y <=? 9999) && (1 <=? m) && (m <=? 12)
     && (1 <=? d) && (d <=? days_in_month y m)
     && (0 <=? hh) && (hh <=? 23)
  then Ok (mk_datetime y m d hh 0 0 0 t)
  else Raise ValueError.

Section Clock.
(** The zone of the process and the instant that the clock shows. *)
Variable local : tzinfo.
Variable clock : Z.

(** [datetime.datetime.now(tz=zoneinfo.ZoneInfo('UTC'))]. *)
Definition utcnow : datetime := {| wall := clock; tz := Some UTC |}.

(** [datetime.datetime.now(tz=zoneinfo.ZoneInfo('America/Santo_Domingo'))]. *)
Definition now : datetime :=
  {| wall := clock + utcoffset America_Santo_Domingo;
     tz := Some America_Santo_Domingo |}.

(** [datetime.datetime.combine(now(), datetime.time.min).astimezone(...)]:
    [combine] gives a naive datetime, which [astimezone] reads in the
    zone of the process. *)
Definition today_midnight : datetime :=
  astimezone local America_Santo_Domingo (round_to_day now).

Definition yesterday_midnight : datetime :=
  astimezone local America_Santo_Domingo
    (round_to_day {| wall := wall now - us_per_day; tz := tz now |}).

(** [t - datetime.timedelta(days=t.weekday(), weeks=1)]. *)
Definition last_week : datetime :=
  let t := today_midnight in
  {| wall := wall t - (weekday t * us_per_day + 7 * us_per_day);
     tz := tz t |}.

Definition current_month : result datetime :=
  datetime_new (year now) (month now) 1 0 (Some America_Santo_Domingo).

Definition last_month : result datetime :=
  datetime_new (year now) (month now - 1) 1 0 (Some America_Santo_Domingo).

Definition current_year : result datetime :=
  datetime_new (year now) 1 1 0 (Some America_Santo_Domingo).

Definition today_hour (hour : Z) : result datetime :=
  datetime_new (year now) (month now) (day now) hour
    (Some America_Santo_Domingo).

End Clock.
End UtilsNow.

(** 2024-01-15T12:00:00 and 2024-03-15T12:00:00 UTC as instants. *)
Definition january_noon : Z :=
  wall (mk_datetime 2024 1 15 12 0 0 0 (Some UTC)).
Definition march_noon : Z :=
  wall (mk_datetime 2024 3 15 12 0 0 0 (Some UTC)).

(** A reading whose [energy_in] is NaN and whose other fields are in
    range. *)
Definition nan_energy_state : StreetlampDeviceState.t :=
  {| StreetlampDeviceState.voltage := volts;
     StreetlampDeviceState.current := Float64.of_ratio false 1 10;
     StreetlampDeviceState.energy_out := S754_zero false;
     StreetlampDeviceState.energy_in := S754_nan;
     StreetlampDeviceState.power := Float64.of_Z 90;
     StreetlampDeviceState.frequency := Float64.of_Z 60;
     StreetlampDeviceState.status_on := true |}.

(** ** [api/services.py]: the other energy summaries of the dashboard *)

Module StreetlampsEnergyConsumption.
Record t : Type := {
  total_in_kw : Float64.float;
  avg_in_watts : Float64.float
}.
End StreetlampsEnergyConsumption.

Module StreetlampsDimmingSavings.
Record t : Type := {
  percentage : Float64.float;
  avg_in_watts : Float64.float
}.
End StreetlampsDimmingSavings.

Module StreetlampsCo2Savings.
Record t : Type := {
  total_in_ton : Float64.float;
  avg_in_ton : Float64.float
}.
End StreetlampsCo2Savings.

Module StreetlampEnergySummary.
Record t : Type := {
  consumption : StreetlampsEnergyConsumption.t;
  savings : StreetlampsEnergySavings.t;
  dimming_savings : StreetlampsDimmingSavings.t;
  co2_savings : StreetlampsCo2Savings.t
}.
End StreetlampEnergySummary.

(** [round(etco2 * (energy / 1000.0), 1)] with [etco2 = 6.99e-4]. *)
Definition energy_to_co2 (energy : Float64.float) : result Float64.float :=
  let etco2 := Float64.of_ratio false 699 1000000 in
  k <- Float64.truediv energy (Float64.of_Z 1000) ;;
  Ok (Float64.round (Float64.mul etco2 k) 1).

Module DashboardEnergy.

(** [x / summ.ndevices if summ.ndevices != 0 else 0.0]. *)
Definition per_device (x : Float64.float) (ndevices : Z)
  : result Float64.float :=
  if negb (ndevices =? 0) then Float64.truediv x (Float64.of_Z ndevices)
  else Ok (S754_zero false).

Definition _get_energy_consumption_summary
           (summ : option StreetlampStateSummary.t)
  : result StreetlampsEnergyConsumption.t :=
  match summ with
  | None =>
      Ok {| StreetlampsEnergyConsumption.total_in_kw := S754_zero false;
            StreetlampsEnergyConsumption.avg_in_watts := S754_zero false |}
  | Some summ =>
      k <- Float64.truediv (StreetlampStateSummary.energy_in summ)
                           (Float64.of_Z 1000) ;;
      a <- per_device (StreetlampStateSummary.energy_in summ)
                      (StreetlampStateSummary.ndevices summ) ;;
      Ok {| StreetlampsEnergyConsumption.total_in_kw := Float64.round k 2;
            StreetlampsEnergyConsumption.avg_in_watts := Float64.round a 2 |}
  end.

Definition _get_energy_dimming_savings_summary
           (summ : option StreetlampStateSummary.t)
  : result StreetlampsDimmingSavings.t :=
  match summ with
  | None =>
      Ok {| StreetlampsDimmingSavings.percentage := S754_zero false;
            StreetlampsDimmingSavings.avg_in_watts := S754_zero false |}
  | Some summ =>
      h <- Float64.truediv (StreetlampStateSummary.on_time summ)
                           (Float64.of_Z 3600) ;;
      let total := Float64.mul (Float64.of_Z 90) h in
      let savings :=
        Float64.sub total (StreetlampStateSummary.energy_in summ) in
      p <- (if Float64.neqb total (S754_zero false)
            then Float64.truediv (Float64.mul (Float64.of_Z 100) savings)
                                 total
            else Ok (S754_zero false)) ;;
      a <- per_device savings (StreetlampStateSummary.ndevices summ) ;;
      Ok {| StreetlampsDimmingSavings.percentage := Float64.round p 1;
            StreetlampsDimmingSavings.avg_in_watts := Float64.round a 2 |}
  end.

Definition _get_energy_co2_savings_summary
           (summ : option StreetlampStateSummary.t)
  : result StreetlampsCo2Savings.t :=
  match summ with
  | None =>
      Ok {| StreetlampsCo2Savings.total_in_ton := S754_zero false;
            StreetlampsCo2Savings.avg_in_ton := S754_zero false |}
  | Some summ =>
      h <- Float64.truediv (StreetlampStateSummary.on_time summ)
                           (Float64.of_Z 3600) ;;
      let savings :=
        Float64.sub (Float64.mul (Float64.of_Z 250) h)
                    (StreetlampStateSummary.energy_in summ) in
      t <- energy_to_co2 savings ;;
      a <- per_device savings (StreetlampStateSummary.ndevices summ) ;;
      a' <- energy_to_co2 a ;;
      Ok {| StreetlampsCo2Savings.total_in_ton := t;
            StreetlampsCo2Savings.avg_in_ton := a' |}
  end.

Definition _get_energy_summary (summ : option StreetlampStateSummary.t)
  : result StreetlampEnergySummary.t :=
  c <- _get_energy_consumption_summary summ ;;
  s <- DashboardService._get_energy_savings_summary summ ;;
  d <- _get_energy_dimming_savings_summary summ ;;
  o <- _get_energy_co2_savings_summary summ ;;
  Ok {| StreetlampEnergySummary.consumption := c;
        StreetlampEnergySummary.savings := s;
        StreetlampEnergySummary.dimming_savings := d;
        StreetlampEnergySummary.co2_savings := o |}.

End DashboardEnergy.

(** A summary fit for the dashboard: the device count is a count. *)
Definition count_in_range (summ : StreetlampStateSummary.t) : Prop :=
  0 <= StreetlampStateSummary.ndevices summ < 2 ^ 63.

(** The range that the four [_get_*_range] methods return for a
    watermark row whose two timestamps are set. *)
Definition watermark_range (local : tzinfo) (c p : Z)
  : option _StreamDataRange :=
  if c =? p then None
  else Some {| t0 := convert_to_default_tz local (of_timestamptz c);
               t1 := convert_to_default_tz local (of_timestamptz p) |}.

(** The store after two readings, an hourly pass and a late reading
    stamped 03:00, and its hourly watermark row. *)
Definition late_store : Db.t :=
  fold_left
    (run_op UTC (sample_pull Db.hourly_streetlamp_state)
       (sample_pull Db.daily_streetlamp_state)
       (sample_pull Db.weekly_streetlamp_state)
       (sample_pull Db.monthly_streetlamp_state))
    late_reading_run one_device.

Definition late_row : StreamState.t :=
  hd {| StreamState.name := ""; StreamState.producer_ts := None;
        StreamState.consumer_ts := None |}
     (Db.stream_states late_store).

(** The oldest entry of the queue cannot be handled: its JSON does not
    parse, or its payload does not decode. *)
Definition head_fails (queue : list entry) : Prop :=
  exists it rest e,
    xread (0, 0) 1000 queue = it :: rest
    /\ e <> RedisError
    /\ (parse_raw (value it) = Raise e
        \/ exists ssc,
             parse_raw (value it) = Ok ssc
             /\ StreetlampStateCreate.data ssc <> []
             /\ decode_state_data (StreetlampStateCreate.data ssc) = Raise e).

(** * Lemmas and theorems *)

(** ** Bytes, doubles and Base64 *)

Lemma land_shiftl_small (x y k : Z) :
  0 <= k -> 0 <= y < 2 ^ k -> Z.land (Z.shiftl x k) y = 0.
Proof.
  intros Hk Hy. apply Z.bits_inj'. intros n Hn.
  rewrite Z.land_spec, Z.bits_0.
  destruct (Z.lt_ge_cases n k) as [Hlt | Hge].
  - rewrite Z.shiftl_spec_low by assumption. reflexivity.
  - rewrite <- (Z.mod_small y (2 ^ k)) by assumption.
    rewrite Z.mod_pow2_bits_high by lia. apply andb_false_r.
Qed.

Lemma lor_shiftl_small (x y k : Z) :
  0 <= k -> 0 <= y < 2 ^ k -> Z.lor (Z.shiftl x k) y = x * 2 ^ k + y.
Proof.
  intros Hk Hy.
  rewrite <- (Z.shiftl_mul_pow2 x k Hk).
  rewrite <- (Z.add_lor_land (Z.shiftl x k) y).
  rewrite (land_shiftl_small x y k Hk Hy). lia.
Qed.

(** [struct]: eight little-endian bytes and the integer they spell. *)
Lemma pack_le_length (n : nat) (x : Z) : List.length (Struct.pack_le n x) = n.
Proof.
  revert x. induction n as [|n IH]; intros x; simpl; [reflexivity|].
  now rewrite IH.
Qed.

Lemma land_255 (x : Z) : Z.land x 255 = x mod 256.
Proof. change 255 with (Z.ones 8). rewrite Z.land_ones by lia. reflexivity. Qed.

Lemma pack_le_bytes (n : nat) (x : Z) : Forall is_byte (Struct.pack_le n x).
Proof.
  revert x. induction n as [|n IH]; intros x; simpl; constructor.
  - unfold is_byte. rewrite land_255. apply Z.mod_pos_bound. lia.
  - apply IH.
Qed.

Lemma unpack_pack_le (n : nat) (x : Z) :
  0 <= x < 2 ^ (8 * Z.of_nat n) ->
  Struct.unpack_le (Struct.pack_le n x) = x.
Proof.
  revert x. induction n as [|n IH]; intros x Hx.
  - simpl in *. lia.
  - cbn [Struct.pack_le Struct.unpack_le].
    rewrite IH.
    + rewrite Z.lor_comm, lor_shiftl_small; rewrite ?land_255, ?Z.shiftr_div_pow2;
        try lia.
      * change (2 ^ 8) with 256. pose proof (Z.div_mod x 256). lia.
      * change (2 ^ 8) with 256. apply Z.mod_pos_bound. lia.
    + rewrite Z.shiftr_div_pow2 by lia. change (2 ^ 8) with 256.
      replace (8 * Z.of_nat (S n)) with (8 + 8 * Z.of_nat n) in Hx by lia.
      rewrite Z.pow_add_r in Hx by lia. change (2 ^ 8) with 256 in Hx.
      split.
      * apply Z.div_pos; lia.
      * apply Z.div_lt_upper_bound; lia.
Qed.

(** The bit pattern of a finite double and back. *)
Lemma digits2_pos_bounds (p : positive) :
  2 ^ (Z.pos (digits2_pos p) - 1) <= Z.pos p < 2 ^ Z.pos (digits2_pos p).
Proof.
  induction p as [p IH | p IH |]; cbn [digits2_pos].
  - rewrite Pos2Z.inj_succ.
    replace (Z.succ (Z.pos (digits2_pos p)) - 1) with (Z.succ (Z.pos (digits2_pos p) - 1)) by lia.
    rewrite !Z.pow_succ_r by lia. lia.
  - rewrite Pos2Z.inj_succ.
    replace (Z.succ (Z.pos (digits2_pos p)) - 1) with (Z.succ (Z.pos (digits2_pos p) - 1)) by lia.
    rewrite !Z.pow_succ_r by lia. lia.
  - simpl. lia.
Qed.

Lemma fields_of_sum (S E M : Z) :
  0 <= S < 2 -> 0 <= E < 2048 -> 0 <= M < 2 ^ 52 ->
  let b := S * 2 ^ 63 + E * 2 ^ 52 + M in
  Z.testbit b 63 = (S =? 1)
  /\ Float64.exponent_field b = E
  /\ Float64.mantissa_field b = M.
Proof.
  intros HS HE HM b. unfold Float64.exponent_field, Float64.mantissa_field.
  assert (Hdiv : b / 2 ^ 52 = S * 2048 + E).
  { symmetry. apply (Z.div_unique b (2 ^ 52) (S * 2048 + E) M); [lia|].
    unfold b. change (2 ^ 63) with (2048 * 2 ^ 52). lia. }
  split; [|split].
  - rewrite Z.testbit_eqb by lia.
    assert (Hq : b / 2 ^ 63 = S).
    { symmetry. apply (Z.div_unique b (2 ^ 63) S (E * 2 ^ 52 + M)).
      - change (2 ^ 63) with (2048 * 2 ^ 52). lia.
      - unfold b. lia. }
    rewrite Hq. clear Hq Hdiv. subst b.
    assert (HS' : S = 0 \/ S = 1) by lia.
    destruct HS' as [-> | ->]; reflexivity.
  - rewrite Z.shiftr_div_pow2 by lia. rewrite Hdiv.
    change 2047 with (Z.ones 11). rewrite Z.land_ones by lia.
    change (2 ^ 11) with 2048.
    symmetry. apply (Z.mod_unique _ 2048 S E); lia.
  - change (2 ^ 52 - 1) with (Z.ones 52). rewrite Z.land_ones by lia.
    symmetry. apply (Z.mod_unique b (2 ^ 52) (S * 2048 + E) M); [lia|].
    unfold b. change (2 ^ 63) with (2048 * 2 ^ 52). lia.
Qed.

Lemma sign_field_eq (s : bool) :
  Float64.sign_field s = (if s then 1 else 0) * 2 ^ 63.
Proof. destruct s; reflexivity. Qed.

Lemma of_bits_to_bits (x : Float64.float) :
  valid_binary Float64.prec Float64.emax x = true ->
  is_finite x = true ->
  Float64.of_bits (Float64.to_bits x) = x.
Proof.
  intros Hv Hf. destruct x as [s | s | | s m e]; try discriminate.
  - destruct s; reflexivity.
  - cbn [valid_binary] in Hv. unfold bounded, canonical_mantissa, fexp, emin in Hv.
    apply andb_prop in Hv. destruct Hv as [Hc He].
    apply Z.eqb_eq in Hc. apply Z.leb_le in He.
    unfold Float64.prec, Float64.emax in *.
    pose proof (digits2_pos_bounds m) as Hd.
    cbn [Float64.to_bits]. rewrite sign_field_eq.
    destruct (Z.ltb_spec (Z.pos m) (2 ^ 52)) as [Hlt | Hge].
    + (* subnormal *)
      assert (Hdig : Z.pos (digits2_pos m) <= 52).
      { destruct (Z.le_gt_cases (Z.pos (digits2_pos m)) 52) as [H|H]; [exact H|].
        exfalso. assert (2 ^ 52 <= 2 ^ (Z.pos (digits2_pos m) - 1)).
        { apply Z.pow_le_mono_r; lia. } lia. }
      assert (e = -1074) by lia. subst e.
      destruct (fields_of_sum (if s then 1 else 0) 0 (Z.pos m)) as (Hs & Hx & Hm);
        [destruct s; lia | lia | lia |].
      cbv zeta in Hs, Hx, Hm. rewrite Z.mul_0_l, Z.add_0_r in Hs, Hx, Hm.
      unfold Float64.of_bits. rewrite Hs, Hx, Hm. cbn [Z.eqb].
      destruct s; reflexivity.
    + (* normal *)
      assert (Hdig : Z.pos (digits2_pos m) = 53).
      { destruct (Z.le_gt_cases (Z.pos (digits2_pos m)) 52) as [H|H].
        - exfalso. assert (2 ^ Z.pos (digits2_pos m) <= 2 ^ 52).
          { apply Z.pow_le_mono_r; lia. } lia.
        - lia. }
      rewrite Hdig in Hd. change (2 ^ (53 - 1)) with (2 ^ 52) in Hd.
      assert (Hexp : -1074 <= e <= 971) by lia.
      destruct (fields_of_sum (if s then 1 else 0) (e + 1075) (Z.pos m - 2 ^ 52))
        as (Hs & Hx & Hm);
        [destruct s; lia | lia | change (2 ^ 53) with (2 * 2 ^ 52) in Hd; lia |].
      cbv zeta in Hs, Hx, Hm.
      replace ((if s then 1 else 0) * 2 ^ 63 + (e + 1075) * 2 ^ 52 + (Z.pos m - 2 ^ 52))
        with ((if s then 1 else 0) * 2 ^ 63 + (e + 1075) * 2 ^ 52 + (Z.pos m - 2 ^ 52))
        by reflexivity.
      unfold Float64.of_bits. rewrite Hs, Hx, Hm.
      destruct (Z.eqb_spec (e + 1075) 0) as [H0|_]; [lia|].
      destruct (Z.eqb_spec (e + 1075) 2047) as [H0|_]; [lia|].
      replace (Z.pos m - 2 ^ 52 + 2 ^ 52) with (Z.pos m) by lia.
      replace (e + 1075 - 1075) with e by lia.
      destruct s; reflexivity.
Qed.

Lemma to_bits_range (x : Float64.float) :
  valid_binary Float64.prec Float64.emax x = true ->
  is_finite x = true ->
  0 <= Float64.to_bits x < 2 ^ 64.
Proof.
  intros Hv Hf. destruct x as [s | s | | s m e]; try discriminate.
  - destruct s; cbn; lia.
  - cbn [valid_binary] in Hv. unfold bounded, canonical_mantissa, fexp, emin in Hv.
    apply andb_prop in Hv. destruct Hv as [Hc He].
    apply Z.eqb_eq in Hc. apply Z.leb_le in He.
    unfold Float64.prec, Float64.emax in *.
    pose proof (digits2_pos_bounds m) as Hd.
    cbn [Float64.to_bits]. rewrite sign_field_eq.
    destruct (Z.ltb_spec (Z.pos m) (2 ^ 52)) as [Hlt | Hge].
    + change (2 ^ 64) with (2 * 2 ^ 63). change (2 ^ 63) with (2048 * 2 ^ 52) in *.
      destruct s; lia.
    + assert (Hdig : Z.pos (digits2_pos m) = 53).
      { destruct (Z.le_gt_cases (Z.pos (digits2_pos m)) 52) as [H|H].
        - exfalso. assert (2 ^ Z.pos (digits2_pos m) <= 2 ^ 52).
          { apply Z.pow_le_mono_r; lia. } lia.
        - lia. }
      rewrite Hdig in Hd. change (2 ^ (53 - 1)) with (2 ^ 52) in Hd.
      change (2 ^ 53) with (2 * 2 ^ 52) in Hd.
      change (2 ^ 64) with (4096 * 2 ^ 52). change (2 ^ 63) with (2048 * 2 ^ 52).
      destruct s; nia.
Qed.

(** The Base64 alphabet and its inverse table. *)
Lemma forall_below (P : Z -> bool) (N : nat) :
  forallb P (map Z.of_nat (seq 0 N)) = true ->
  forall n, 0 <= n < Z.of_nat N -> P n = true.
Proof.
  intros H n Hn. rewrite forallb_forall in H. apply H.
  apply in_map_iff. exists (Z.to_nat n). split; [lia|].
  apply in_seq. lia.
Qed.

Lemma table_a2b_b2a (n : Z) :
  0 <= n < 64 -> Base64.table_a2b (Base64.table_b2a n) = Some n.
Proof.
  intros Hn.
  pose (P := fun n => match Base64.table_a2b (Base64.table_b2a n) with
                      | Some m => m =? n | None => false end).
  assert (HP : P n = true).
  { apply (forall_below P 64); [vm_compute; reflexivity | exact Hn]. }
  unfold P in HP. destruct (Base64.table_a2b (Base64.table_b2a n)) as [m|];
    [|discriminate].
  apply Z.eqb_eq in HP. now subst.
Qed.

Lemma table_b2a_not_pad (n : Z) :
  0 <= n < 64 -> Ascii.eqb (Base64.table_b2a n) Base64.BASE64_PAD = false.
Proof.
  intros Hn.
  apply (forall_below
           (fun n => negb (Ascii.eqb (Base64.table_b2a n) Base64.BASE64_PAD)) 64)
    in Hn; [|vm_compute; reflexivity].
  now apply negb_true_iff in Hn.
Qed.

Lemma table_b2a_ascii (n : Z) :
  N.ltb (N_of_ascii (Base64.table_b2a n)) 128 = true.
Proof.
  unfold Base64.table_b2a.
  destruct (nth_in_or_default (Z.to_nat n) Base64.alphabet Base64.BASE64_PAD)
    as [Hin | ->]; [|reflexivity].
  assert (Hall : forallb (fun c => N.ltb (N_of_ascii c) 128) Base64.alphabet = true)
    by (vm_compute; reflexivity).
  rewrite forallb_forall in Hall. now apply Hall.
Qed.

Lemma a2b_loop_char (n : Z) (s : list ascii) (q : nat) (lc : Z) (p : nat)
      (acc : list Z) :
  0 <= n < 64 ->
  Base64.a2b_loop (Base64.table_b2a n :: s) q lc p acc =
  match q with
  | 0%nat => Base64.a2b_loop s 1 n 0 acc
  | 1%nat => Base64.a2b_loop s 2 (Z.land n 15) 0
               (Z.lor (Z.shiftl lc 2) (Z.shiftr n 4) :: acc)
  | 2%nat => Base64.a2b_loop s 3 (Z.land n 3) 0
               (Z.lor (Z.shiftl lc 4) (Z.shiftr n 2) :: acc)
  | _ => Base64.a2b_loop s 0 0 0 (Z.lor (Z.shiftl lc 6) n :: acc)
  end.
Proof.
  intros Hn. cbn [Base64.a2b_loop].
  rewrite (table_b2a_not_pad n Hn), (table_a2b_b2a n Hn). reflexivity.
Qed.

Lemma land_3 (x : Z) : Z.land x 3 = x mod 4.
Proof. change 3 with (Z.ones 2). now rewrite Z.land_ones by lia. Qed.
Lemma land_15 (x : Z) : Z.land x 15 = x mod 16.
Proof. change 15 with (Z.ones 4). now rewrite Z.land_ones by lia. Qed.
Lemma land_63 (x : Z) : Z.land x 63 = x mod 64.
Proof. change 63 with (Z.ones 6). now rewrite Z.land_ones by lia. Qed.

Ltac to_arith :=
  rewrite ?Z.shiftr_div_pow2 by lia;
  rewrite ?land_3, ?land_15, ?land_63;
  change (2 ^ 2) with 4; change (2 ^ 4) with 16; change (2 ^ 6) with 64.

Ltac arith := Z.div_mod_to_equations; lia.

(** The four sextets of a group of three bytes, as arithmetic. *)
Lemma sextet2 (b1 b2 : Z) :
  is_byte b1 -> is_byte b2 ->
  Z.lor (Z.shiftl (Z.land b1 3) 4) (Z.shiftr b2 4) = b1 mod 4 * 16 + b2 / 16.
Proof.
  unfold is_byte. intros H1 H2. to_arith.
  rewrite lor_shiftl_small; change (2 ^ 4) with 16; [reflexivity | lia | arith].
Qed.

Lemma sextet3 (b2 b3 : Z) :
  is_byte b2 -> is_byte b3 ->
  Z.lor (Z.shiftl (Z.land b2 15) 2) (Z.shiftr b3 6) = b2 mod 16 * 4 + b3 / 64.
Proof.
  unfold is_byte. intros H2 H3. to_arith.
  rewrite lor_shiftl_small; change (2 ^ 2) with 4; [reflexivity | lia | arith].
Qed.

Lemma byte1 (b1 c2 : Z) :
  is_byte b1 -> 0 <= c2 < 64 -> c2 / 16 = b1 mod 4 ->
  Z.lor (Z.shiftl (Z.shiftr b1 2) 2) (Z.shiftr c2 4) = b1.
Proof.
  unfold is_byte. intros H1 Hc Heq. to_arith.
  rewrite lor_shiftl_small; change (2 ^ 2) with 4; [arith | lia | arith].
Qed.

Lemma byte2 (b2 c2 c3 : Z) :
  is_byte b2 -> 0 <= c2 < 64 -> 0 <= c3 < 64 ->
  c2 mod 16 = b2 / 16 -> c3 / 4 = b2 mod 16 ->
  Z.lor (Z.shiftl (Z.land c2 15) 4) (Z.shiftr c3 2) = b2.
Proof.
  unfold is_byte. intros H2 Hc2 Hc3 E2 E3. to_arith.
  rewrite lor_shiftl_small; change (2 ^ 4) with 16; [arith | lia | arith].
Qed.

Lemma byte3 (b3 c3 : Z) :
  is_byte b3 -> 0 <= c3 < 64 -> c3 mod 4 = b3 / 64 ->
  Z.lor (Z.shiftl (Z.land c3 3) 6) (Z.land b3 63) = b3.
Proof.
  unfold is_byte. intros H3 Hc3 E3. to_arith.
  rewrite lor_shiftl_small; change (2 ^ 6) with 64; [arith | lia | arith].
Qed.

Lemma a2b_loop_pad (s : list ascii) (q : nat) (lc : Z) (p : nat)
      (acc : list Z) :
  Base64.a2b_loop (Base64.BASE64_PAD :: s) q lc p acc =
  if Nat.leb 2 q then
    if Nat.leb 4 (q + S p) then Ok (rev acc)
    else Base64.a2b_loop s q lc (S p) acc
  else Base64.a2b_loop s q lc p acc.
Proof. reflexivity. Qed.

Lemma list_ind3 {A : Type} (P : list A -> Prop) :
  P [] -> (forall a, P [a]) -> (forall a b, P [a; b]) ->
  (forall a b c l, P l -> P (a :: b :: c :: l)) ->
  forall l, P l.
Proof.
  intros H0 H1 H2 H3.
  fix IH 1. intros [|a [|b [|c l]]].
  - exact H0.
  - apply H1.
  - apply H2.
  - apply H3. apply IH.
Qed.

Lemma a2b_loop_b2a (bs : list Z) :
  Forall is_byte bs ->
  forall lc acc,
    Base64.a2b_loop (Base64.b2a_base64 bs) 0 lc 0 acc = Ok (rev acc ++ bs).
Proof.
  induction bs as [| b1 | b1 b2 | b1 b2 b3 bs IH] using list_ind3;
    intros Hb lc acc.
  - cbn. now rewrite app_nil_r.
  - inversion_clear Hb as [|? ? H1 _].
    assert (R1 : 0 <= Z.shiftr b1 2 < 64) by (unfold is_byte in H1; to_arith; arith).
    assert (R2 : 0 <= Z.shiftl (Z.land b1 3) 4 < 64).
    { unfold is_byte in H1. rewrite Z.shiftl_mul_pow2 by lia. to_arith. arith. }
    cbn [Base64.b2a_base64].
    rewrite (a2b_loop_char _ _ _ _ _ _ R1), (a2b_loop_char _ _ _ _ _ _ R2).
    rewrite !a2b_loop_pad. cbn [Nat.leb Nat.add rev].
    rewrite byte1; [reflexivity | assumption | assumption |].
    unfold is_byte in H1. rewrite Z.shiftl_mul_pow2 by lia. to_arith. arith.
  - inversion_clear Hb as [|? ? H1 Hb']. inversion_clear Hb' as [|? ? H2 _].
    assert (R1 : 0 <= Z.shiftr b1 2 < 64) by (unfold is_byte in H1; to_arith; arith).
    pose proof (sextet2 b1 b2 H1 H2) as E2.
    assert (R2 : 0 <= Z.lor (Z.shiftl (Z.land b1 3) 4) (Z.shiftr b2 4) < 64).
    { rewrite E2. unfold is_byte in *. arith. }
    assert (R3 : 0 <= Z.shiftl (Z.land b2 15) 2 < 64).
    { unfold is_byte in H2. rewrite Z.shiftl_mul_pow2 by lia. to_arith. arith. }
    cbn [Base64.b2a_base64].
    rewrite (a2b_loop_char _ _ _ _ _ _ R1), (a2b_loop_char _ _ _ _ _ _ R2),
      (a2b_loop_char _ _ _ _ _ _ R3).
    rewrite !a2b_loop_pad. cbn [Nat.leb Nat.add rev].
    rewrite byte1, (byte2 b2); try assumption.
    + now rewrite <- app_assoc.
    + rewrite E2. unfold is_byte in *. arith.
    + unfold is_byte in *. rewrite Z.shiftl_mul_pow2 by lia. to_arith. arith.
    + rewrite E2. unfold is_byte in *. arith.
  - inversion_clear Hb as [|? ? H1 Hb']. inversion_clear Hb' as [|? ? H2 Hb].
    inversion_clear Hb as [|? ? H3 Hb'].
    assert (R1 : 0 <= Z.shiftr b1 2 < 64) by (unfold is_byte in H1; to_arith; arith).
    pose proof (sextet2 b1 b2 H1 H2) as E2.
    pose proof (sextet3 b2 b3 H2 H3) as E3.
    assert (R2 : 0 <= Z.lor (Z.shiftl (Z.land b1 3) 4) (Z.shiftr b2 4) < 64).
    { rewrite E2. unfold is_byte in *. arith. }
    assert (R3 : 0 <= Z.lor (Z.shiftl (Z.land b2 15) 2) (Z.shiftr b3 6) < 64).
    { rewrite E3. unfold is_byte in *. arith. }
    assert (R4 : 0 <= Z.land b3 63 < 64) by (unfold is_byte in H3; to_arith; arith).
    cbn [Base64.b2a_base64].
    rewrite (a2b_loop_char _ _ _ _ _ _ R1), (a2b_loop_char _ _ _ _ _ _ R2),
      (a2b_loop_char _ _ _ _ _ _ R3), (a2b_loop_char _ _ _ _ _ _ R4).
    rewrite IH by assumption.
    rewrite byte1, (byte2 b2), byte3; try assumption.
    + cbn [rev]. now rewrite <- !app_assoc.
    + rewrite E3. unfold is_byte in *. arith.
    + rewrite E2. unfold is_byte in *. arith.
    + rewrite E3. unfold is_byte in *. arith.
    + rewrite E2. unfold is_byte in *. arith.
Qed.

Lemma b2a_base64_ascii (bs : list Z) :
  forallb (fun c => N.ltb (N_of_ascii c) 128) (Base64.b2a_base64 bs) = true.
Proof.
  induction bs as [| b1 | b1 b2 | b1 b2 b3 bs IH] using list_ind3;
    cbn [Base64.b2a_base64 forallb]; rewrite ?table_b2a_ascii; try reflexivity.
  exact IH.
Qed.

Lemma b64decode_b64encode (bs : list Z) :
  Forall is_byte bs -> Base64.b64decode (Base64.b64encode bs) = Ok bs.
Proof.
  intros Hb. unfold Base64.b64decode, Base64.b64encode.
  rewrite b2a_base64_ascii. unfold Base64.a2b_base64.
  now rewrite a2b_loop_b2a.
Qed.

Lemma unpack_d_pack_d (x : Float64.float) :
  valid_double x -> Struct.unpack_d (Struct.pack_d x) = Ok x.
Proof.
  intros [Hv Hf]. unfold Struct.unpack_d, Struct.pack_d.
  rewrite pack_le_length. cbn [Nat.eqb].
  rewrite unpack_pack_le by (apply to_bits_range; assumption).
  now rewrite of_bits_to_bits.
Qed.

Lemma pack_d_bytes (x : Float64.float) : Forall is_byte (Struct.pack_d x).
Proof. apply pack_le_bytes. Qed.

Lemma encode_float_bytes (h : ascii) (x : Float64.float) :
  Forall is_byte (encode_float h x).
Proof.
  constructor; [|apply pack_d_bytes].
  unfold is_byte, ord. pose proof (N_ascii_bounded h). lia.
Qed.

(** C6: for every state of six finite doubles and a boolean, decoding
    the encoded state returns that very state, the doubles bit for bit
    and the status flag unchanged. *)
Theorem decode_encode_state_data (r : StreetlampDeviceState.t) :
  valid_state r -> decode_state_data (encode_state_data r) = Ok r.
Proof.
  intros (Hv & Hi & Hm & He & Hw & Hf).
  destruct r as [v i m e w f s].
  unfold decode_state_data, encode_state_data.
  cbn [StreetlampDeviceState.voltage
    StreetlampDeviceState.current StreetlampDeviceState.energy_out
    StreetlampDeviceState.energy_in StreetlampDeviceState.power
    StreetlampDeviceState.frequency StreetlampDeviceState.status_on] in *.
  rewrite b64decode_b64encode.
  2:{ do 6 (apply Forall_app; split; [apply encode_float_bytes|]).
      cbn [app]. repeat apply Forall_cons; try apply Forall_nil;
        unfold is_byte, ord; try (destruct s; lia); cbn; lia. }
  cbn [bind].
  change (field_slice 0 _) with (Struct.pack_d v).
  change (field_slice 1 _) with (Struct.pack_d i).
  change (field_slice 2 _) with (Struct.pack_d m).
  change (field_slice 3 _) with (Struct.pack_d e).
  change (field_slice 4 _) with (Struct.pack_d w).
  change (field_slice 5 _) with (Struct.pack_d f).
  change (field_slice 6 _) with
    ((if s then 1 else 0) :: [255; 255; 255; 255; 255; 255; 255]).
  rewrite !unpack_d_pack_d by assumption. cbn [bind unpack_status].
  destruct s; reflexivity.
Qed.

(** The round trip on a sample reading. *)
Lemma decode_encode_state_data_witness :
  valid_state good_state
  /\ decode_state_data (encode_state_data good_state) = Ok good_state.
Proof.
  assert (H : valid_state good_state) by (repeat split; reflexivity).
  split; [exact H | exact (decode_encode_state_data good_state H)].
Defined.

(** ** The summary calculator *)

(** Rounding never turns a non-zero integer into zero. *)
Lemma shr_1_m (mrs : shr_record) :
  0 <= shr_m mrs -> shr_m (shr_1 mrs) = shr_m mrs / 2.
Proof.
  destruct mrs as [m r s]. cbn [shr_m]. intros Hm.
  destruct m as [|p|p]; [reflexivity | | lia].
  destruct p as [p|p|]; cbn [shr_1 shr_m].
  - rewrite (Pos2Z.inj_xI p). apply (Z.div_unique _ 2 _ 1); lia.
  - rewrite (Pos2Z.inj_xO p). apply (Z.div_unique _ 2 _ 0); lia.
  - reflexivity.
Qed.

Lemma pow2_xO (p : positive) : 2 ^ Z.pos p~0 = 2 ^ Z.pos p * 2 ^ Z.pos p.
Proof.
  rewrite (Pos2Z.inj_xO p). replace (2 * Z.pos p) with (Z.pos p + Z.pos p) by lia.
  apply Z.pow_add_r; lia.
Qed.

Lemma pow2_xI (p : positive) : 2 ^ Z.pos p~1 = 2 * (2 ^ Z.pos p * 2 ^ Z.pos p).
Proof.
  rewrite (Pos2Z.inj_xI p). replace (2 * Z.pos p + 1) with (1 + (Z.pos p + Z.pos p))
    by lia.
  rewrite Z.pow_add_r by lia. rewrite (Z.pow_add_r 2 (Z.pos p)) by lia.
  reflexivity.
Qed.

Lemma iter_pos_shr_1_m (p : positive) (mrs : shr_record) :
  0 <= shr_m mrs ->
  shr_m (iter_pos shr_1 p mrs) = shr_m mrs / 2 ^ Z.pos p.
Proof.
  revert mrs. induction p as [p IH | p IH |]; intros mrs Hm; cbn [iter_pos].
  - assert (H1 : 0 <= shr_m (shr_1 mrs)).
    { rewrite shr_1_m by assumption. apply Z.div_pos; lia. }
    assert (H2 : 0 <= shr_m (iter_pos shr_1 p (shr_1 mrs))).
    { rewrite IH by assumption. apply Z.div_pos; lia. }
    rewrite IH, IH, shr_1_m by assumption.
    rewrite !Z.div_div by lia. now rewrite pow2_xI.
  - assert (H2 : 0 <= shr_m (iter_pos shr_1 p mrs)).
    { rewrite IH by assumption. apply Z.div_pos; lia. }
    rewrite IH, IH by assumption.
    rewrite !Z.div_div by lia. now rewrite pow2_xO.
  - rewrite shr_1_m by assumption. reflexivity.
Qed.

Lemma shr_record_of_loc_m (m : Z) (l : location) :
  shr_m (shr_record_of_loc m l) = m.
Proof. destruct l as [|[]]; reflexivity. Qed.

Lemma Zdigits2_bounds (m : Z) :
  0 < m -> 2 ^ (Zdigits2 m - 1) <= m < 2 ^ Zdigits2 m.
Proof.
  destruct m as [|p|p]; try lia. intros _. apply digits2_pos_bounds.
Qed.

Lemma Zdigits2_pos (m : Z) : 0 < m -> 0 < Zdigits2 m.
Proof. destruct m; cbn; lia. Qed.

Lemma Zdigits2_ge (m : Z) (k : Z) :
  0 <= k -> 2 ^ k <= m -> k < Zdigits2 m.
Proof.
  intros Hk Hm.
  assert (0 < m) by (pose proof (Z.pow_pos_nonneg 2 k); lia).
  destruct (Zdigits2_bounds m H) as [_ Hu].
  destruct (Z.lt_ge_cases k (Zdigits2 m)) as [Hlt|Hge]; [exact Hlt|].
  exfalso. assert (2 ^ Zdigits2 m <= 2 ^ k) by (apply Z.pow_le_mono_r; lia). lia.
Qed.

Section Shr.
Variables prec emax : Z.
Hypothesis prec_pos : 0 < prec.

(** [shr_fexp] keeps a positive mantissa positive as long as the number
    is not below the smallest subnormal. *)
Lemma shr_fexp_pos (m e : Z) (l : location) :
  0 < m -> emin prec emax < Zdigits2 m + e ->
  let '(mrs, e') := shr_fexp prec emax m e l in
  0 < shr_m mrs /\ emin prec emax < Zdigits2 (shr_m mrs) + e'.
Proof.
  intros Hm He. unfold shr_fexp, shr.
  pose proof (Zdigits2_bounds m Hm) as [Hlo Hhi].
  pose proof (Zdigits2_pos m Hm) as Hd.
  set (d := Zdigits2 m) in *.
  destruct (fexp prec emax (d + e) - e) as [|n|n] eqn:En.
  - rewrite shr_record_of_loc_m. auto.
  - rewrite iter_pos_shr_1_m by (rewrite shr_record_of_loc_m; lia).
    rewrite shr_record_of_loc_m.
    assert (Hn : Z.pos n <= d - 1).
    { unfold fexp in En. lia. }
    assert (Hq : 2 ^ (d - 1 - Z.pos n) <= m / 2 ^ Z.pos n).
    { apply Z.div_le_lower_bound; [lia|].
      rewrite <- Z.pow_add_r by lia.
      replace (Z.pos n + (d - 1 - Z.pos n)) with (d - 1) by lia. exact Hlo. }
    split.
    + pose proof (Z.pow_pos_nonneg 2 (d - 1 - Z.pos n)). lia.
    + pose proof (Zdigits2_ge (m / 2 ^ Z.pos n) (d - 1 - Z.pos n)) as Hg.
      specialize (Hg ltac:(lia) Hq). lia.
  - rewrite shr_record_of_loc_m. auto.
Qed.

Lemma round_nearest_even_ge (m : Z) (l : location) :
  m <= round_nearest_even m l.
Proof.
  unfold round_nearest_even. destruct l as [|[]]; try lia.
  destruct (Z.even m); lia.
Qed.

Lemma Zdigits2_mono (a b : Z) : 0 < a -> a <= b -> Zdigits2 a <= Zdigits2 b.
Proof.
  intros Ha Hab.
  pose proof (Zdigits2_bounds a Ha) as [Hlo _].
  pose proof (Zdigits2_pos a Ha).
  pose proof (Zdigits2_ge b (Zdigits2 a - 1)) as Hg.
  specialize (Hg ltac:(lia) ltac:(lia)). lia.
Qed.

Lemma binary_round_aux_nonzero (sx : bool) (m e : Z) (l : location) :
  0 < m -> emin prec emax < Zdigits2 m + e ->
  SFeqb (binary_round_aux prec emax sx m e l) (S754_zero false) = false.
Proof.
  intros Hm He. unfold binary_round_aux.
  pose proof (shr_fexp_pos m e l Hm He) as H1.
  destruct (shr_fexp prec emax m e l) as [mrs' e'].
  destruct H1 as [Hp1 Hd1].
  pose proof (round_nearest_even_ge (shr_m mrs') (loc_of_shr_record mrs')) as Hr.
  set (m1 := round_nearest_even (shr_m mrs') (loc_of_shr_record mrs')) in *.
  assert (Hm1 : 0 < m1) by lia.
  assert (Hd1' : emin prec emax < Zdigits2 m1 + e').
  { pose proof (Zdigits2_mono (shr_m mrs') m1 Hp1 Hr). lia. }
  pose proof (shr_fexp_pos m1 e' loc_Exact Hm1 Hd1') as H2.
  destruct (shr_fexp prec emax m1 e' loc_Exact) as [mrs'' e''].
  destruct H2 as [Hp2 _].
  destruct (shr_m mrs'') as [|p|p]; try lia.
  destruct (Z.leb e'' (emax - prec)); destruct sx; reflexivity.
Qed.
End Shr.

Lemma digits2_pos_iter_xO (m k : positive) :
  Z.pos (digits2_pos (Pos.iter xO m k)) = Z.pos (digits2_pos m) + Z.pos k.
Proof.
  induction k as [|k IH] using Pos.peano_ind.
  - cbn. lia.
  - rewrite Pos.iter_succ. cbn [digits2_pos]. lia.
Qed.

Lemma of_Z_nonzero (n : Z) :
  n <> 0 -> Float64.eqb (Float64.of_Z n) (S754_zero false) = false.
Proof.
  intros Hn. unfold Float64.of_Z, Float64.eqb, binary_normalize.
  assert (H : forall s p, SFeqb (binary_round Float64.prec Float64.emax s p 0)
                                (S754_zero false) = false).
  { intros s p. unfold binary_round.
    destruct (shl_align p 0 _) as [mz ez] eqn:Es.
    apply binary_round_aux_nonzero; [reflexivity | lia |].
    unfold shl_align in Es.
    assert (Hd : 0 < Z.pos (digits2_pos p)) by lia.
    destruct (fexp Float64.prec Float64.emax (Z.pos (digits2_pos p) + 0) - 0)
      as [|d|d] eqn:Ed; injection Es as <- <-; cbn [Zdigits2];
      unfold emin, Float64.prec, Float64.emax in *.
    - lia.
    - lia.
    - rewrite digits2_pos_iter_xO. unfold fexp, emin in *. lia. }
  destruct n as [|p|p]; [contradiction | apply H | apply H].
Qed.

Lemma savings_example_as_specified_fails : ~ savings_example_as_specified.
Proof.
  intros (r & Hr & Hp). vm_compute in Hr. injection Hr as <-.
  vm_compute in Hp. discriminate Hp.
Qed.

Lemma truediv_nonzero (x y : Float64.float) :
  Float64.eqb y (S754_zero false) = false ->
  Float64.truediv x y = Ok (Float64.div x y).
Proof. intros H. unfold Float64.truediv. now rewrite H. Qed.

(** C4, as the code has it: the percentage is
    [100 * (baseline - energy_in) / baseline] rounded to one decimal,
    with [baseline = 250 * (on_time / 3600)], and [0] when the baseline
    is [0]; [energy_in] enters as it is stored.  For
    [on_time = 12 * 3600] the summary with [energy_in = 900] gives 70.0,
    the expected value to two decimals, and [energy_in = 900000] gives
    -29900.0. *)
Theorem savings_percentage (summ : StreetlampStateSummary.t) :
  let on_time := StreetlampStateSummary.on_time summ in
  let energy_in := StreetlampStateSummary.energy_in summ in
  let total := Float64.mul (Float64.of_Z 250)
                 (Float64.div on_time (Float64.of_Z 3600)) in
  (exists avg,
     DashboardService._get_energy_savings_summary (Some summ)
     = Ok {| StreetlampsEnergySavings.percentage :=
               savings_percentage_of on_time energy_in;
             StreetlampsEnergySavings.avg_in_watts := avg |})
  /\ (Float64.eqb total (S754_zero false) = true ->
      savings_percentage_of on_time energy_in = S754_zero false)
  /\ (on_time = Float64.of_Z (12 * 3600) ->
      (energy_in = Float64.of_Z 900 ->
       savings_percentage_of on_time energy_in = Float64.of_Z 70
       /\ Float64.round (savings_percentage_of on_time energy_in) 2
          = Float64.round expected_savings_pct 2)
      /\ (energy_in = Float64.of_Z 900000 ->
          savings_percentage_of on_time energy_in = Float64.of_Z (-29900)))
  /\ DashboardService._get_energy_savings_summary None
     = Ok {| StreetlampsEnergySavings.percentage := S754_zero false;
             StreetlampsEnergySavings.avg_in_watts := S754_zero false |}.
Proof.
  intros on_time energy_in total.
  split; [|split; [|split]].
  - unfold DashboardService._get_energy_savings_summary.
    rewrite truediv_nonzero by reflexivity. cbn [bind].
    fold on_time energy_in total.
    assert (Hp : (if Float64.neqb total (S754_zero false)
                  then Float64.truediv
                         (Float64.mul (Float64.of_Z 100)
                            (Float64.sub total energy_in)) total
                  else Ok (S754_zero false))
                 = Ok (if Float64.neqb total (S754_zero false)
                       then Float64.div
                              (Float64.mul (Float64.of_Z 100)
                                 (Float64.sub total energy_in)) total
                       else S754_zero false)).
    { unfold Float64.neqb. destruct (SFeqb total (S754_zero false)) eqn:E;
        cbn [negb]; [reflexivity|].
      now rewrite truediv_nonzero by exact E. }
    rewrite Hp. cbn [bind].
    destruct (Z.eqb_spec (StreetlampStateSummary.ndevices summ) 0) as [H0|H0];
      cbn [negb bind].
    + eexists. reflexivity.
    + rewrite truediv_nonzero by (apply of_Z_nonzero; exact H0).
      cbn [bind]. eexists. reflexivity.
  - intros H. unfold savings_percentage_of. fold total.
    unfold Float64.neqb. unfold Float64.eqb in H. rewrite H. reflexivity.
  - intros ->. split.
    + intros ->. split; vm_compute; reflexivity.
    + intros ->. vm_compute. reflexivity.
  - reflexivity.
Qed.

(** ** The validator *)

(** What [create] does once the payload is decoded. *)
Lemma create_decoded local ssc sds db :
  decode_state_data (StreetlampStateCreate.data ssc) = Ok sds ->
  StreetlampStateService.create local ssc db =
  let time := Datetime.astimezone local Datetime.America_Santo_Domingo
                (StreetlampStateCreate.time ssc) in
  let dev_eui := StreetlampStateCreate.dev_eui ssc in
  if StreetlampStateService.any_invalid_value sds then
    Ok (StreetlampStateService.raise_alarm local time dev_eui sds INVALID_VALUE MINOR db, None)
  else if Float64.gtb (StreetlampDeviceState.power sds) StreetlampStateService.max_power then
    Ok (StreetlampStateService.raise_alarm local time dev_eui sds OVER_POWER CRITICAL db, None)
  else if Float64.gtb (StreetlampDeviceState.frequency sds) StreetlampStateService.max_frequency then
    Ok (StreetlampStateService.raise_alarm local time dev_eui sds OVER_FREQUENCY CRITICAL db, None)
  else
    ls <- StreetlampStateRepository.find_latest_by_dev_eui dev_eui
            (Db.streetlamp_states db) ;;
    match ls with
    | Some ls =>
        over <- StreetlampStateService.over_energy local time
                  (Datetime.of_timestamptz (StreetlampState.time ls))
                  (StreetlampDeviceState.energy_in sds)
                  (StreetlampState.dev_energy_in ls) ;;
        if over : bool then
          Ok (StreetlampStateService.raise_alarm local time dev_eui sds OVER_ENERGY MAJOR db, None)
        else Ok (StreetlampStateService.insert_state local ssc time sds db)
    | None => Ok (StreetlampStateService.insert_state local ssc time sds db)
    end.
Proof. intros H. unfold StreetlampStateService.create. rewrite H. reflexivity. Qed.

Lemma instant_astimezone local z dt :
  instant local (astimezone local z dt) = instant local dt.
Proof. unfold astimezone, instant. cbn. lia. Qed.

Lemma raise_alarm_rejected local ssc sds a sv db :
  rejected_with a sv local ssc sds db
    (Ok (StreetlampStateService.raise_alarm local
           (Datetime.astimezone local Datetime.America_Santo_Domingo
              (StreetlampStateCreate.time ssc))
           (StreetlampStateCreate.dev_eui ssc) sds a sv db, None)).
Proof.
  unfold rejected_with. eexists. eexists. split; [reflexivity|].
  unfold StreetlampStateService.raise_alarm, _make_alarm.
  destruct db. cbn [Db.set_streetlamp_alarms Db.streetlamp_states
                    Db.stream_states Db.streetlamp_alarms
                    StreetlampAlarmRepository.insert StreetlampAlarm.atype
                    StreetlampAlarm.severity StreetlampAlarm.cleared
                    StreetlampAlarm.dev_eui StreetlampAlarm.time
                    StreetlampAlarm.dev_voltage StreetlampAlarm.dev_power
                    StreetlampAlarm.dev_frequency
                    StreetlampAlarm.dev_energy_in].
  repeat split. apply instant_astimezone.
Qed.

Lemma insert_state_accepted local ssc sds db :
  accepted local ssc sds db
    (Ok (StreetlampStateService.insert_state local ssc
           (Datetime.astimezone local Datetime.America_Santo_Domingo
              (StreetlampStateCreate.time ssc)) sds db)).
Proof.
  unfold accepted, StreetlampStateService.insert_state.
  unfold StreetlampStateRepository.insert.
  destruct db. cbn [Db.streetlamp_states Db.set_streetlamp_states
                    Db.set_stream_states].
  eexists. eexists. eexists. split; [reflexivity|].
  cbn [Db.streetlamp_alarms Db.streetlamp_states StreetlampState.dev_eui
       StreetlampState.time StreetlampState.dev_energy_in].
  repeat split. apply instant_astimezone.
Qed.

(** A rejection stores one alarm, so it has one kind. *)
Lemma rejected_with_kind a sv a' sv' local ssc sds db out :
  rejected_with a sv local ssc sds db out ->
  rejected_with a' sv' local ssc sds db out ->
  a = a' /\ sv = sv'.
Proof.
  intros (db1 & x & H1 & _ & _ & Hx & Ha & Hs & _)
         (db2 & y & H2 & _ & _ & Hy & Ha' & Hs' & _).
  rewrite H1 in H2. injection H2 as <-. rewrite Hx in Hy.
  apply app_inv_head in Hy. injection Hy as <-. split; congruence.
Qed.

(** C9: once the payload is decoded, the rules are tried in the order
    INVALID_VALUE, OVER_POWER, OVER_FREQUENCY, OVER_ENERGY and the first
    that matches decides the outcome: [create] returns [None], stores no
    reading and appends exactly one alarm, whose kind and severity are
    those of that rule (MINOR, CRITICAL, CRITICAL and MAJOR).  A reading
    with a NaN voltage and a power of 200 stores an alarm of kind
    INVALID_VALUE and severity MINOR, and none of kind OVER_POWER. *)
Theorem validation_order local ssc sds db :
  decode_state_data (StreetlampStateCreate.data ssc) = Ok sds ->
  let time := Datetime.astimezone local Datetime.America_Santo_Domingo
                (StreetlampStateCreate.time ssc) in
  let dev_eui := StreetlampStateCreate.dev_eui ssc in
  let alarm a s := Ok (StreetlampStateService.raise_alarm local time dev_eui sds a s db, None) in
  let raises a s :=
    StreetlampStateService.create local ssc db = alarm a s
    /\ rejected_with a s local ssc sds db
         (StreetlampStateService.create local ssc db) in
  (StreetlampStateService.any_invalid_value sds = true ->
   raises INVALID_VALUE MINOR)
  /\ (StreetlampStateService.any_invalid_value sds = false ->
      Float64.gtb (StreetlampDeviceState.power sds) StreetlampStateService.max_power = true ->
      raises OVER_POWER CRITICAL)
  /\ (StreetlampStateService.any_invalid_value sds = false ->
      Float64.gtb (StreetlampDeviceState.power sds) StreetlampStateService.max_power = false ->
      Float64.gtb (StreetlampDeviceState.frequency sds) StreetlampStateService.max_frequency = true ->
      raises OVER_FREQUENCY CRITICAL)
  /\ (StreetlampStateService.any_invalid_value sds = false ->
      Float64.gtb (StreetlampDeviceState.power sds) StreetlampStateService.max_power = false ->
      Float64.gtb (StreetlampDeviceState.frequency sds) StreetlampStateService.max_frequency = false ->
      forall ls,
        StreetlampStateRepository.find_latest_by_dev_eui dev_eui
          (Db.streetlamp_states db) = Ok (Some ls) ->
        StreetlampStateService.over_energy local time
          (Datetime.of_timestamptz (StreetlampState.time ls))
          (StreetlampDeviceState.energy_in sds)
          (StreetlampState.dev_energy_in ls) = Ok true ->
        raises OVER_ENERGY MAJOR)
  /\ (StreetlampDeviceState.voltage sds = S754_nan ->
      StreetlampDeviceState.power sds = Float64.of_Z 200 ->
      raises INVALID_VALUE MINOR
      /\ forall s, ~ rejected_with OVER_POWER s local ssc sds db
                       (StreetlampStateService.create local ssc db)).
Proof.
  intros Hd time dev_eui alarm raises.
  assert (Hr : forall a s,
             StreetlampStateService.create local ssc db = alarm a s ->
             raises a s).
  { intros a s H. split; [exact H|]. rewrite H.
    apply raise_alarm_rejected. }
  assert (Hnan : StreetlampDeviceState.voltage sds = S754_nan ->
                 raises INVALID_VALUE MINOR).
  { intros Hv. apply Hr. rewrite (create_decoded _ _ _ _ Hd).
    unfold StreetlampStateService.any_invalid_value,
      StreetlampStateService.invalid_value.
    rewrite Hv. reflexivity. }
  split; [|split; [|split; [|split]]].
  - intros Hi. apply Hr. rewrite (create_decoded _ _ _ _ Hd), Hi. reflexivity.
  - intros Hi Hp. apply Hr.
    rewrite (create_decoded _ _ _ _ Hd), Hi, Hp. reflexivity.
  - intros Hi Hp Hf. apply Hr.
    rewrite (create_decoded _ _ _ _ Hd), Hi, Hp, Hf. reflexivity.
  - intros Hi Hp Hf ls Hl Ho. apply Hr.
    rewrite (create_decoded _ _ _ _ Hd), Hi, Hp, Hf. cbv zeta.
    unfold dev_eui, time in Hl, Ho. rewrite Hl. cbn [bind]. rewrite Ho.
    reflexivity.
  - intros Hv _. split; [exact (Hnan Hv)|].
    intros s Hs. destruct (Hnan Hv) as [_ Hm].
    destruct (rejected_with_kind _ _ _ _ _ _ _ _ _ Hm Hs) as [Hk _].
    discriminate Hk.
Qed.

(** The example of the claim, run on an empty store. *)
Lemma validation_order_witness :
  decode_state_data
    (StreetlampStateCreate.data (sample_message (at_hour 5) nan_state))
  = Ok nan_state
  /\ rejected_with INVALID_VALUE MINOR UTC
       (sample_message (at_hour 5) nan_state) nan_state Db.empty
       (StreetlampStateService.create UTC
          (sample_message (at_hour 5) nan_state) Db.empty)
  /\ forall s,
       ~ rejected_with OVER_POWER s UTC
           (sample_message (at_hour 5) nan_state) nan_state Db.empty
           (StreetlampStateService.create UTC
              (sample_message (at_hour 5) nan_state) Db.empty).
Proof.
  assert (H : decode_state_data
                (StreetlampStateCreate.data
                   (sample_message (at_hour 5) nan_state)) = Ok nan_state)
    by (vm_compute; reflexivity).
  split; [exact H|].
  destruct (validation_order UTC (sample_message (at_hour 5) nan_state)
              nan_state Db.empty H) as (_ & _ & _ & _ & H5).
  destruct (H5 eq_refl eq_refl) as [[_ Hm] Hn].
  split; [exact Hm | exact Hn].
Defined.

Lemma energy_rule_as_specified_fails : ~ energy_rule_as_specified.
Proof.
  intros H.
  pose (sds := sample_state 201000 (Float64.of_Z 90) volts).
  pose (ssc := sample_message (at_hour 4) sds).
  destruct (StreetlampStateRepository.find_latest_by_dev_eui
              (StreetlampStateCreate.dev_eui ssc)
              (Db.streetlamp_states db_one_reading)) as [[ls|]|] eqn:Hls;
    try (vm_compute in Hls; discriminate).
  assert (Hr : reaches_energy_rule ssc sds db_one_reading ls).
  { repeat split; try (vm_compute; reflexivity). exact Hls. }
  apply (H Datetime.UTC) in Hr. destruct Hr as [_ Hr].
  vm_compute in Hls. injection Hls as Hls. subst ls.
  assert (Hc : StreetlampStateService.create Datetime.UTC ssc db_one_reading
               = over_energy_alarm Datetime.UTC ssc sds db_one_reading).
  { apply Hr. vm_compute. reflexivity. }
  vm_compute in Hc. discriminate Hc.
Qed.

Lemma floordiv_3600 (x : Float64.float) :
  Float64.floordiv x (Float64.of_Z 3600)
  = Ok (Float64.float_div_mod_quot x (Float64.of_Z 3600)).
Proof. reflexivity. Qed.

Lemma energy_rate_divisor_eq local time ls_time :
  StreetlampStateService.energy_rate_divisor local time ls_time =
  let t := Float64.float_div_mod_quot
             (Datetime.total_seconds (Datetime.sub_aware local time ls_time))
             (Float64.of_Z 3600) in
  Ok (if Float64.eqb t (S754_zero false) then Float64.of_Z 1 else t).
Proof. reflexivity. Qed.

Lemma divisor_nonzero (t : Float64.float) :
  Float64.eqb (if Float64.eqb t (S754_zero false) then Float64.of_Z 1 else t)
              (S754_zero false) = false.
Proof.
  destruct (Float64.eqb t (S754_zero false)) eqn:E; [reflexivity | exact E].
Qed.

Lemma over_energy_eq local time ls_time e e0 :
  StreetlampStateService.over_energy local time ls_time e e0 =
  let t := Float64.float_div_mod_quot
             (Datetime.total_seconds (Datetime.sub_aware local time ls_time))
             (Float64.of_Z 3600) in
  let d := if Float64.eqb t (S754_zero false) then Float64.of_Z 1 else t in
  Ok (Float64.gtb (Float64.div (Float64.sub e e0) d) StreetlampStateService.max_ecr).
Proof.
  unfold StreetlampStateService.over_energy. rewrite energy_rate_divisor_eq. cbv zeta. cbn [bind].
  unfold Float64.truediv. rewrite divisor_nonzero. reflexivity.
Qed.

Lemma insert_state_id local ssc time sds db :
  exists db' i, StreetlampStateService.insert_state local ssc time sds db = (db', Some i).
Proof. unfold StreetlampStateService.insert_state. cbn. eauto. Qed.

Lemma divisor_agrees_with_spec (t : Float64.float) :
  Float64.eqb t (S754_zero false) = true \/ Float64.leb (Float64.of_Z 1) t = true ->
  (if Float64.eqb t (S754_zero false) then Float64.of_Z 1 else t)
  = (if Float64.gtb t (Float64.of_Z 1) then t else Float64.of_Z 1).
Proof.
  change (Float64.of_Z 1) with (S754_finite false 4503599627370496 (-52)).
  unfold Float64.leb, Float64.gtb, Float64.eqb, SFleb, SFltb, SFeqb.
  intros [H | H]; destruct t as [s | s | | s m e]; cbn [SFcompare] in *;
    try discriminate H; try (destruct s; try discriminate H; reflexivity).
  destruct s; [discriminate H|].
  destruct (Z.compare_spec (-52) e) as [He | He | He].
  - subst e.
    change (PosDef.Pos.compare_cont Eq 4503599627370496 m)
      with (Pos.compare 4503599627370496 m) in *.
    destruct (Pos.compare_spec 4503599627370496 m) as [Hm | Hm | Hm];
      [subst m; reflexivity | reflexivity | discriminate H].
  - reflexivity.
  - discriminate H.
Qed.

Lemma negative_divisor (t : Float64.float) :
  Float64.ltb t (S754_zero false) = true ->
  (if Float64.eqb t (S754_zero false) then Float64.of_Z 1 else t) = t.
Proof.
  unfold Float64.ltb, Float64.eqb, SFltb, SFeqb.
  destruct t as [s | s | | s m e]; cbn [SFcompare]; try discriminate;
    destruct s; try discriminate; reflexivity.
Qed.

Lemma negative_below_one (t : Float64.float) :
  Float64.ltb t (S754_zero false) = true ->
  Float64.gtb t (Float64.of_Z 1) = false /\ t <> Float64.of_Z 1.
Proof.
  change (Float64.of_Z 1) with (S754_finite false 4503599627370496 (-52)).
  unfold Float64.ltb, Float64.gtb, SFltb.
  destruct t as [s | s | | s m e]; cbn [SFcompare]; try discriminate;
    destruct s; try discriminate; intros _; split;
    try reflexivity; discriminate.
Qed.

(** C3, as the code has it: for a reading that reaches rule 4 with a
    prior reading, the divisor is [t = floor(hours)], with [1] in its
    place only when [t == 0].  One alarm of kind OVER_ENERGY and
    severity MAJOR is stored and the reading dropped exactly when
    [(energy_in - prior.energy_in) / divisor] is above 100000, and the
    reading is stored otherwise.  The divisor is [max(1, t)] when
    [t == 0] or [t >= 1]; when [t < 0] it is the negative [t], where
    [max(1, t)] is 1: a reading stamped 30 minutes before the prior one
    has divisor -1, and with prior energy 1000 and energy 201000 it is
    stored although the rule with [max(1, t)] asks for an alarm.  With
    prior energy 1000 and one hour between the readings, energy 101001
    raises the alarm and energy 101000 is accepted. *)
Theorem energy_rule local ssc sds db ls :
  reaches_energy_rule ssc sds db ls ->
  let time := Datetime.astimezone local Datetime.America_Santo_Domingo
                (StreetlampStateCreate.time ssc) in
  let ls_time := Datetime.of_timestamptz (StreetlampState.time ls) in
  let e := StreetlampDeviceState.energy_in sds in
  let e0 := StreetlampState.dev_energy_in ls in
  let t := Float64.float_div_mod_quot
             (Datetime.total_seconds (Datetime.sub_aware local time ls_time))
             (Float64.of_Z 3600) in
  let d := if Float64.eqb t (S754_zero false) then Float64.of_Z 1 else t in
  let over := Float64.gtb (Float64.div (Float64.sub e e0) d) StreetlampStateService.max_ecr in
  let out := StreetlampStateService.create local ssc db in
  StreetlampStateService.energy_rate_divisor local time ls_time = Ok d
  /\ (over = true <-> out = over_energy_alarm local ssc sds db)
  /\ (over = true <-> rejected_with OVER_ENERGY MAJOR local ssc sds db out)
  /\ (over = false ->
      out = Ok (StreetlampStateService.insert_state local ssc time sds db))
  /\ (over = false <-> accepted local ssc sds db out)
  /\ (Float64.eqb t (S754_zero false) = true
      \/ Float64.leb (Float64.of_Z 1) t = true ->
      spec_energy_rate_divisor local time ls_time = Ok d)
  /\ (Float64.ltb t (S754_zero false) = true ->
      d = t
      /\ d <> Float64.of_Z 1
      /\ spec_energy_rate_divisor local time ls_time = Ok (Float64.of_Z 1))
  /\ (Datetime.sub_aware local time ls_time = Datetime.us_per_hour ->
      e0 = Float64.of_Z 1000 ->
      (e = Float64.of_Z 101001 ->
       out = over_energy_alarm local ssc sds db
       /\ rejected_with OVER_ENERGY MAJOR local ssc sds db out)
      /\ (e = Float64.of_Z 101000 ->
          out = Ok (StreetlampStateService.insert_state local ssc time sds db)
          /\ accepted local ssc sds db out))
  /\ (Datetime.sub_aware local time ls_time = - (Datetime.us_per_hour / 2) ->
      d = Float64.of_Z (-1)
      /\ (e0 = Float64.of_Z 1000 -> e = Float64.of_Z 201000 ->
          accepted local ssc sds db out
          /\ spec_over_energy local time ls_time e e0 = Ok true)).
Proof.
  intros (Hd & Hi & Hp & Hf & Hl) time ls_time e e0 t d over out.
  assert (Hc : out =
               if over then over_energy_alarm local ssc sds db
               else Ok (StreetlampStateService.insert_state local ssc time sds db)).
  { unfold out. rewrite (create_decoded _ _ _ _ Hd). cbv zeta.
    rewrite Hi, Hp, Hf, Hl. cbn [bind]. rewrite over_energy_eq.
    reflexivity. }
  assert (Hrej : over = true ->
                 rejected_with OVER_ENERGY MAJOR local ssc sds db out).
  { intros Ho. rewrite Hc, Ho. apply raise_alarm_rejected. }
  assert (Hacc : over = false -> accepted local ssc sds db out).
  { intros Ho. rewrite Hc, Ho. apply insert_state_accepted. }
  assert (Hex : forall a sv, rejected_with a sv local ssc sds db out ->
                             accepted local ssc sds db out -> False).
  { intros a sv (db1 & x & H1 & _) (db2 & i & s & H2 & _).
    rewrite H1 in H2. discriminate H2. }
  split; [reflexivity|].
  split; [|split; [|split; [|split; [|split; [|split; [|split]]]]]].
  - split.
    + intros Ho. rewrite Hc, Ho. reflexivity.
    + intros Ha. destruct over; [reflexivity|].
      rewrite Hc in Ha.
      destruct (insert_state_id local ssc time sds db) as (db' & i & Hs).
      rewrite Hs in Ha. discriminate Ha.
  - split; [exact Hrej|].
    intros Hr. destruct over eqn:Ho; [reflexivity|].
    destruct (Hex _ _ Hr (Hacc eq_refl)).
  - intros Ho. rewrite Hc, Ho. reflexivity.
  - split; [exact Hacc|].
    intros Ha. destruct over eqn:Ho; [|reflexivity].
    destruct (Hex _ _ (Hrej eq_refl) Ha).
  - intros Ht. unfold spec_energy_rate_divisor. rewrite floordiv_3600.
    cbn [bind]. fold t. unfold d. now rewrite divisor_agrees_with_spec.
  - intros Ht. destruct (negative_below_one t Ht) as [Hg Hn].
    assert (Hdt : d = t) by (apply negative_divisor; exact Ht).
    split; [exact Hdt|]. split; [rewrite Hdt; exact Hn|].
    unfold spec_energy_rate_divisor. rewrite floordiv_3600.
    cbn [bind]. fold t. now rewrite Hg.
  - intros Hh He0. split; intros He.
    + assert (Ho : over = true)
        by (unfold over, d, t; rewrite Hh, He0, He; reflexivity).
      split; [rewrite Hc, Ho; reflexivity | exact (Hrej Ho)].
    + assert (Ho : over = false)
        by (unfold over, d, t; rewrite Hh, He0, He; reflexivity).
      split; [rewrite Hc, Ho; reflexivity | exact (Hacc Ho)].
  - intros Hh. split; [unfold d, t; rewrite Hh; reflexivity|].
    intros He0 He. split.
    + apply Hacc. unfold over, d, t. rewrite Hh, He0, He. reflexivity.
    + unfold spec_over_energy, spec_energy_rate_divisor.
      fold e e0. rewrite Hh, He0, He. reflexivity.
Qed.

(** The boundary example, one hour after the stored reading. *)
Lemma energy_rule_witness :
  reaches_energy_rule
    (sample_message (at_hour 6) (sample_state 101001 (Float64.of_Z 90) volts))
    (sample_state 101001 (Float64.of_Z 90) volts) db_one_reading prior_reading
  /\ rejected_with OVER_ENERGY MAJOR UTC
       (sample_message (at_hour 6)
          (sample_state 101001 (Float64.of_Z 90) volts))
       (sample_state 101001 (Float64.of_Z 90) volts) db_one_reading
       (StreetlampStateService.create UTC
          (sample_message (at_hour 6)
             (sample_state 101001 (Float64.of_Z 90) volts)) db_one_reading).
Proof.
  assert (H : reaches_energy_rule
                (sample_message (at_hour 6)
                   (sample_state 101001 (Float64.of_Z 90) volts))
                (sample_state 101001 (Float64.of_Z 90) volts)
                db_one_reading prior_reading)
    by (repeat split; vm_compute; reflexivity).
  split; [exact H|].
  destruct (energy_rule UTC _ _ _ _ H) as (_ & _ & [Hr _] & _).
  apply Hr. vm_compute. reflexivity.
Defined.

(** A reading stamped 04:30, half an hour before the stored one, with
    energy 201000 against 1000: the divisor is -1 and the reading is
    stored. *)
Example half_hour_early_reading_accepted :
  let sds := sample_state 201000 (Float64.of_Z 90) volts in
  let ssc := sample_message (mk_datetime 2024 3 1 4 30 0 0 (Some UTC)) sds in
  reaches_energy_rule ssc sds db_one_reading prior_reading
  /\ StreetlampStateService.energy_rate_divisor UTC
       (astimezone UTC America_Santo_Domingo (StreetlampStateCreate.time ssc))
       (of_timestamptz (StreetlampState.time prior_reading))
     = Ok (Float64.of_Z (-1))
  /\ accepted UTC ssc sds db_one_reading
       (StreetlampStateService.create UTC ssc db_one_reading).
Proof.
  cbv zeta. split; [repeat split; vm_compute; reflexivity|].
  split; [vm_compute; reflexivity|].
  match goal with
  | |- accepted _ ?ssc ?sds ?db ?out =>
      replace out
        with (Ok (StreetlampStateService.insert_state UTC ssc
                    (astimezone UTC America_Santo_Domingo
                       (StreetlampStateCreate.time ssc)) sds db))
        by (vm_compute; reflexivity)
  end.
  apply insert_state_accepted.
Qed.

(** ** The aggregation stages and their watermarks *)

Lemma hourly_device_stage local pull s acc :
  StreetlampHourlyAggregationService.aggregate_device local pull s acc
  = stage_device hourly_stage local pull s acc.
Proof.
  destruct acc as [db n]. unfold StreetlampHourlyAggregationService.aggregate_device,
    stage_device, StreetlampHourlyAggregationService._get_hourly_range.
  cbn [fst snd hourly_stage stage_name stage_oldest stage_set_table stage_next].
  destruct (get_range _ _ _ _) as [[[a b]|]|]; cbn [bind]; try reflexivity.
  cbn [t0 t1]. destruct (pull _ _ _ _) as [[tbl nr]|]; reflexivity.
Qed.

Lemma daily_device_stage local pull s acc :
  StreetlampDailyAggregationService.aggregate_device local pull s acc
  = stage_device daily_stage local pull s acc.
Proof.
  destruct acc as [db n]. unfold StreetlampDailyAggregationService.aggregate_device,
    stage_device, StreetlampDailyAggregationService._get_daily_range.
  cbn [fst snd daily_stage stage_name stage_oldest stage_set_table stage_next].
  destruct (get_range _ _ _ _) as [[[a b]|]|]; cbn [bind]; try reflexivity.
  cbn [t0 t1]. destruct (pull _ _ _ _) as [[tbl nr]|]; reflexivity.
Qed.

Lemma weekly_device_stage local pull s acc :
  StreetlampWeeklyAggregationService.aggregate_device local pull s acc
  = stage_device weekly_stage local pull s acc.
Proof.
  destruct acc as [db n]. unfold StreetlampWeeklyAggregationService.aggregate_device,
    stage_device, StreetlampWeeklyAggregationService._get_weekly_range.
  cbn [fst snd weekly_stage stage_name stage_oldest stage_set_table stage_next].
  destruct (get_range _ _ _ _) as [[[a b]|]|]; cbn [bind]; try reflexivity.
  cbn [t0 t1]. destruct (pull _ _ _ _) as [[tbl nr]|]; reflexivity.
Qed.

Lemma monthly_device_stage local pull s acc :
  StreetlampMonthlyAggregationService.aggregate_device local pull s acc
  = stage_device monthly_stage local pull s acc.
Proof.
  destruct acc as [db n]. unfold StreetlampMonthlyAggregationService.aggregate_device,
    stage_device, StreetlampMonthlyAggregationService._get_monthly_range.
  cbn [fst snd monthly_stage stage_name stage_oldest stage_set_table stage_next].
  destruct (get_range _ _ _ _) as [[[a b]|]|]; cbn [bind]; try reflexivity.
  cbn [t0 t1]. destruct (pull _ _ _ _) as [[tbl nr]|]; reflexivity.
Qed.

Lemma hourly_loop_stage local pull ds acc :
  StreetlampHourlyAggregationService.aggregate_loop local pull ds acc
  = stage_loop hourly_stage local pull ds acc.
Proof.
  revert acc. induction ds as [|s ds IH]; intros acc; cbn; [reflexivity|].
  rewrite hourly_device_stage. destruct (stage_device _ _ _ _ _); cbn; auto.
Qed.

Lemma daily_loop_stage local pull ds acc :
  StreetlampDailyAggregationService.aggregate_loop local pull ds acc
  = stage_loop daily_stage local pull ds acc.
Proof.
  revert acc. induction ds as [|s ds IH]; intros acc; cbn; [reflexivity|].
  rewrite daily_device_stage. destruct (stage_device _ _ _ _ _); cbn; auto.
Qed.

Lemma weekly_loop_stage local pull ds acc :
  StreetlampWeeklyAggregationService.aggregate_loop local pull ds acc
  = stage_loop weekly_stage local pull ds acc.
Proof.
  revert acc. induction ds as [|s ds IH]; intros acc; cbn; [reflexivity|].
  rewrite weekly_device_stage. destruct (stage_device _ _ _ _ _); cbn; auto.
Qed.

Lemma monthly_loop_stage local pull ds acc :
  StreetlampMonthlyAggregationService.aggregate_loop local pull ds acc
  = stage_loop monthly_stage local pull ds acc.
Proof.
  revert acc. induction ds as [|s ds IH]; intros acc; cbn; [reflexivity|].
  rewrite monthly_device_stage. destruct (stage_device _ _ _ _ _); cbn; auto.
Qed.

Lemma set_consumer_name name ts r :
  StreamState.name (set_consumer name ts r) = StreamState.name r.
Proof. unfold set_consumer. destruct (String.eqb _ _); reflexivity. Qed.

Lemma update_consumer_map local name dt tbl :
  StreamStateRepository.update_consumer local name dt tbl
  = map (set_consumer name (Datetime.instant local dt)) tbl.
Proof. reflexivity. Qed.

Lemma find_by_name_update_consumer local nm name dt tbl :
  StreamStateRepository.find_by_name nm (StreamStateRepository.update_consumer local name dt tbl)
  = option_map (set_consumer name (Datetime.instant local dt))
               (StreamStateRepository.find_by_name nm tbl).
Proof.
  rewrite update_consumer_map. unfold StreamStateRepository.find_by_name.
  induction tbl as [|r tbl IH]; cbn [map find]; [reflexivity|].
  rewrite set_consumer_name.
  destruct (String.eqb _ _); [reflexivity | exact IH].
Qed.

Lemma find_by_name_upsert_other nm name ts tbl :
  String.eqb (StreamStateRepository.lower name) (StreamStateRepository.lower nm) = false ->
  StreamStateRepository.find_by_name nm (StreamStateRepository.upsert_producer name ts tbl)
  = StreamStateRepository.find_by_name nm tbl.
Proof.
  intros Hne. unfold StreamStateRepository.find_by_name.
  induction tbl as [|r tbl IH]; cbn [StreamStateRepository.upsert_producer find StreamState.name].
  - now rewrite Hne.
  - destruct (String.eqb (StreamState.name r) name) eqn:E.
    + apply String.eqb_eq in E. cbn [find StreamState.name].
      rewrite E, Hne. reflexivity.
    + cbn [find].
      destruct (String.eqb (StreamStateRepository.lower (StreamState.name r)) (StreamStateRepository.lower nm));
        [reflexivity | exact IH].
Qed.

Lemma find_by_name_set_producers st local dev t1 nm d tbl :
  stage_ok st -> nm = stage_name st d ->
  forall next, incl next (stage_next st) ->
  StreamStateRepository.find_by_name nm (set_producers local dev t1 next tbl)
  = StreamStateRepository.find_by_name nm tbl.
Proof.
  intros Hok -> next. revert tbl. unfold set_producers.
  induction next as [|nx next IH]; intros tbl Hin; cbn [fold_left];
    [reflexivity|].
  rewrite IH by (eapply incl_cons_inv; eauto).
  unfold StreamStateRepository.update_producer. apply find_by_name_upsert_other.
  apply (next_apart st Hok). apply Hin. now left.
Qed.

Lemma find_by_name_spec nm tbl r :
  StreamStateRepository.find_by_name nm tbl = Some r ->
  In r tbl /\ StreamStateRepository.lower (StreamState.name r) = StreamStateRepository.lower nm.
Proof.
  unfold StreamStateRepository.find_by_name. intros H. apply find_some in H.
  destruct H as [Hin He]. apply String.eqb_eq in He. auto.
Qed.

Lemma instant_convert local t :
  Datetime.instant local
    (Utils.convert_to_default_tz local (Datetime.of_timestamptz t)) = t.
Proof.
  unfold Utils.convert_to_default_tz, Datetime.astimezone, Datetime.instant,
    Datetime.of_timestamptz. cbn. lia.
Qed.

(** [get_range] reads the store only through the watermark it finds. *)
Lemma get_range_found local oldest nm db db' :
  StreamStateRepository.find_by_name nm (Db.stream_states db')
  = StreamStateRepository.find_by_name nm (Db.stream_states db) ->
  get_range local oldest nm db' = get_range local oldest nm db.
Proof. intros H. unfold get_range. now rewrite H. Qed.

Lemma get_range_t1 local oldest nm db rg :
  get_range local oldest nm db = Ok (Some rg) ->
  exists r p, StreamStateRepository.find_by_name nm (Db.stream_states db) = Some r
              /\ StreamState.producer_ts r = Some p
              /\ t1 rg = Utils.convert_to_default_tz local
                           (Datetime.of_timestamptz p).
Proof.
  unfold get_range.
  destruct (StreamStateRepository.find_by_name nm (Db.stream_states db)) as [r|]; [|discriminate].
  destruct (StreamState.producer_ts r) as [p|] eqn:Hp; [|discriminate].
  intros H. exists r, p. repeat split; try assumption.
  destruct (match StreamState.consumer_ts r with
            | Some c => _ | None => _ end) as [[s|]|]; cbn [bind] in H;
    try discriminate.
  destruct (Datetime.eqb _ _); [discriminate|].
  injection H as <-. reflexivity.
Qed.

Lemma datetime_eqb_refl t :
  Datetime.eqb (Datetime.of_timestamptz t) (Datetime.of_timestamptz t) = true.
Proof. unfold Datetime.eqb. cbn. apply Z.eqb_refl. Qed.

Lemma get_range_settled local oldest nm db r p :
  StreamStateRepository.find_by_name nm (Db.stream_states db) = Some r ->
  StreamState.producer_ts r = Some p ->
  StreamState.consumer_ts r = Some p ->
  get_range local oldest nm db = Ok None.
Proof.
  intros Hf Hp Hc. unfold get_range. rewrite Hf, Hp, Hc. cbn [bind].
  now rewrite datetime_eqb_refl.
Qed.

Lemma stage_device_cases st local pull s db n db' n' :
  stage_device st local pull s (db, n) = Ok (db', n') ->
  (range_of st local s db = Ok None /\ db' = db /\ n' = n)
  \/ (exists rg tbl nr,
        range_of st local s db = Ok (Some rg)
        /\ pull (Streetlamp.device_eui s) (t0 rg) (t1 rg) db = Ok (tbl, nr)
        /\ db' = after_pull st local (Streetlamp.device_eui s) rg tbl db
        /\ n' = n + nr).
Proof.
  unfold stage_device, range_of. cbn [fst snd].
  destruct (get_range _ _ _ _) as [[rg|]|] eqn:Hr; cbn [bind];
    try discriminate.
  - destruct (pull _ _ _ _) as [[tbl nr]|] eqn:Hp; cbn [bind fst snd];
      try discriminate.
    intros H. injection H as <- <-. right. exists rg, tbl, nr.
    repeat split; try assumption; reflexivity.
  - intros H. injection H as <- <-. left. auto.
Qed.

Lemma in_upsert_producer name ts tbl r :
  In r (StreamStateRepository.upsert_producer name ts tbl) ->
  StreamState.name r = name \/ In r tbl.
Proof.
  induction tbl as [|r0 tbl IH]; cbn [StreamStateRepository.upsert_producer].
  - intros [<- | []]. now left.
  - destruct (String.eqb (StreamState.name r0) name) eqn:E.
    + apply String.eqb_eq in E. intros [<- | Hin].
      * left. exact E.
      * right. now right.
    + intros [<- | Hin]; [right; now left|].
      destruct (IH Hin); [now left | right; now right].
Qed.

Lemma in_set_producers local dev t1 next tbl r :
  In r (set_producers local dev t1 next tbl) ->
  (exists nx, In nx next /\ StreamState.name r = fst nx dev) \/ In r tbl.
Proof.
  unfold set_producers. revert tbl.
  induction next as [|nx next IH]; intros tbl; cbn [fold_left]; [now right|].
  intros H. apply IH in H. destruct H as [(nx' & Hin & Hn) | H].
  - left. exists nx'. split; [now right | exact Hn].
  - apply in_upsert_producer in H. destruct H as [H | H].
    + left. exists nx. split; [now left | exact H].
    + now right.
Qed.

Lemma canonical_after_pull st local devices dev rg tbl db :
  stage_ok st ->
  canonical_names st devices (Db.stream_states db) ->
  canonical_names st devices
    (Db.stream_states (after_pull st local dev rg tbl db)).
Proof.
  intros Hok Hc r s Hr Hs Hl. unfold after_pull in Hr.
  destruct db as [sl sst sal ss h d w m].
  cbn [Db.stream_states Db.set_stream_states] in Hr.
  apply in_set_producers in Hr. destruct Hr as [(nx & Hnx & Hn) | Hr].
  - exfalso. pose proof (next_apart st Hok nx (Streetlamp.device_eui s) dev Hnx) as Hne.
    rewrite <- Hn, Hl in Hne. now rewrite String.eqb_refl in Hne.
  - rewrite (streams_set_table st Hok) in Hr. rewrite update_consumer_map in Hr.
    apply in_map_iff in Hr. destruct Hr as (r0 & <- & Hr0).
    rewrite set_consumer_name in *. now apply Hc.
Qed.

Lemma found_after_pull st local dev rg tbl db d :
  stage_ok st ->
  StreamStateRepository.find_by_name (stage_name st d)
    (Db.stream_states (after_pull st local dev rg tbl db))
  = option_map (set_consumer (stage_name st dev) (Datetime.instant local (t1 rg)))
      (StreamStateRepository.find_by_name (stage_name st d) (Db.stream_states db)).
Proof.
  intros Hok. unfold after_pull.
  destruct (stage_set_table st tbl db) as [sl sst sal ss h dd w m] eqn:E.
  cbn [Db.stream_states Db.set_stream_states].
  rewrite (find_by_name_set_producers st local dev (t1 rg) _ d _ Hok eq_refl)
    by apply incl_refl.
  rewrite find_by_name_update_consumer.
  replace ss with (Db.stream_states (stage_set_table st tbl db))
    by (rewrite E; reflexivity).
  now rewrite (streams_set_table st Hok).
Qed.

Lemma oldest_after_pull st local dev rg tbl db d :
  stage_ok st ->
  stage_oldest st d (after_pull st local dev rg tbl db) = stage_oldest st d db.
Proof.
  intros Hok. unfold after_pull.
  now rewrite (oldest_set_streams st Hok), (oldest_set_table st Hok).
Qed.

Lemma step_other st local pull devices s d db n db' n' :
  stage_ok st ->
  canonical_names st devices (Db.stream_states db) ->
  In d devices ->
  Streetlamp.device_eui d <> Streetlamp.device_eui s ->
  stage_device st local pull s (db, n) = Ok (db', n') ->
  range_of st local d db' = range_of st local d db.
Proof.
  intros Hok Hc Hd Hne Hs.
  apply stage_device_cases in Hs.
  destruct Hs as [(_ & -> & _) | (rg & tbl & nr & _ & _ & -> & _)];
    [reflexivity|].
  unfold range_of. rewrite (oldest_after_pull st local _ rg tbl db _ Hok).
  apply get_range_found. rewrite (found_after_pull st local _ rg tbl db _ Hok).
  destruct (StreamStateRepository.find_by_name _ (Db.stream_states db)) as [r|] eqn:Hf;
    [|reflexivity].
  cbn [option_map]. f_equal.
  apply find_by_name_spec in Hf. destruct Hf as [Hin Hl].
  pose proof (Hc r d Hin Hd Hl) as Hn.
  unfold set_consumer. rewrite Hn.
  destruct (String.eqb _ _) eqn:E; [|reflexivity].
  apply String.eqb_eq in E. apply (name_inj st Hok) in E. contradiction.
Qed.

Lemma step_self st local pull devices s d db n db' n' :
  stage_ok st ->
  canonical_names st devices (Db.stream_states db) ->
  In d devices ->
  Streetlamp.device_eui d = Streetlamp.device_eui s ->
  stage_device st local pull s (db, n) = Ok (db', n') ->
  range_of st local d db' = Ok None.
Proof.
  intros Hok Hc Hd He Hs.
  apply stage_device_cases in Hs.
  destruct Hs as [(Hr & -> & _) | (rg & tbl & nr & Hr & _ & -> & _)].
  - unfold range_of in *. now rewrite He.
  - unfold range_of in *. rewrite He.
    apply get_range_t1 in Hr. destruct Hr as (r & p & Hf & Hp & Ht1).
    pose proof Hf as Hf'. apply find_by_name_spec in Hf'.
    destruct Hf' as [Hin Hl]. rewrite <- He in Hl.
    pose proof (Hc r d Hin Hd Hl) as Hn. rewrite He in Hn.
    apply (get_range_settled local _ _ _
             (set_consumer (stage_name st (Streetlamp.device_eui s))
                (Datetime.instant local (t1 rg)) r) p).
    + rewrite (found_after_pull st local _ rg tbl db _ Hok), Hf. reflexivity.
    + unfold set_consumer. rewrite Hn, String.eqb_refl. exact Hp.
    + unfold set_consumer. rewrite Hn, String.eqb_refl.
      cbn [StreamState.consumer_ts]. now rewrite Ht1, instant_convert.
Qed.

Lemma step_canonical st local pull devices s db n db' n' :
  stage_ok st ->
  canonical_names st devices (Db.stream_states db) ->
  stage_device st local pull s (db, n) = Ok (db', n') ->
  canonical_names st devices (Db.stream_states db').
Proof.
  intros Hok Hc Hs. apply stage_device_cases in Hs.
  destruct Hs as [(_ & -> & _) | (rg & tbl & nr & _ & _ & -> & _)];
    [exact Hc | now apply canonical_after_pull].
Qed.

Lemma step_streetlamps st local pull s db n db' n' :
  stage_ok st ->
  stage_device st local pull s (db, n) = Ok (db', n') ->
  Db.streetlamps db' = Db.streetlamps db.
Proof.
  intros Hok Hs. apply stage_device_cases in Hs.
  destruct Hs as [(_ & -> & _) | (rg & tbl & nr & _ & _ & -> & _)];
    [reflexivity|].
  unfold after_pull.
  destruct (stage_set_table st tbl db) as [sl sst sal ss h dd w m] eqn:E.
  cbn [Db.streetlamps Db.set_stream_states].
  replace sl with (Db.streetlamps (stage_set_table st tbl db))
    by (rewrite E; reflexivity).
  apply (streetlamps_set_table st Hok).
Qed.

Lemma stage_loop_settles st local pull devices :
  stage_ok st ->
  forall ds db n db' n',
    incl ds devices ->
    canonical_names st devices (Db.stream_states db) ->
    stage_loop st local pull ds (db, n) = Ok (db', n') ->
    canonical_names st devices (Db.stream_states db')
    /\ Db.streetlamps db' = Db.streetlamps db
    /\ (forall d, In d devices ->
          (exists s, In s ds /\ Streetlamp.device_eui s = Streetlamp.device_eui d) ->
          range_of st local d db' = Ok None)
    /\ (forall d, In d devices ->
          (forall s, In s ds -> Streetlamp.device_eui d <> Streetlamp.device_eui s) ->
          range_of st local d db' = range_of st local d db).
Proof.
  intros Hok. induction ds as [|s ds IH]; intros db n db' n' Hin Hc Hl.
  - cbn in Hl. injection Hl as <- <-. repeat split; auto.
    intros d _ (s & [] & _).
  - cbn [stage_loop] in Hl.
    destruct (stage_device st local pull s (db, n)) as [[db1 n1]|] eqn:Hs;
      cbn [bind] in Hl; [|discriminate].
    assert (Hc1 := step_canonical _ _ _ _ _ _ _ _ _ Hok Hc Hs).
    apply incl_cons_inv in Hin. destruct Hin as [Hsd Hin].
    destruct (IH db1 n1 db' n' Hin Hc1 Hl) as (Hc' & Hsl & Hset & Hother).
    repeat split.
    + exact Hc'.
    + rewrite Hsl. eapply step_streetlamps; eauto.
    + intros d Hd (s' & [<- | Hs'] & He).
      * destruct (in_dec string_dec (Streetlamp.device_eui d)
                    (map Streetlamp.device_eui ds)) as [Hi | Hni].
        -- apply in_map_iff in Hi. destruct Hi as (s2 & He2 & Hi2).
           apply Hset; eauto.
        -- assert (Hno : forall s2, In s2 ds ->
                     Streetlamp.device_eui d <> Streetlamp.device_eui s2).
           { intros s2 Hs2 He2. apply Hni. rewrite He2. now apply in_map. }
           rewrite (Hother d Hd Hno).
           apply (step_self st local pull devices s d db n db1 n1); auto.
      * apply Hset; eauto.
    + intros d Hd Hall.
      rewrite (Hother d Hd (fun s2 Hs2 => Hall s2 (or_intror Hs2))).
      apply (step_other st local pull devices s d db n db1 n1); auto.
      apply Hall. now left.
Qed.

Lemma stage_loop_settled st local pull ds db n :
  (forall s, In s ds -> range_of st local s db = Ok None) ->
  stage_loop st local pull ds (db, n) = Ok (db, n).
Proof.
  induction ds as [|s ds IH]; intros Hs; [reflexivity|].
  cbn [stage_loop]. unfold stage_device at 1. cbn [fst snd].
  pose proof (Hs s (or_introl eq_refl)) as Hr. unfold range_of in Hr.
  rewrite Hr. cbn [bind]. apply IH. intros s' Hs'. apply Hs. now right.
Qed.

(** The second pass of a stage over the store its first pass left. *)
Lemma stage_second_pass st local pull db db1 n1 :
  stage_ok st ->
  canonical_names st (Db.streetlamps db) (Db.stream_states db) ->
  stage_loop st local pull (Db.streetlamps db) (db, 0) = Ok (db1, n1) ->
  stage_loop st local pull (Db.streetlamps db1) (db1, 0) = Ok (db1, 0)
  /\ forall s, In s (Db.streetlamps db1) -> range_of st local s db1 = Ok None.
Proof.
  intros Hok Hc H1.
  destruct (stage_loop_settles st local pull (Db.streetlamps db) Hok
              (Db.streetlamps db) db 0 db1 n1 (incl_refl _) Hc H1)
    as (_ & Hsl & Hset & _).
  rewrite Hsl.
  assert (Hall : forall s, In s (Db.streetlamps db) ->
                           range_of st local s db1 = Ok None).
  { intros s Hs. apply Hset; eauto. }
  split; [now apply stage_loop_settled | exact Hall].
Qed.

Ltac solve_stage_ok :=
  constructor;
  [ intros d d' H; cbn in H; injection H; auto
  | intros nx d d' Hin; cbn in Hin;
    repeat (destruct Hin as [<- | Hin]; [reflexivity|]); destruct Hin
  | reflexivity
  | reflexivity
  | reflexivity
  | reflexivity ].

Lemma hourly_stage_ok : stage_ok hourly_stage.
Proof. solve_stage_ok. Qed.
Lemma daily_stage_ok : stage_ok daily_stage.
Proof. solve_stage_ok. Qed.
Lemma weekly_stage_ok : stage_ok weekly_stage.
Proof. solve_stage_ok. Qed.
Lemma monthly_stage_ok : stage_ok monthly_stage.
Proof. solve_stage_ok. Qed.

(** X25: when every watermark row that matches the stream name of a
    registered device up to letter case carries exactly that name, a
    pass that follows a finished pass of the same stage finds an empty
    range for every device, reports 0 rows and leaves the store, and
    with it every rollup row, as it was. *)
Theorem second_pass_is_noop local pull db db1 n1 :
  (names_exact hourly_stage db ->
   StreetlampHourlyAggregationService.aggregate local pull db = Ok (db1, n1) ->
   StreetlampHourlyAggregationService.aggregate local pull db1 = Ok (db1, 0)
   /\ forall s, In s (Db.streetlamps db1) ->
        StreetlampHourlyAggregationService._get_hourly_range local
          (StreetlampHourlyAggregationService.strname (Streetlamp.device_eui s))
          (Streetlamp.device_eui s) db1 = Ok None)
  /\ (names_exact daily_stage db ->
      StreetlampDailyAggregationService.aggregate local pull db = Ok (db1, n1) ->
      StreetlampDailyAggregationService.aggregate local pull db1 = Ok (db1, 0)
      /\ forall s, In s (Db.streetlamps db1) ->
           StreetlampDailyAggregationService._get_daily_range local
             (StreetlampDailyAggregationService.strname (Streetlamp.device_eui s))
             (Streetlamp.device_eui s) db1 = Ok None)
  /\ (names_exact weekly_stage db ->
      StreetlampWeeklyAggregationService.aggregate local pull db = Ok (db1, n1) ->
      StreetlampWeeklyAggregationService.aggregate local pull db1 = Ok (db1, 0)
      /\ forall s, In s (Db.streetlamps db1) ->
           StreetlampWeeklyAggregationService._get_weekly_range local
             (StreetlampWeeklyAggregationService.strname (Streetlamp.device_eui s))
             (Streetlamp.device_eui s) db1 = Ok None)
  /\ (names_exact monthly_stage db ->
      StreetlampMonthlyAggregationService.aggregate local pull db = Ok (db1, n1) ->
      StreetlampMonthlyAggregationService.aggregate local pull db1 = Ok (db1, 0)
      /\ forall s, In s (Db.streetlamps db1) ->
           StreetlampMonthlyAggregationService._get_monthly_range local
             (StreetlampMonthlyAggregationService.strname (Streetlamp.device_eui s))
             (Streetlamp.device_eui s) db1 = Ok None).
Proof.
  unfold StreetlampHourlyAggregationService.aggregate,
    StreetlampDailyAggregationService.aggregate,
    StreetlampWeeklyAggregationService.aggregate,
    StreetlampMonthlyAggregationService.aggregate.
  rewrite !hourly_loop_stage, !daily_loop_stage, !weekly_loop_stage,
    !monthly_loop_stage.
  split; [|split; [|split]]; intros Hc H1.
  - apply (stage_second_pass hourly_stage local pull db db1 n1 hourly_stage_ok Hc H1).
  - apply (stage_second_pass daily_stage local pull db db1 n1 daily_stage_ok Hc H1).
  - apply (stage_second_pass weekly_stage local pull db db1 n1 weekly_stage_ok Hc H1).
  - apply (stage_second_pass monthly_stage local pull db db1 n1 monthly_stage_ok Hc H1).
Qed.

(** A first and a second hourly pass over a store with two readings. *)
Lemma second_pass_is_noop_witness :
  names_exact hourly_stage db_two_readings
  /\ StreetlampHourlyAggregationService.aggregate UTC
       (sample_pull Db.hourly_streetlamp_state) db_two_readings
     = Ok (db_first_pass, 1)
  /\ StreetlampHourlyAggregationService.aggregate UTC
       (sample_pull Db.hourly_streetlamp_state) db_first_pass
     = Ok (db_first_pass, 0).
Proof.
  assert (Hn : names_exact hourly_stage db_two_readings).
  { intros r s Hr Hs _. vm_compute in Hr, Hs.
    destruct Hr as [<- | []]. destruct Hs as [<- | []]. reflexivity. }
  assert (H1 : StreetlampHourlyAggregationService.aggregate UTC
                 (sample_pull Db.hourly_streetlamp_state) db_two_readings
               = Ok (db_first_pass, 1)) by (vm_compute; reflexivity).
  split; [exact Hn | split; [exact H1|]].
  exact (proj1 (proj1 (second_pass_is_noop UTC
                         (sample_pull Db.hourly_streetlamp_state)
                         db_two_readings db_first_pass 1) Hn H1)).
Defined.

(** C7: a second pass that is not a no-op.  The device is registered
    as [50580000000000ab]; readings arrived under [50580000000000AB] at
    04:00 and 05:00 and under [50580000000000ab] at 04:00 and 06:00.
    The lookup of the watermark compares names without regard to letter
    case and takes the row of [...AB], while the update of the consumer
    timestamp matches the name exactly and writes to the row of
    [...ab].  So after the first pass the row that the lookup finds
    still has no consumer timestamp, the second pass computes the same
    range from 04:00 to 05:00, with [t0 <> t1], runs the upsert again
    and reports one row instead of none. *)
Theorem second_pass_runs_again :
  let pull := sample_pull Db.hourly_streetlamp_state in
  let dev := "50580000000000ab"%string in
  let name := StreetlampHourlyAggregationService.strname dev in
  let rg := {| t0 := convert_to_default_tz UTC (at_hour 4);
               t1 := convert_to_default_tz UTC (at_hour 5) |} in
  StreetlampHourlyAggregationService.aggregate UTC pull db_mixed_case
  = Ok (db_mixed_first_pass, 1)
  /\ StreetlampHourlyAggregationService._get_hourly_range UTC name dev
       db_mixed_case = Ok (Some rg)
  /\ option_map StreamState.name
       (StreamStateRepository.find_by_name name
          (Db.stream_states db_mixed_first_pass))
     = Some "streetlamp:state:hourly:50580000000000AB"%string
  /\ option_map StreamState.consumer_ts
       (StreamStateRepository.find_by_name name
          (Db.stream_states db_mixed_first_pass))
     = Some None
  /\ option_map StreamState.consumer_ts
       (watermark name (Db.stream_states db_mixed_first_pass))
     = Some (Some (wall (at_hour 5)))
  /\ StreetlampHourlyAggregationService._get_hourly_range UTC name dev
       db_mixed_first_pass = Ok (Some rg)
  /\ Datetime.eqb (t0 rg) (t1 rg) = false
  /\ StreetlampHourlyAggregationService.aggregate UTC pull db_mixed_first_pass
     = Ok (db_mixed_first_pass, 1)
  /\ ~ second_pass_noop_as_specified.
Proof.
  cbv zeta.
  assert (H1 : StreetlampHourlyAggregationService.aggregate UTC
                 (sample_pull Db.hourly_streetlamp_state) db_mixed_case
               = Ok (db_mixed_first_pass, 1)) by (vm_compute; reflexivity).
  assert (H2 : StreetlampHourlyAggregationService.aggregate UTC
                 (sample_pull Db.hourly_streetlamp_state) db_mixed_first_pass
               = Ok (db_mixed_first_pass, 1)) by (vm_compute; reflexivity).
  split; [exact H1|].
  do 6 (split; [vm_compute; reflexivity|]).
  split; [exact H2|].
  intros H. destruct (H _ _ _ _ _ H1) as [H3 _].
  rewrite H2 in H3.
  assert (Hn : forall (a b : Db.t) (x y : Z), Ok (a, x) = Ok (b, y) -> x = y)
    by (intros a b x y E; now injection E).
  apply Hn in H3. discriminate H3.
Qed.

Lemma watermark_upsert name ts tbl :
  exists r, watermark name (StreamStateRepository.upsert_producer name ts tbl) = Some r
            /\ StreamState.producer_ts r = Some ts.
Proof.
  unfold watermark.
  induction tbl as [|r0 tbl IH]; cbn [StreamStateRepository.upsert_producer find StreamState.name].
  - rewrite String.eqb_refl. eauto.
  - destruct (String.eqb (StreamState.name r0) name) eqn:E.
    + cbn [find StreamState.name]. rewrite E. eauto.
    + cbn [find]. rewrite E. exact IH.
Qed.

Lemma watermark_upsert_other name name' ts tbl :
  String.eqb name' name = false ->
  watermark name (StreamStateRepository.upsert_producer name' ts tbl) = watermark name tbl.
Proof.
  intros Hne. unfold watermark.
  induction tbl as [|r0 tbl IH]; cbn [StreamStateRepository.upsert_producer find StreamState.name].
  - now rewrite Hne.
  - destruct (String.eqb (StreamState.name r0) name') eqn:E.
    + apply String.eqb_eq in E. cbn [find StreamState.name].
      rewrite E, Hne. reflexivity.
    + cbn [find].
      destruct (String.eqb (StreamState.name r0) name); [reflexivity | exact IH].
Qed.

Lemma update_consumer_producers local name dt tbl :
  map StreamState.name (StreamStateRepository.update_consumer local name dt tbl)
  = map StreamState.name tbl
  /\ map StreamState.producer_ts (StreamStateRepository.update_consumer local name dt tbl)
     = map StreamState.producer_ts tbl.
Proof.
  rewrite update_consumer_map, !map_map. split; apply map_ext; intros r;
    unfold set_consumer; destruct (String.eqb _ _); reflexivity.
Qed.

(** What each stage writes to the producer watermarks once its range
    is known and the upsert has returned. *)
Lemma hourly_device_advances local pull s db n rg tbl nr :
  let dev := Streetlamp.device_eui s in
  pull dev (t0 rg) (t1 rg) db = Ok (tbl, nr) ->
  StreetlampHourlyAggregationService._get_hourly_range local
    (StreetlampHourlyAggregationService.strname dev) dev db = Ok (Some rg) ->
  exists db',
    StreetlampHourlyAggregationService.aggregate_device local pull s (db, n)
    = Ok (db', n + nr)
    /\ producer_of (StreetlampDailyAggregationService.strname dev) db'
       = Some (instant local (round_to_day (t1 rg))).
Proof.
  intros dev Hp Hr. destruct rg as [a b]. cbn [t0 t1] in *.
  unfold StreetlampHourlyAggregationService.aggregate_device.
  fold dev. rewrite Hr. cbn [bind]. rewrite Hp. cbn [bind].
  eexists. split; [reflexivity|].
  unfold producer_of. cbn [Db.stream_states Db.set_stream_states Db.set_hourly].
  unfold StreamStateRepository.update_producer.
  destruct (watermark_upsert
              ("streetlamp:state:daily:" ++ dev)
              (instant local (round_to_day b))
              (StreamStateRepository.update_consumer local
                 (StreetlampHourlyAggregationService.strname dev) b
                 (Db.stream_states db))) as (r & Hw & Hpr).
  unfold StreetlampDailyAggregationService.strname. rewrite Hw. exact Hpr.
Qed.

Lemma daily_device_advances local pull s db n rg tbl nr :
  let dev := Streetlamp.device_eui s in
  pull dev (t0 rg) (t1 rg) db = Ok (tbl, nr) ->
  StreetlampDailyAggregationService._get_daily_range local
    (StreetlampDailyAggregationService.strname dev) dev db = Ok (Some rg) ->
  exists db',
    StreetlampDailyAggregationService.aggregate_device local pull s (db, n)
    = Ok (db', n + nr)
    /\ producer_of (StreetlampWeeklyAggregationService.strname dev) db'
       = Some (instant local (round_to_week (t1 rg)))
    /\ producer_of (StreetlampMonthlyAggregationService.strname dev) db'
       = Some (instant local (round_to_month (t1 rg))).
Proof.
  intros dev Hp Hr. destruct rg as [a b]. cbn [t0 t1] in *.
  unfold StreetlampDailyAggregationService.aggregate_device.
  fold dev. rewrite Hr. cbn [bind]. rewrite Hp. cbn [bind].
  eexists. split; [reflexivity|].
  unfold producer_of. cbn [Db.stream_states Db.set_stream_states Db.set_daily].
  unfold StreamStateRepository.update_producer,
    StreetlampWeeklyAggregationService.strname,
    StreetlampMonthlyAggregationService.strname.
  split.
  - rewrite watermark_upsert_other by reflexivity.
    destruct (watermark_upsert
                ("streetlamp:state:weekly:" ++ dev)
                (instant local (round_to_week b))
                (StreamStateRepository.update_consumer local
                   (StreetlampDailyAggregationService.strname dev) b
                   (Db.stream_states db))) as (r & Hw & Hpr).
    rewrite Hw. exact Hpr.
  - match goal with
    | |- context [watermark ?nm
                    (StreamStateRepository.upsert_producer ?nm ?ts ?t)] =>
        destruct (watermark_upsert nm ts t) as (r & Hw & Hpr)
    end.
    rewrite Hw. exact Hpr.
Qed.

Lemma weekly_device_advances local pull s db n rg tbl nr :
  let dev := Streetlamp.device_eui s in
  pull dev (t0 rg) (t1 rg) db = Ok (tbl, nr) ->
  StreetlampWeeklyAggregationService._get_weekly_range local
    (StreetlampWeeklyAggregationService.strname dev) dev db = Ok (Some rg) ->
  exists db',
    StreetlampWeeklyAggregationService.aggregate_device local pull s (db, n)
    = Ok (db', n + nr)
    /\ map StreamState.name (Db.stream_states db')
       = map StreamState.name (Db.stream_states db)
    /\ map StreamState.producer_ts (Db.stream_states db')
       = map StreamState.producer_ts (Db.stream_states db).
Proof.
  intros dev Hp Hr. destruct rg as [a b]. cbn [t0 t1] in *.
  unfold StreetlampWeeklyAggregationService.aggregate_device.
  fold dev. rewrite Hr. cbn [bind]. rewrite Hp. cbn [bind].
  eexists. split; [reflexivity|].
  cbn [Db.stream_states Db.set_stream_states Db.set_weekly].
  apply update_consumer_producers.
Qed.

Lemma monthly_device_advances local pull s db n rg tbl nr :
  let dev := Streetlamp.device_eui s in
  pull dev (t0 rg) (t1 rg) db = Ok (tbl, nr) ->
  StreetlampMonthlyAggregationService._get_monthly_range local
    (StreetlampMonthlyAggregationService.strname dev) dev db = Ok (Some rg) ->
  exists db',
    StreetlampMonthlyAggregationService.aggregate_device local pull s (db, n)
    = Ok (db', n + nr)
    /\ map StreamState.name (Db.stream_states db')
       = map StreamState.name (Db.stream_states db)
    /\ map StreamState.producer_ts (Db.stream_states db')
       = map StreamState.producer_ts (Db.stream_states db).
Proof.
  intros dev Hp Hr. destruct rg as [a b]. cbn [t0 t1] in *.
  unfold StreetlampMonthlyAggregationService.aggregate_device.
  fold dev. rewrite Hr. cbn [bind]. rewrite Hp. cbn [bind].
  eexists. split; [reflexivity|].
  cbn [Db.stream_states Db.set_stream_states Db.set_monthly].
  apply update_consumer_producers.
Qed.

Lemma get_range_t1_zone local oldest nm db rg :
  get_range local oldest nm db = Ok (Some rg) ->
  tz (t1 rg) = Some America_Santo_Domingo.
Proof.
  intros H. destruct (get_range_t1 _ _ _ _ _ H) as (r & p & _ & _ & ->).
  reflexivity.
Qed.

Lemma instant_round_to_month local dt :
  instant local (round_to_month dt) = start_of_month dt America_Santo_Domingo.
Proof.
  unfold round_to_month, start_of_month, mk_datetime, instant.
  cbn [tz wall]. lia.
Qed.

(** C8: what each stage writes to the producer watermarks once it has
    processed a device through [t1], a datetime in Santo Domingo.  The
    hourly stage writes to the daily stream the midnight of the date of
    [t1] as a naive value, which the store reads in the zone of the
    process: the instant written is the start of the day of [t1] exactly
    when the process has the offset of Santo Domingo.  The daily stage
    writes the Monday midnight of the week of [t1] to the weekly stream
    in the same naive way, and the first of the month of [t1] at
    midnight in Santo Domingo to the monthly stream.  The weekly and
    monthly stages leave every producer timestamp as it was.  The day
    truncation of 2024-03-01T05:00:00 is the naive 2024-03-01T00:00:00.
    With the process in UTC, processing through 2024-03-01T02:00Z (22:00 of
    2024-02-29 in Santo Domingo) sets the daily producer to
    2024-02-29T00:00Z, 26 hours before [t1], where the day of [t1]
    begins at 2024-02-29T04:00Z in Santo Domingo and at
    2024-03-01T00:00Z in UTC. *)
Theorem producer_watermark_chaining local pull s db n rg tbl nr :
  let dev := Streetlamp.device_eui s in
  let w := wall (t1 rg) in
  pull dev (t0 rg) (t1 rg) db = Ok (tbl, nr) ->
  (StreetlampHourlyAggregationService._get_hourly_range local
     (StreetlampHourlyAggregationService.strname dev) dev db = Ok (Some rg) ->
   exists db',
     StreetlampHourlyAggregationService.aggregate_device local pull s (db, n)
     = Ok (db', n + nr)
     /\ tz (t1 rg) = Some America_Santo_Domingo
     /\ producer_of (StreetlampDailyAggregationService.strname dev) db'
        = Some (w - w mod us_per_day - utcoffset local)
     /\ (producer_of (StreetlampDailyAggregationService.strname dev) db'
         = Some (start_of_day (t1 rg) America_Santo_Domingo)
         <-> utcoffset local = utcoffset America_Santo_Domingo))
  /\ (StreetlampDailyAggregationService._get_daily_range local
        (StreetlampDailyAggregationService.strname dev) dev db = Ok (Some rg) ->
      exists db',
        StreetlampDailyAggregationService.aggregate_device local pull s (db, n)
        = Ok (db', n + nr)
        /\ tz (t1 rg) = Some America_Santo_Domingo
        /\ producer_of (StreetlampWeeklyAggregationService.strname dev) db'
           = Some (w - w mod us_per_day - weekday (t1 rg) * us_per_day
                   - utcoffset local)
        /\ (producer_of (StreetlampWeeklyAggregationService.strname dev) db'
            = Some (start_of_week (t1 rg) America_Santo_Domingo)
            <-> utcoffset local = utcoffset America_Santo_Domingo)
        /\ producer_of (StreetlampMonthlyAggregationService.strname dev) db'
           = Some (days_from_civil (year (t1 rg)) (month (t1 rg)) 1
                   * us_per_day - utcoffset America_Santo_Domingo))
  /\ (StreetlampWeeklyAggregationService._get_weekly_range local
        (StreetlampWeeklyAggregationService.strname dev) dev db = Ok (Some rg) ->
      exists db',
        StreetlampWeeklyAggregationService.aggregate_device local pull s (db, n)
        = Ok (db', n + nr)
        /\ map StreamState.name (Db.stream_states db')
           = map StreamState.name (Db.stream_states db)
        /\ map StreamState.producer_ts (Db.stream_states db')
           = map StreamState.producer_ts (Db.stream_states db))
  /\ (StreetlampMonthlyAggregationService._get_monthly_range local
        (StreetlampMonthlyAggregationService.strname dev) dev db = Ok (Some rg) ->
      exists db',
        StreetlampMonthlyAggregationService.aggregate_device local pull s (db, n)
        = Ok (db', n + nr)
        /\ map StreamState.name (Db.stream_states db')
           = map StreamState.name (Db.stream_states db)
        /\ map StreamState.producer_ts (Db.stream_states db')
           = map StreamState.producer_ts (Db.stream_states db))
  /\ (round_to_day (mk_datetime 2024 3 1 5 0 0 0 (Some America_Santo_Domingo))
      = mk_datetime 2024 3 1 0 0 0 0 None
      /\ round_to_day
           (mk_datetime 2024 3 15 5 0 0 0 (Some America_Santo_Domingo))
         = mk_datetime 2024 3 15 0 0 0 0 None
      /\ round_to_week
           (mk_datetime 2024 3 15 5 0 0 0 (Some America_Santo_Domingo))
         = mk_datetime 2024 3 11 0 0 0 0 None
      /\ round_to_month
           (mk_datetime 2024 3 15 5 0 0 0 (Some America_Santo_Domingo))
         = mk_datetime 2024 3 1 0 0 0 0 (Some America_Santo_Domingo))
  /\ (StreetlampHourlyAggregationService.aggregate UTC
        (sample_pull Db.hourly_streetlamp_state) db_night_readings
      = Ok (db_night_pass, 1)
      /\ instant UTC (t1 night_range)
         = wall (mk_datetime 2024 3 1 2 0 0 0 (Some UTC))
      /\ t1 night_range
         = mk_datetime 2024 2 29 22 0 0 0 (Some America_Santo_Domingo)
      /\ producer_of "streetlamp:state:daily:5058000000000001" db_night_pass
         = Some (wall (mk_datetime 2024 2 29 0 0 0 0 (Some UTC)))
      /\ wall (mk_datetime 2024 2 29 0 0 0 0 (Some UTC))
         = instant UTC (t1 night_range) - 26 * us_per_hour
      /\ start_of_day (t1 night_range) America_Santo_Domingo
         = wall (mk_datetime 2024 2 29 4 0 0 0 (Some UTC))
      /\ start_of_day (astimezone UTC UTC (t1 night_range)) UTC
         = wall (mk_datetime 2024 3 1 0 0 0 0 (Some UTC))).
Proof.
  intros dev w Hp.
  split; [|split; [|split; [|split; [|split]]]].
  - intros Hr.
    destruct (hourly_device_advances local pull s db n rg tbl nr Hp Hr)
      as (db' & Ha & Hpr).
    assert (Hw : producer_of (StreetlampDailyAggregationService.strname dev) db'
                 = Some (w - w mod us_per_day - utcoffset local))
      by exact Hpr.
    exists db'. split; [exact Ha|].
    split; [exact (get_range_t1_zone _ _ _ _ _ Hr)|].
    split; [exact Hw|].
    rewrite Hw. unfold start_of_day. fold w.
    set (k := w - w mod us_per_day). clearbody k.
    change (utcoffset America_Santo_Domingo) with (-14400000000).
    split; [intros H; injection H as H; lia | intros ->; reflexivity].
  - intros Hr.
    destruct (daily_device_advances local pull s db n rg tbl nr Hp Hr)
      as (db' & Ha & Hwk & Hmo).
    assert (Hw : producer_of (StreetlampWeeklyAggregationService.strname dev)
                   db'
                 = Some (w - w mod us_per_day - weekday (t1 rg) * us_per_day
                         - utcoffset local))
      by exact Hwk.
    exists db'. split; [exact Ha|].
    split; [exact (get_range_t1_zone _ _ _ _ _ Hr)|].
    split; [exact Hw|]. split.
    + rewrite Hw. unfold start_of_week, start_of_day. fold w.
      set (k := w - w mod us_per_day). clearbody k.
      set (d := weekday (t1 rg) * us_per_day). clearbody d.
      change (utcoffset America_Santo_Domingo) with (-14400000000).
      split; [intros H; injection H as H; lia | intros ->; f_equal; lia].
    + etransitivity; [exact Hmo|]. rewrite instant_round_to_month.
      unfold start_of_month. reflexivity.
  - exact (weekly_device_advances local pull s db n rg tbl nr Hp).
  - exact (monthly_device_advances local pull s db n rg tbl nr Hp).
  - repeat split; vm_compute; reflexivity.
  - repeat split; vm_compute; reflexivity.
Qed.

(** The hourly stage of a process in UTC on the readings of 01:00 and
    02:00 UTC. *)
Lemma producer_watermark_chaining_witness :
  sample_pull Db.hourly_streetlamp_state "5058000000000001"%string
    (t0 night_range) (t1 night_range) db_night_readings
  = Ok (Db.hourly_streetlamp_state db_night_readings, 1)
  /\ exists db',
       StreetlampHourlyAggregationService.aggregate_device UTC
         (sample_pull Db.hourly_streetlamp_state) sample_device
         (db_night_readings, 0) = Ok (db', 1)
       /\ producer_of "streetlamp:state:daily:5058000000000001"%string db'
          = Some (wall (mk_datetime 2024 2 29 0 0 0 0 None))
       /\ utcoffset UTC <> utcoffset America_Santo_Domingo.
Proof.
  split; [reflexivity|].
  destruct (producer_watermark_chaining UTC
              (sample_pull Db.hourly_streetlamp_state) sample_device
              db_night_readings 0 night_range
              (Db.hourly_streetlamp_state db_night_readings) 1 eq_refl)
    as [H _].
  destruct H as (db' & Ha & _ & Hp & _); [vm_compute; reflexivity|].
  exists db'. split; [exact Ha|]. split; [|discriminate].
  etransitivity; [exact Hp|]. vm_compute. reflexivity.
Defined.

(** ** Naive and aware truncations *)

Lemma insert_state_streams local ssc time sds db :
  Db.stream_states (fst (StreetlampStateService.insert_state local ssc time sds db))
  = StreamStateRepository.update_producer local
      (StreetlampHourlyAggregationService.strname
         (StreetlampStateCreate.dev_eui ssc))
      (round_to_hour time) (Db.stream_states db).
Proof. reflexivity. Qed.

Lemma producer_of_update_producer local name dt db db' :
  Db.stream_states db' = StreamStateRepository.update_producer local name dt (Db.stream_states db) ->
  producer_of name db' = Some (instant local dt).
Proof.
  intros H. unfold producer_of. rewrite H. unfold StreamStateRepository.update_producer.
  destruct (watermark_upsert name (instant local dt) (Db.stream_states db))
    as (r & Hw & Hp).
  now rewrite Hw.
Qed.

(** C10: for an aware datetime, [round_to_day] and [round_to_week]
    return a naive datetime and [round_to_hour] keeps the zone; so the
    daily and weekly producer timestamps are written from naive values,
    which the store reads in the zone of the process, while the hourly
    producer timestamp is written from an aware value. *)
Theorem day_truncation_drops_tzinfo local pull s db n rg tbl nr ssc sds dt z :
  let dev := Streetlamp.device_eui s in
  let time := astimezone local America_Santo_Domingo
                (StreetlampStateCreate.time ssc) in
  tz dt = Some z ->
  pull dev (t0 rg) (t1 rg) db = Ok (tbl, nr) ->
  (tz (round_to_day dt) = None
   /\ tz (round_to_week dt) = None
   /\ tz (round_to_hour dt) = Some z)
  /\ (StreetlampHourlyAggregationService._get_hourly_range local
        (StreetlampHourlyAggregationService.strname dev) dev db = Ok (Some rg) ->
      exists db',
        StreetlampHourlyAggregationService.aggregate_device local pull s (db, n)
        = Ok (db', n + nr)
        /\ tz (round_to_day (t1 rg)) = None
        /\ producer_of (StreetlampDailyAggregationService.strname dev) db'
           = Some (wall (round_to_day (t1 rg)) - utcoffset local))
  /\ (StreetlampDailyAggregationService._get_daily_range local
        (StreetlampDailyAggregationService.strname dev) dev db = Ok (Some rg) ->
      exists db',
        StreetlampDailyAggregationService.aggregate_device local pull s (db, n)
        = Ok (db', n + nr)
        /\ tz (round_to_week (t1 rg)) = None
        /\ producer_of (StreetlampWeeklyAggregationService.strname dev) db'
           = Some (wall (round_to_week (t1 rg)) - utcoffset local))
  /\ (tz (round_to_hour time) = Some America_Santo_Domingo
      /\ producer_of (StreetlampHourlyAggregationService.strname
                        (StreetlampStateCreate.dev_eui ssc))
                     (fst (StreetlampStateService.insert_state local ssc time sds db))
         = Some (wall (round_to_hour time) - utcoffset America_Santo_Domingo)).
Proof.
  intros dev time Hz Hp.
  split; [|split; [|split]].
  - unfold round_to_week, round_to_day, round_to_hour. cbn. auto.
  - intros Hr.
    destruct (hourly_device_advances local pull s db n rg tbl nr Hp Hr)
      as (db' & Ha & Hpr).
    exists db'. repeat split; assumption.
  - intros Hr.
    destruct (daily_device_advances local pull s db n rg tbl nr Hp Hr)
      as (db' & Ha & Hpr & _).
    exists db'. repeat split; assumption.
  - split; [reflexivity|].
    rewrite (producer_of_update_producer local _ (round_to_hour time) db _
               (insert_state_streams local ssc time sds db)).
    reflexivity.
Qed.

(** The three truncations of 2024-03-01T05:00:00 UTC. *)
Lemma day_truncation_drops_tzinfo_witness :
  tz (at_hour 5) = Some UTC
  /\ tz (round_to_day (at_hour 5)) = None
  /\ tz (round_to_week (at_hour 5)) = None
  /\ tz (round_to_hour (at_hour 5)) = Some UTC.
Proof.
  split; [reflexivity|].
  apply (day_truncation_drops_tzinfo UTC
           (sample_pull Db.hourly_streetlamp_state) sample_device
           db_two_readings 0 pending_range
           (Db.hourly_streetlamp_state db_two_readings) 1
           (sample_message (at_hour 5) good_state) good_state
           (at_hour 5) UTC eq_refl eq_refl).
Defined.

(** ** Failures during a pass *)

Lemma raising_loop_ok step devices acc r :
  raising_loop step devices acc = Ok r ->
  r = isolating_loop step devices acc.
Proof.
  revert acc. induction devices as [|s ds IH]; intros acc; cbn.
  - now intros [= <-].
  - destruct (step s acc) as [acc'|e]; cbn [bind]; [apply IH | discriminate].
Qed.

Lemma raising_loop_raise step devices acc e :
  raising_loop step devices acc = Raise e <->
  exists ds1 s ds2 acc',
    devices = ds1 ++ s :: ds2
    /\ raising_loop step ds1 acc = Ok acc'
    /\ step s acc' = Raise e.
Proof.
  revert acc. induction devices as [|s ds IH]; intros acc; cbn [raising_loop].
  - split; [discriminate|].
    intros (ds1 & s & ds2 & acc' & H & _). destruct ds1; discriminate H.
  - destruct (step s acc) as [acc1|e1] eqn:Hs; cbn [bind].
    + rewrite IH. split.
      * intros (ds1 & s' & ds2 & acc' & -> & Hl & Hr).
        exists (s :: ds1), s', ds2, acc'. cbn [raising_loop app].
        rewrite Hs. cbn [bind]. auto.
      * intros (ds1 & s' & ds2 & acc' & Hd & Hl & Hr).
        destruct ds1 as [|s1 ds1]; cbn [app raising_loop] in *.
        -- injection Hd as <- <-. injection Hl as <-. congruence.
        -- injection Hd as <- ->. rewrite Hs in Hl. cbn [bind] in Hl.
           exists ds1, s', ds2, acc'. auto.
    + split.
      * intros [= <-]. exists [], s, ds, acc. auto.
      * intros (ds1 & s' & ds2 & acc' & Hd & Hl & Hr).
        destruct ds1 as [|s1 ds1]; cbn [app raising_loop] in *.
        -- injection Hd as <- <-. injection Hl as <-. congruence.
        -- injection Hd as <- ->. rewrite Hs in Hl. discriminate Hl.
Qed.

Lemma hourly_loop_raising local pull ds acc :
  StreetlampHourlyAggregationService.aggregate_loop local pull ds acc
  = raising_loop (StreetlampHourlyAggregationService.aggregate_device local pull)
                 ds acc.
Proof. revert acc. induction ds as [|s ds IH]; intros acc; cbn; [reflexivity|].
  destruct (StreetlampHourlyAggregationService.aggregate_device _ _ _ _); cbn; auto.
Qed.

Lemma daily_loop_raising local pull ds acc :
  StreetlampDailyAggregationService.aggregate_loop local pull ds acc
  = raising_loop (StreetlampDailyAggregationService.aggregate_device local pull)
                 ds acc.
Proof. revert acc. induction ds as [|s ds IH]; intros acc; cbn; [reflexivity|].
  destruct (StreetlampDailyAggregationService.aggregate_device _ _ _ _); cbn; auto.
Qed.

Lemma weekly_loop_raising local pull ds acc :
  StreetlampWeeklyAggregationService.aggregate_loop local pull ds acc
  = raising_loop (StreetlampWeeklyAggregationService.aggregate_device local pull)
                 ds acc.
Proof. revert acc. induction ds as [|s ds IH]; intros acc; cbn; [reflexivity|].
  destruct (StreetlampWeeklyAggregationService.aggregate_device _ _ _ _); cbn; auto.
Qed.

Lemma monthly_loop_raising local pull ds acc :
  StreetlampMonthlyAggregationService.aggregate_loop local pull ds acc
  = raising_loop (StreetlampMonthlyAggregationService.aggregate_device local pull)
                 ds acc.
Proof. revert acc. induction ds as [|s ds IH]; intros acc; cbn; [reflexivity|].
  destruct (StreetlampMonthlyAggregationService.aggregate_device _ _ _ _); cbn; auto.
Qed.

Lemma raising_loop_semantics step db :
  pass_semantics (fun db => raising_loop step (Db.streetlamps db) (db, 0)) step db.
Proof.
  split.
  - intros r. apply raising_loop_ok.
  - intros e. apply raising_loop_raise.
Qed.

Lemma run_agg_process_raise local
      hourly_pull daily_pull weekly_pull monthly_pull (w : World.t) e :
  stage_raises local hourly_pull daily_pull weekly_pull monthly_pull
    (World.db w) e ->
  Main.run_agg_process local hourly_pull daily_pull weekly_pull monthly_pull w
  = rolled_back w e.
Proof.
  unfold Main.run_agg_process, rolled_back.
  intros [H1 | [(db1 & n1 & H1 & H2)
               | [(db1 & n1 & db2 & n2 & H1 & H2 & H3)
                 | (db1 & n1 & db2 & n2 & db3 & n3 & H1 & H2 & H3 & H4)]]];
    rewrite H1; cbn [bind fst];
    try (rewrite H2; cbn [bind fst]);
    try (rewrite H3; cbn [bind fst]);
    try (rewrite H4; cbn [bind fst]);
    now rewrite <- app_assoc.
Qed.

Lemma run_agg_process_rolled_back local
      hourly_pull daily_pull weekly_pull monthly_pull (w : World.t) e :
  Main.run_agg_process local hourly_pull daily_pull weekly_pull monthly_pull w
  = rolled_back w e ->
  stage_raises local hourly_pull daily_pull weekly_pull monthly_pull
    (World.db w) e.
Proof.
  unfold Main.run_agg_process, rolled_back.
  assert (Hlog : forall r r' : log_record,
             (World.log w
              ++ [LogInfo "Started running the aggregation process"])
             ++ [r]
             = World.log w
               ++ [LogInfo "Started running the aggregation process"; r'] ->
             r = r').
  { intros r r' H. rewrite <- app_assoc in H. apply app_inv_head in H.
    now injection H. }
  destruct (StreetlampHourlyAggregationService.aggregate local hourly_pull
              (World.db w)) as [[db1 n1]|e1] eqn:H1; cbn [bind fst].
  2:{ intros H. apply (f_equal World.log) in H. cbn [World.log] in H.
      apply Hlog in H. injection H as <-. left. exact H1. }
  destruct (StreetlampDailyAggregationService.aggregate local daily_pull db1)
    as [[db2 n2]|e2] eqn:H2; cbn [bind fst].
  2:{ intros H. apply (f_equal World.log) in H. cbn [World.log] in H.
      apply Hlog in H. injection H as <-. right. left.
      exists db1, n1. split; assumption. }
  destruct (StreetlampWeeklyAggregationService.aggregate local weekly_pull db2)
    as [[db3 n3]|e3] eqn:H3; cbn [bind fst].
  2:{ intros H. apply (f_equal World.log) in H. cbn [World.log] in H.
      apply Hlog in H. injection H as <-. right. right. left.
      exists db1, n1, db2, n2. repeat split; assumption. }
  destruct (StreetlampMonthlyAggregationService.aggregate local monthly_pull
              db3) as [[db4 n4]|e4] eqn:H4; cbn [bind fst].
  2:{ intros H. apply (f_equal World.log) in H. cbn [World.log] in H.
      apply Hlog in H. injection H as <-. right. right. right.
      exists db1, n1, db2, n2, db3, n3. repeat split; assumption. }
  intros H. apply (f_equal World.log) in H. cbn [World.log] in H.
  apply Hlog in H. discriminate H.
Qed.

(** C2, as the code has it: [aggregate] of each of the four
    resolutions handles its devices in order; when it returns, no device
    has failed and the result is what the loop over all devices gives;
    it raises exactly when handling some device raises after the devices
    before it went through, and then the devices after it are not
    handled.  Whichever of the four stages raises, after the stages
    before it returned, [run_agg_process] logs that exception once, runs
    no later stage and leaves the store as it was; and it does so only
    then. *)
Theorem aggregate_failure_semantics local
        hourly_pull daily_pull weekly_pull monthly_pull (w : World.t) :
  let db := World.db w in
  (forall db,
     pass_semantics
       (StreetlampHourlyAggregationService.aggregate local hourly_pull)
       (StreetlampHourlyAggregationService.aggregate_device local hourly_pull)
       db
     /\ pass_semantics
          (StreetlampDailyAggregationService.aggregate local daily_pull)
          (StreetlampDailyAggregationService.aggregate_device local daily_pull)
          db
     /\ pass_semantics
          (StreetlampWeeklyAggregationService.aggregate local weekly_pull)
          (StreetlampWeeklyAggregationService.aggregate_device local
             weekly_pull) db
     /\ pass_semantics
          (StreetlampMonthlyAggregationService.aggregate local monthly_pull)
          (StreetlampMonthlyAggregationService.aggregate_device local
             monthly_pull) db)
  /\ (forall e,
        stage_raises local hourly_pull daily_pull weekly_pull monthly_pull
          db e
        <-> Main.run_agg_process local hourly_pull daily_pull weekly_pull
              monthly_pull w
            = {| World.db := db; World.queue := World.queue w;
                 World.log :=
                   World.log w
                   ++ [LogInfo "Started running the aggregation process";
                       LogException
                         "Failed to finish running the aggregation process"
                         e] |}).
Proof.
  intros db.
  split.
  - clear db. intros db. split; [|split; [|split]].
    + unfold StreetlampHourlyAggregationService.aggregate, pass_semantics.
      setoid_rewrite hourly_loop_raising. apply raising_loop_semantics.
    + unfold StreetlampDailyAggregationService.aggregate, pass_semantics.
      setoid_rewrite daily_loop_raising. apply raising_loop_semantics.
    + unfold StreetlampWeeklyAggregationService.aggregate, pass_semantics.
      setoid_rewrite weekly_loop_raising. apply raising_loop_semantics.
    + unfold StreetlampMonthlyAggregationService.aggregate, pass_semantics.
      setoid_rewrite monthly_loop_raising. apply raising_loop_semantics.
  - intros e. split.
    + intros H.
      exact (run_agg_process_raise local hourly_pull daily_pull weekly_pull
               monthly_pull w e H).
    + intros H.
      exact (run_agg_process_rolled_back local hourly_pull daily_pull
               weekly_pull monthly_pull w e H).
Qed.

(** A failure of the daily stage: the hourly stage has nothing to do,
    the daily stage finds two hourly rows with the oldest hour of the
    device, and the pass is rolled back. *)
Example daily_failure_rolls_back :
  let w := {| World.db := db_duplicate_hour; World.queue := [];
              World.log := [] |} in
  StreetlampHourlyAggregationService.aggregate UTC
    (sample_pull Db.hourly_streetlamp_state) db_duplicate_hour
  = Ok (db_duplicate_hour, 0)
  /\ StreetlampDailyAggregationService.aggregate UTC
       (sample_pull Db.daily_streetlamp_state) db_duplicate_hour
     = Raise MultipleResultsFound
  /\ Main.run_agg_process UTC (sample_pull Db.hourly_streetlamp_state)
       (sample_pull Db.daily_streetlamp_state)
       (sample_pull Db.weekly_streetlamp_state)
       (sample_pull Db.monthly_streetlamp_state) w
     = rolled_back w MultipleResultsFound.
Proof. cbv zeta. repeat split; vm_compute; reflexivity. Qed.

Lemma device_failures_isolated_fails : ~ device_failures_isolated.
Proof.
  intros H.
  specialize (H UTC (sample_pull Db.hourly_streetlamp_state) db_duplicate_reading).
  vm_compute in H. discriminate H.
Qed.

Example duplicate_reading_aborts_pass :
  StreetlampHourlyAggregationService.aggregate UTC
    (sample_pull Db.hourly_streetlamp_state) db_duplicate_reading
  = Raise MultipleResultsFound
  /\ StreetlampHourlyAggregationService.aggregate_device UTC
       (sample_pull Db.hourly_streetlamp_state)
       {| Streetlamp.device_eui := "5058000000000002" |}
       (db_duplicate_reading, 0)
     <> Ok (db_duplicate_reading, 0).
Proof. split; [vm_compute; reflexivity | vm_compute; discriminate]. Qed.

(** ** The watermark invariant *)

Lemma upsert_producer_ok name ts tbl :
  Forall watermark_ok tbl ->
  not_consumed_past name ts tbl ->
  Forall watermark_ok (StreamStateRepository.upsert_producer name ts tbl).
Proof.
  induction tbl as [|r tbl IH]; intros Hok Hg; cbn [StreamStateRepository.upsert_producer].
  - constructor; [exact I | constructor].
  - inversion_clear Hok as [|? ? Hr Ht].
    destruct (String.eqb (StreamState.name r) name) eqn:E.
    + constructor; [|exact Ht].
      apply String.eqb_eq in E. unfold watermark_ok.
      cbn [StreamState.consumer_ts StreamState.producer_ts].
      destruct (StreamState.consumer_ts r) as [c|] eqn:Hc; [|exact I].
      apply (Hg r c); auto. now left.
    + constructor; [exact Hr|]. apply IH; [exact Ht|].
      intros r' c Hin. apply Hg. now right.
Qed.

Lemma upsert_producer_consumers name ts tbl r' :
  In r' (StreamStateRepository.upsert_producer name ts tbl) ->
  StreamState.consumer_ts r' = None
  \/ exists r, In r tbl /\ StreamState.name r = StreamState.name r'
               /\ StreamState.consumer_ts r = StreamState.consumer_ts r'.
Proof.
  induction tbl as [|r tbl IH]; cbn [StreamStateRepository.upsert_producer].
  - intros [<- | []]. now left.
  - destruct (String.eqb (StreamState.name r) name) eqn:E.
    + intros [<- | Hin].
      * right. exists r. cbn. split; [now left | auto].
      * right. exists r'. split; [now right | auto].
    + intros [<- | Hin].
      * right. exists r. split; [now left | auto].
      * destruct (IH Hin) as [H | (r0 & H0 & H1)]; [now left|].
        right. exists r0. split; [now right | auto].
Qed.

Lemma not_consumed_past_upsert name ts name' ts' tbl :
  not_consumed_past name ts tbl ->
  not_consumed_past name ts (StreamStateRepository.upsert_producer name' ts' tbl).
Proof.
  intros Hg r' c Hin Hn Hc.
  apply upsert_producer_consumers in Hin.
  destruct Hin as [H | (r & Hr & Hnr & Hcr)]; [congruence|].
  apply (Hg r c); congruence.
Qed.

Lemma not_consumed_past_update_consumer local name ts name' dt tbl :
  name' <> name ->
  not_consumed_past name ts tbl ->
  not_consumed_past name ts (StreamStateRepository.update_consumer local name' dt tbl).
Proof.
  intros Hne Hg r' c Hin Hn Hc. rewrite update_consumer_map in Hin.
  apply in_map_iff in Hin. destruct Hin as (r & <- & Hr).
  rewrite set_consumer_name in Hn. unfold set_consumer in Hc.
  destruct (String.eqb (StreamState.name r) name') eqn:E.
  - apply String.eqb_eq in E. congruence.
  - apply (Hg r c); auto.
Qed.

Lemma set_producers_ok local dev t1 next tbl :
  Forall watermark_ok tbl ->
  (forall nx, In nx next ->
     not_consumed_past (fst nx dev) (instant local (snd nx t1)) tbl) ->
  Forall watermark_ok (set_producers local dev t1 next tbl).
Proof.
  unfold set_producers. revert tbl.
  induction next as [|nx next IH]; intros tbl Hok Hg; cbn [fold_left];
    [exact Hok|].
  apply IH.
  - apply upsert_producer_ok; [exact Hok|]. apply Hg. now left.
  - intros nx' Hin. apply not_consumed_past_upsert. apply Hg. now right.
Qed.

(** The consumer update of a stage: it writes the producer timestamp it
    has just read. *)
Lemma update_consumer_ok local name p tbl :
  Forall watermark_ok tbl ->
  (forall r, In r tbl -> StreamState.name r = name ->
             StreamState.producer_ts r = Some p) ->
  Forall watermark_ok
    (StreamStateRepository.update_consumer local name
       (convert_to_default_tz local (of_timestamptz p)) tbl).
Proof.
  intros Hok Hp. rewrite update_consumer_map, instant_convert.
  rewrite Forall_forall in *. intros r' Hin.
  apply in_map_iff in Hin. destruct Hin as (r & <- & Hr).
  unfold set_consumer.
  destruct (String.eqb (StreamState.name r) name) eqn:E; [|now apply Hok].
  apply String.eqb_eq in E. unfold watermark_ok.
  cbn [StreamState.consumer_ts StreamState.producer_ts].
  rewrite (Hp r Hr E). lia.
Qed.

Lemma unique_row name tbl r r' :
  NoDup (map StreamState.name tbl) ->
  In r tbl -> In r' tbl ->
  StreamState.name r = name -> StreamState.name r' = name -> r = r'.
Proof.
  induction tbl as [|a tbl IH]; intros Hnd Hr Hr' Hn Hn'; [destruct Hr|].
  cbn [map] in Hnd. inversion_clear Hnd as [|? ? Hni Hnd'].
  destruct Hr as [-> | Hr]; destruct Hr' as [-> | Hr']; auto.
  - exfalso. apply Hni. rewrite Hn, <- Hn'. now apply in_map.
  - exfalso. apply Hni. rewrite Hn', <- Hn. now apply in_map.
Qed.

Lemma stage_device_ok st local pull s db n db' n' :
  stage_ok st ->
  canonical_names st [s] (Db.stream_states db) ->
  NoDup (map StreamState.name (Db.stream_states db)) ->
  watermarks_ok db ->
  (forall rg nx,
     range_of st local s db = Ok (Some rg) -> In nx (stage_next st) ->
     not_consumed_past (fst nx (Streetlamp.device_eui s))
       (instant local (snd nx (t1 rg))) (Db.stream_states db)) ->
  stage_device st local pull s (db, n) = Ok (db', n') ->
  watermarks_ok db'.
Proof.
  intros Hok Hc Hnd Hw Hg Hs. apply stage_device_cases in Hs.
  destruct Hs as [(_ & -> & _) | (rg & tbl & nr & Hr & _ & -> & _)];
    [exact Hw|].
  unfold watermarks_ok, after_pull.
  destruct (stage_set_table st tbl db) as [sl sst sal ss h dd w m] eqn:E.
  cbn [Db.stream_states Db.set_stream_states].
  assert (Hss : ss = Db.stream_states db).
  { rewrite <- (streams_set_table st Hok tbl db), E. reflexivity. }
  subst ss.
  pose proof Hr as Hr'. unfold range_of in Hr'.
  apply get_range_t1 in Hr'. destruct Hr' as (r & p & Hf & Hp & Ht1).
  pose proof Hf as Hf'. apply find_by_name_spec in Hf'.
  destruct Hf' as [Hin Hl].
  pose proof (Hc r s Hin (or_introl eq_refl) Hl) as Hn.
  apply set_producers_ok.
  - rewrite Ht1. apply update_consumer_ok; [exact Hw|].
    intros r' Hr'in Hn'. rewrite <- (unique_row _ _ r r' Hnd Hin Hr'in Hn Hn').
    exact Hp.
  - intros nx Hnx. apply not_consumed_past_update_consumer.
    + intros Heq.
      pose proof (next_apart st Hok nx (Streetlamp.device_eui s)
                    (Streetlamp.device_eui s) Hnx) as Hne.
      rewrite Heq, String.eqb_refl in Hne. discriminate Hne.
    + now apply Hg.
Qed.

Lemma watermark_invariant_as_specified_fails :
  ~ watermark_invariant_as_specified.
Proof.
  intros H.
  specialize (H UTC (sample_pull Db.hourly_streetlamp_state)
                (sample_pull Db.daily_streetlamp_state)
                (sample_pull Db.weekly_streetlamp_state)
                (sample_pull Db.monthly_streetlamp_state)
                late_reading_run one_device (Forall_nil _)).
  unfold watermarks_ok in H.
  assert (Hs : exists c p rest,
             Db.stream_states
               (fold_left
                  (run_op UTC (sample_pull Db.hourly_streetlamp_state)
                     (sample_pull Db.daily_streetlamp_state)
                     (sample_pull Db.weekly_streetlamp_state)
                     (sample_pull Db.monthly_streetlamp_state))
                  late_reading_run one_device)
             = {| StreamState.name := "streetlamp:state:hourly:5058000000000001";
                  StreamState.producer_ts := Some p;
                  StreamState.consumer_ts := Some c |} :: rest
             /\ p < c).
  { eexists _, _, _. split; [vm_compute; reflexivity | reflexivity]. }
  destruct Hs as (c & p & rest & Hs & Hlt). rewrite Hs in H.
  inversion_clear H as [|? ? Hr _]. unfold watermark_ok in Hr. cbn in Hr. lia.
Qed.

(** C5, as the code has it: a step of any of the four stages keeps
    [consumer_ts <= producer_ts] on every row, provided the stream names
    are unique, the row found for the device carries exactly its stream
    name, and no producer timestamp that the step writes is earlier than
    what the target row has consumed; the producer update of an accepted
    reading keeps it under the same proviso, and raising an alarm writes
    no watermark. *)
Theorem watermark_invariant_preserved local pull ssc sds db :
  let time := astimezone local America_Santo_Domingo
                (StreetlampStateCreate.time ssc) in
  step_keeps_watermarks hourly_stage local
    (StreetlampHourlyAggregationService.aggregate_device local pull)
  /\ step_keeps_watermarks daily_stage local
       (StreetlampDailyAggregationService.aggregate_device local pull)
  /\ step_keeps_watermarks weekly_stage local
       (StreetlampWeeklyAggregationService.aggregate_device local pull)
  /\ step_keeps_watermarks monthly_stage local
       (StreetlampMonthlyAggregationService.aggregate_device local pull)
  /\ (watermarks_ok db ->
      not_consumed_past
        (StreetlampHourlyAggregationService.strname
           (StreetlampStateCreate.dev_eui ssc))
        (instant local (round_to_hour time)) (Db.stream_states db) ->
      watermarks_ok (fst (StreetlampStateService.insert_state local ssc time sds db)))
  /\ (forall atype severity,
        watermarks_ok db ->
        watermarks_ok
          (StreetlampStateService.raise_alarm local time (StreetlampStateCreate.dev_eui ssc) sds
             atype severity db)).
Proof.
  intros time.
  split; [|split; [|split; [|split; [|split]]]].
  - intros s d n d' n' Hc Hnd Hw Hg Hs. rewrite hourly_device_stage in Hs.
    eapply stage_device_ok; eauto using hourly_stage_ok.
  - intros s d n d' n' Hc Hnd Hw Hg Hs. rewrite daily_device_stage in Hs.
    eapply stage_device_ok; eauto using daily_stage_ok.
  - intros s d n d' n' Hc Hnd Hw Hg Hs. rewrite weekly_device_stage in Hs.
    eapply stage_device_ok; eauto using weekly_stage_ok.
  - intros s d n d' n' Hc Hnd Hw Hg Hs. rewrite monthly_device_stage in Hs.
    eapply stage_device_ok; eauto using monthly_stage_ok.
  - intros Hw Hg. unfold watermarks_ok. change (Db.stream_states (fst (StreetlampStateService.insert_state local ssc time sds db)))
      with (StreamStateRepository.upsert_producer
              (StreetlampHourlyAggregationService.strname
                 (StreetlampStateCreate.dev_eui ssc))
              (instant local (round_to_hour time)) (Db.stream_states db)).
    apply upsert_producer_ok; assumption.
  - intros a sv Hw. exact Hw.
Qed.

(** The hourly pass over a store with two readings. *)
Lemma watermark_invariant_preserved_witness :
  watermarks_ok db_two_readings /\ watermarks_ok db_first_pass.
Proof.
  assert (Hw : watermarks_ok db_two_readings).
  { unfold watermarks_ok. vm_compute. constructor; [exact I | constructor]. }
  split; [exact Hw|].
  apply (proj1 (watermark_invariant_preserved UTC
                  (sample_pull Db.hourly_streetlamp_state)
                  (sample_message (at_hour 5) good_state) good_state
                  db_two_readings)
           sample_device db_two_readings 0 db_first_pass 1).
  - intros r s Hr Hs _. vm_compute in Hr, Hs.
    destruct Hr as [<- | []]. destruct Hs as [<- | []]. reflexivity.
  - vm_compute. constructor; [intros [] | constructor].
  - exact Hw.
  - intros rg nx _ _ r c Hr _ Hc. vm_compute in Hr.
    destruct Hr as [<- | []]. discriminate Hc.
  - vm_compute. reflexivity.
Defined.

(** ** The ingestion loop *)

(** An entry whose reading [create] accepts or rejects, and whose
    deletion succeeds, is deleted from the queue and the loop goes on. *)
Lemma handled_entry_is_deleted local xdel_raises it ssc st db ssid :
  parse_raw (value it) = Ok ssc ->
  StreetlampStateCreate.data ssc <> [] ->
  StreetlampStateService.create local ssc (Main.b_db st) = Ok (db, ssid) ->
  xdel_raises (item_id it) = false ->
  Main.proc_item local xdel_raises it st
  = ({| Main.b_db := db;
        Main.b_queue := xdel (item_id it) (Main.b_queue st);
        Main.b_log := Main.b_log st;
        Main.n := match ssid with
                  | Some _ => Main.n st + 1
                  | None => Main.n st
                  end;
        Main.last_id_seen := item_id it |}, None).
Proof.
  intros Hp Hd Hc Hx. unfold Main.proc_item, Main.try_item. rewrite Hp.
  destruct (StreetlampStateCreate.data ssc) as [|c cs]; [contradiction|].
  rewrite Hc. cbn [bind Main.b_db Main.b_queue Main.b_log Main.n
                   Main.last_id_seen].
  rewrite Hx. reflexivity.
Qed.

(** An entry whose reading makes [create] raise is left in the queue,
    and the exception leaves the loop. *)
Lemma failed_entry_leaves_loop local xdel_raises it ssc st e items :
  parse_raw (value it) = Ok ssc ->
  StreetlampStateCreate.data ssc <> [] ->
  StreetlampStateService.create local ssc (Main.b_db st) = Raise e ->
  e <> RedisError ->
  Main.proc_items local xdel_raises (it :: items) st
  = ({| Main.b_db := Main.b_db st;
        Main.b_queue := Main.b_queue st;
        Main.b_log := Main.b_log st;
        Main.n := Main.n st;
        Main.last_id_seen := item_id it |}, Some e).
Proof.
  intros Hp Hd Hc He. cbn [Main.proc_items].
  unfold Main.proc_item, Main.try_item. rewrite Hp.
  destruct (StreetlampStateCreate.data ssc) as [|c cs]; [contradiction|].
  rewrite Hc. cbn [bind Main.b_db Main.b_queue Main.b_log Main.n
                   Main.last_id_seen].
  destruct e; try reflexivity. contradiction.
Qed.

Lemma batch_on_poisoned_queue local xdel_raises log :
  Main.proc_streetlamp_state_batch local xdel_raises (0, 0) 1000
    (poisoned_world log)
  = (poisoned_world
       (log ++ [LogException "Failed processing streetlamp states" StructError]),
     tt).
Proof. reflexivity. Qed.

Lemma empty_store_pass local hourly_pull daily_pull weekly_pull monthly_pull
      queue log :
  exists log',
    Main.run_agg_process local hourly_pull daily_pull weekly_pull monthly_pull
      {| World.db := Db.empty; World.queue := queue; World.log := log |}
    = {| World.db := Db.empty; World.queue := queue; World.log := log' |}.
Proof. eexists. reflexivity. Qed.

Lemma turn_on_poisoned_queue local xdel_raises
      hourly_pull daily_pull weekly_pull monthly_pull now now' log t :
  exists log' t',
    Main.proc_streetlamp_states_turn local xdel_raises hourly_pull daily_pull
      weekly_pull monthly_pull now now' (0, 0) (poisoned_world log, t)
    = (poisoned_world log', t').
Proof.
  unfold Main.proc_streetlamp_states_turn.
  rewrite batch_on_poisoned_queue.
  destruct (Float64.gtb _ _).
  - destruct (empty_store_pass local hourly_pull daily_pull weekly_pull
                monthly_pull poisoned_queue
                (log ++ [LogException "Failed processing streetlamp states"
                                      StructError])) as (log' & H).
    exists log', now'. unfold poisoned_world at 1. now rewrite H.
  - eauto.
Qed.

(** C1: a batch whose first entry makes [create] raise outside Redis
    (here a payload of three bytes) is abandoned at that entry: the
    batch function returns no cursor, neither entry is deleted and
    nothing is stored; since the caller reads from [0-0] at every turn,
    this stays so however long the loop runs.  The claim states that the
    failed entry is deleted, the cursor advanced and returned, and the
    entry behind it handled. *)
Theorem poisoned_queue_never_drains local xdel_raises
        hourly_pull daily_pull weekly_pull monthly_pull clock log :
  let w := fst (Main.proc_streetlamp_states local xdel_raises hourly_pull
                  daily_pull weekly_pull monthly_pull clock
                  (poisoned_world log)) in
  snd (Main.proc_streetlamp_state_batch local xdel_raises (0, 0) 1000
         (poisoned_world log)) = tt
  /\ World.queue w = poisoned_queue
  /\ World.db w = Db.empty.
Proof.
  cbv zeta. split; [reflexivity|].
  unfold Main.proc_streetlamp_states. cbv zeta.
  generalize (S754_zero false) as t. revert log.
  induction clock as [|c clock IH]; intros log t; cbn [fold_left]; cbv beta.
  - split; reflexivity.
  - destruct (turn_on_poisoned_queue local xdel_raises hourly_pull daily_pull
                weekly_pull monthly_pull (fst c) (snd c) log t)
      as (log' & t' & H).
    unfold Float64.float, stream_id in *. rewrite H. apply IH.
Qed.

Example batch_loses_handled_entry local log :
  Main.proc_streetlamp_state_batch local (fun _ => false) (0, 0) 1000
    {| World.db := Db.empty; World.queue := reversed_queue; World.log := log |}
  = ({| World.db := Db.empty;
        World.queue := [ {| item_id := (2, 0); value := Json truncated_message |} ];
        World.log :=
          log ++ [LogException "Failed processing streetlamp states"
                               StructError] |},
     tt).
Proof.
  unfold Main.proc_streetlamp_state_batch. cbn [World.db World.queue World.log].
  change (xread (0, 0) 1000 reversed_queue) with reversed_queue.
  unfold reversed_queue. cbn [Main.proc_items].
  unfold Main.proc_item at 1. cbn [parse_raw value].
  unfold Main.try_item.
  destruct (StreetlampStateService.create local (sample_message (at_hour 6) good_state) Db.empty)
    as [[db' ssid]|e] eqn:Hc.
  - cbn [bind]. reflexivity.
  - exfalso. revert Hc.
    rewrite (create_decoded local _ good_state Db.empty) by (vm_compute; reflexivity).
    vm_compute. discriminate.
Qed.

(** ** Further properties of the pipeline *)

Lemma b2a_base64_length (bs : list Z) :
  List.length (Base64.b2a_base64 bs)
  = (4 * ((List.length bs + 2) / 3))%nat.
Proof.
  induction bs as [| b1 | b1 b2 | b1 b2 b3 bs IH] using list_ind3;
    try reflexivity.
  cbn [Base64.b2a_base64 List.length]. rewrite IH.
  replace (S (S (S (List.length bs))) + 2)%nat
    with ((List.length bs + 2) + 1 * 3)%nat by lia.
  rewrite Nat.div_add by lia. lia.
Qed.

Lemma pack_d_length (x : Float64.float) :
  List.length (Struct.pack_d x) = 8%nat.
Proof. apply pack_le_length. Qed.

Lemma state_payload_bytes (r : StreetlampDeviceState.t) :
  Forall is_byte
    (encode_float "V" (StreetlampDeviceState.voltage r)
     ++ encode_float "I" (StreetlampDeviceState.current r)
     ++ encode_float "M" (StreetlampDeviceState.energy_out r)
     ++ encode_float "E" (StreetlampDeviceState.energy_in r)
     ++ encode_float "W" (StreetlampDeviceState.power r)
     ++ encode_float "F" (StreetlampDeviceState.frequency r)
     ++ [ord "S"]
     ++ [if StreetlampDeviceState.status_on r then 1 else 0]
     ++ [255; 255; 255; 255; 255; 255; 255; 255]).
Proof.
  do 6 (apply Forall_app; split; [apply encode_float_bytes|]).
  cbn [app]. repeat apply Forall_cons; try apply Forall_nil;
    unfold is_byte, ord;
    try (destruct (StreetlampDeviceState.status_on r); lia); cbn; lia.
Qed.

(** X1: whatever the state, [encode_state_data] yields 88 ASCII
    characters, and they decode to a payload of 64 bytes. *)
Theorem encode_state_data_size (r : StreetlampDeviceState.t) :
  List.length (encode_state_data r) = 88%nat
  /\ forallb (fun c => N.ltb (N_of_ascii c) 128) (encode_state_data r) = true
  /\ exists b, Base64.b64decode (encode_state_data r) = Ok b
               /\ List.length b = 64%nat.
Proof.
  unfold encode_state_data, Base64.b64encode.
  split; [|split].
  - rewrite b2a_base64_length. unfold encode_float.
    rewrite !length_app. cbn [List.length]. rewrite !pack_d_length.
    reflexivity.
  - apply b2a_base64_ascii.
  - eexists. split.
    + apply (b64decode_b64encode _ (state_payload_bytes r)).
    + unfold encode_float. rewrite !length_app. cbn [List.length].
      rewrite !pack_d_length. reflexivity.
Qed.

Lemma of_bits_to_bits_wf (x : Float64.float) :
  well_formed x -> Float64.of_bits (Float64.to_bits x) = x.
Proof.
  intros Hv. destruct x as [s | s | | s m e].
  - destruct s; reflexivity.
  - destruct s; reflexivity.
  - reflexivity.
  - now apply of_bits_to_bits.
Qed.

Lemma to_bits_range_wf (x : Float64.float) :
  well_formed x -> 0 <= Float64.to_bits x < 2 ^ 64.
Proof.
  intros Hv. destruct x as [s | s | | s m e].
  - destruct s; cbn; lia.
  - destruct s; cbn; lia.
  - cbn; lia.
  - now apply to_bits_range.
Qed.

Lemma unpack_d_pack_d_wf (x : Float64.float) :
  well_formed x -> Struct.unpack_d (Struct.pack_d x) = Ok x.
Proof.
  intros Hv. unfold Struct.unpack_d, Struct.pack_d.
  rewrite pack_le_length. cbn [Nat.eqb].
  rewrite unpack_pack_le by (apply to_bits_range_wf; assumption).
  now rewrite of_bits_to_bits_wf.
Qed.

(** X2: [decode_state_data] reads its fields by position only: a
    payload that holds six well-formed doubles (finite, infinite or NaN)
    at the offsets 1, 10, 19, 28, 37 and 46 and a status byte at offset
    55 decodes to these doubles and to the status "byte is not zero",
    whatever bytes stand at the tag positions and after the status. *)
Theorem decode_state_data_positional tag v i m e w f status trailer :
  well_formed v -> well_formed i -> well_formed m ->
  well_formed e -> well_formed w -> well_formed f ->
  (forall k, (k < 7)%nat -> is_byte (tag k)) ->
  is_byte status -> Forall is_byte trailer ->
  decode_state_data
    (Base64.b64encode (payload_of tag v i m e w f status trailer))
  = Ok {| StreetlampDeviceState.voltage := v;
          StreetlampDeviceState.current := i;
          StreetlampDeviceState.energy_out := m;
          StreetlampDeviceState.energy_in := e;
          StreetlampDeviceState.power := w;
          StreetlampDeviceState.frequency := f;
          StreetlampDeviceState.status_on := negb (status =? 0) |}.
Proof.
  intros Hv Hi Hm He Hw Hf Htag Hs Htr.
  unfold decode_state_data. rewrite b64decode_b64encode.
  2:{ unfold payload_of.
      do 6 (apply Forall_cons; [apply Htag; lia|];
            apply Forall_app; split; [apply pack_d_bytes|]).
      apply Forall_cons; [apply Htag; lia|]. now apply Forall_cons. }
  cbn [bind]. unfold payload_of.
  change (field_slice 0 _) with (Struct.pack_d v).
  change (field_slice 1 _) with (Struct.pack_d i).
  change (field_slice 2 _) with (Struct.pack_d m).
  change (field_slice 3 _) with (Struct.pack_d e).
  change (field_slice 4 _) with (Struct.pack_d w).
  change (field_slice 5 _) with (Struct.pack_d f).
  change (field_slice 6 _) with (status :: firstn 7 trailer).
  rewrite !unpack_d_pack_d_wf by assumption. reflexivity.
Qed.

Lemma decode_state_data_positional_witness :
  decode_state_data
    (Base64.b64encode
       (payload_of (fun k => Z.of_nat k) (S754_infinity false) S754_nan
          (S754_zero true)
          (Float64.of_Z 1000) (Float64.of_Z 90) (Float64.of_Z 60) 7 []))
  = Ok {| StreetlampDeviceState.voltage := S754_infinity false;
          StreetlampDeviceState.current := S754_nan;
          StreetlampDeviceState.energy_out := S754_zero true;
          StreetlampDeviceState.energy_in := Float64.of_Z 1000;
          StreetlampDeviceState.power := Float64.of_Z 90;
          StreetlampDeviceState.frequency := Float64.of_Z 60;
          StreetlampDeviceState.status_on := true |}.
Proof.
  apply (decode_state_data_positional (fun k => Z.of_nat k)
           (S754_infinity false) S754_nan (S754_zero true)
           (Float64.of_Z 1000) (Float64.of_Z 90) (Float64.of_Z 60) 7 []);
    try reflexivity; try (unfold is_byte; lia); constructor.
Defined.

Lemma field_slice_length (i : nat) (b : list Z) :
  List.length (field_slice i b)
  = Nat.min 8 (List.length b - (9 * i + 1)).
Proof.
  unfold field_slice, slice. rewrite length_firstn, length_skipn.
  replace (9 * (i + 1) - (i + 1 + 8 * i))%nat with 8%nat by lia.
  replace (i + 1 + 8 * i)%nat with (9 * i + 1)%nat by lia. reflexivity.
Qed.

Lemma unpack_d_field (i : nat) (b : list Z) :
  ((9 * i + 9 <= List.length b)%nat ->
   exists x, Struct.unpack_d (field_slice i b) = Ok x)
  /\ ((List.length b < 9 * i + 9)%nat ->
      Struct.unpack_d (field_slice i b) = Raise StructError).
Proof.
  unfold Struct.unpack_d. rewrite field_slice_length.
  split; intros H.
  - replace (Nat.min 8 (List.length b - (9 * i + 1))) with 8%nat by lia.
    cbn [Nat.eqb]. eauto.
  - destruct (Nat.eqb_spec (Nat.min 8 (List.length b - (9 * i + 1))) 8)
      as [E | E]; [lia | reflexivity].
Qed.

(** X3: on input that is valid Base64, [decode_state_data] raises
    [struct.error] when the payload has fewer than 54 bytes, raises
    [IndexError] when it has 54 or 55 bytes, and returns a state when it
    has at least 56 bytes. *)
Theorem decode_state_data_short (s : list ascii) (b : list Z) :
  Base64.b64decode s = Ok b ->
  ((List.length b < 54)%nat -> decode_state_data s = Raise StructError)
  /\ ((54 <= List.length b < 56)%nat ->
      decode_state_data s = Raise IndexError)
  /\ ((56 <= List.length b)%nat -> exists r, decode_state_data s = Ok r).
Proof.
  intros Hb. unfold decode_state_data. rewrite Hb. cbn [bind].
  assert (Hs : (List.length b < 56)%nat ->
               unpack_status (field_slice 6 b) = Raise IndexError).
  { intros H. pose proof (field_slice_length 6 b) as Hl.
    destruct (field_slice 6 b); [reflexivity | cbn [List.length] in Hl; lia]. }
  assert (Hs' : (56 <= List.length b)%nat ->
                exists v, unpack_status (field_slice 6 b) = Ok v).
  { intros H. pose proof (field_slice_length 6 b) as Hl.
    destruct (field_slice 6 b); [cbn [List.length] in Hl; lia|].
    cbn. eauto. }
  destruct (unpack_d_field 0 b) as [O0 R0], (unpack_d_field 1 b) as [O1 R1],
    (unpack_d_field 2 b) as [O2 R2], (unpack_d_field 3 b) as [O3 R3],
    (unpack_d_field 4 b) as [O4 R4], (unpack_d_field 5 b) as [O5 R5].
  split; [|split]; intros H.
  - destruct (Nat.lt_ge_cases (List.length b) 9) as [L|L];
      [now rewrite R0 by lia|].
    destruct O0 as [x0 ->]; [lia|]. cbn [bind].
    destruct (Nat.lt_ge_cases (List.length b) 18) as [L1|L1];
      [now rewrite R1 by lia|].
    destruct O1 as [x1 ->]; [lia|]. cbn [bind].
    destruct (Nat.lt_ge_cases (List.length b) 27) as [L2|L2];
      [now rewrite R2 by lia|].
    destruct O2 as [x2 ->]; [lia|]. cbn [bind].
    destruct (Nat.lt_ge_cases (List.length b) 36) as [L3|L3];
      [now rewrite R3 by lia|].
    destruct O3 as [x3 ->]; [lia|]. cbn [bind].
    destruct (Nat.lt_ge_cases (List.length b) 45) as [L4|L4];
      [now rewrite R4 by lia|].
    destruct O4 as [x4 ->]; [lia|]. cbn [bind].
    now rewrite R5 by lia.
  - destruct O0 as [x0 ->]; [lia|]. destruct O1 as [x1 ->]; [lia|].
    destruct O2 as [x2 ->]; [lia|]. destruct O3 as [x3 ->]; [lia|].
    destruct O4 as [x4 ->]; [lia|]. destruct O5 as [x5 ->]; [lia|].
    cbn [bind]. now rewrite Hs by lia.
  - destruct O0 as [x0 ->]; [lia|]. destruct O1 as [x1 ->]; [lia|].
    destruct O2 as [x2 ->]; [lia|]. destruct O3 as [x3 ->]; [lia|].
    destruct O4 as [x4 ->]; [lia|]. destruct O5 as [x5 ->]; [lia|].
    destruct (Hs' H) as [v ->]. cbn [bind]. eauto.
Qed.

Lemma decode_state_data_short_witness :
  decode_state_data (list_ascii_of_string "AAAA") = Raise StructError.
Proof.
  apply (decode_state_data_short (list_ascii_of_string "AAAA") [0; 0; 0]
           eq_refl).
  cbn. lia.
Defined.

Lemma fold_max_spec (l : list Z) (a : Z) :
  let m := fold_left Z.max l a in
  (m = a \/ In m l) /\ a <= m /\ forall x, In x l -> x <= m.
Proof.
  revert a. induction l as [|x l IH]; intros a; cbv zeta; cbn [fold_left].
  - split; [left; reflexivity|]. split; [lia|]. intros x [].
  - destruct (IH (Z.max a x)) as (Hin & Hge & Hall). cbv zeta in *.
    split; [|split].
    + destruct Hin as [H | H]; [|right; now right].
      destruct (Z.max_spec a x) as [[_ E] | [_ E]]; rewrite E in *.
      * right. left. now symmetry.
      * now left.
    + lia.
    + intros y [<- | Hy]; [lia | now apply Hall].
Qed.

Lemma fold_min_spec (l : list Z) (a : Z) :
  let m := fold_left Z.min l a in
  (m = a \/ In m l) /\ m <= a /\ forall x, In x l -> m <= x.
Proof.
  revert a. induction l as [|x l IH]; intros a; cbv zeta; cbn [fold_left].
  - split; [left; reflexivity|]. split; [lia|]. intros x [].
  - destruct (IH (Z.min a x)) as (Hin & Hge & Hall). cbv zeta in *.
    split; [|split].
    + destruct Hin as [H | H]; [|right; now right].
      destruct (Z.min_spec a x) as [[_ E] | [_ E]]; rewrite E in *.
      * now left.
      * right. left. now symmetry.
    + lia.
    + intros y [<- | Hy]; [lia | now apply Hall].
Qed.

Lemma sql_max_spec (xs : list Z) :
  match sql_max xs with
  | None => xs = []
  | Some m => In m xs /\ forall x, In x xs -> x <= m
  end.
Proof.
  destruct xs as [|a l]; [reflexivity|]. cbn [sql_max].
  destruct (fold_max_spec l a) as (Hin & Hge & Hall). cbv zeta in *.
  split.
  - destruct Hin as [-> | H]; [now left | now right].
  - intros x [<- | Hx]; [exact Hge | now apply Hall].
Qed.

Lemma sql_min_spec (xs : list Z) :
  match sql_min xs with
  | None => xs = []
  | Some m => In m xs /\ forall x, In x xs -> m <= x
  end.
Proof.
  destruct xs as [|a l]; [reflexivity|]. cbn [sql_min].
  destruct (fold_min_spec l a) as (Hin & Hge & Hall). cbv zeta in *.
  split.
  - destruct Hin as [-> | H]; [now left | now right].
  - intros x [<- | Hx]; [exact Hge | now apply Hall].
Qed.

Lemma scalar_one_or_none_some {A : Type} (rows : list A) (r : A) :
  scalar_one_or_none rows = Ok (Some r) <-> rows = [r].
Proof.
  destruct rows as [|a [|b l]]; cbn; split; intros H;
    try discriminate H; congruence.
Qed.

Lemma scalar_one_or_none_none {A : Type} (rows : list A) :
  scalar_one_or_none rows = Ok None <-> rows = [].
Proof.
  destruct rows as [|a [|b l]]; cbn; split; intros H;
    try discriminate H; congruence.
Qed.

Lemma scalar_one_or_none_raise {A : Type} (rows : list A) (e : exn) :
  scalar_one_or_none rows = Raise e <->
  e = MultipleResultsFound /\ (2 <= List.length rows)%nat.
Proof.
  destruct rows as [|a [|b l]]; cbn; split; intros H;
    try discriminate H; try (destruct H; lia).
  - injection H as <-. split; [reflexivity | lia].
  - destruct H as [-> _]. reflexivity.
Qed.

Lemma in_times_of dev tbl t :
  In t (StreetlampStateRepository.times_of dev tbl) <->
  exists r, In r tbl /\ StreetlampState.dev_eui r = dev
            /\ StreetlampState.time r = t.
Proof.
  unfold StreetlampStateRepository.times_of. rewrite in_map_iff.
  split.
  - intros (r & Ht & Hr). apply filter_In in Hr. destruct Hr as [Hr He].
    apply String.eqb_eq in He. eauto.
  - intros (r & Hr & He & Ht). exists r. split; [exact Ht|].
    apply filter_In. split; [exact Hr | now apply String.eqb_eq].
Qed.

Lemma in_rows_at dev t tbl r :
  In r (StreetlampStateRepository.rows_at dev (Some t) tbl) <->
  In r tbl /\ StreetlampState.dev_eui r = dev /\ StreetlampState.time r = t.
Proof.
  unfold StreetlampStateRepository.rows_at. rewrite filter_In.
  rewrite andb_true_iff, Z.eqb_eq, String.eqb_eq. tauto.
Qed.

Lemma rows_at_readings dev m tbl :
  StreetlampStateRepository.rows_at dev (Some m) tbl
  = filter (fun r => Z.eqb (StreetlampState.time r) m) (readings_of dev tbl).
Proof.
  unfold StreetlampStateRepository.rows_at, readings_of.
  induction tbl as [|a tbl IH]; [reflexivity|]. cbn [filter].
  destruct (String.eqb (StreetlampState.dev_eui a) dev);
    destruct (StreetlampState.time a =? m) eqn:E; cbn [andb filter];
    rewrite ?E; try (f_equal; exact IH); exact IH.
Qed.

Lemma find_latest_some dev tbl r :
  StreetlampStateRepository.find_latest_by_dev_eui dev tbl = Ok (Some r) ->
  In r tbl /\ StreetlampState.dev_eui r = dev
  /\ forall r', In r' tbl -> StreetlampState.dev_eui r' = dev ->
                StreetlampState.time r' <= StreetlampState.time r.
Proof.
  unfold StreetlampStateRepository.find_latest_by_dev_eui.
  pose proof (sql_max_spec (StreetlampStateRepository.times_of dev tbl)) as Hm.
  destruct (sql_max (StreetlampStateRepository.times_of dev tbl)) as [m|];
    [|discriminate].
  destruct Hm as [_ Hall]. intros H. apply scalar_one_or_none_some in H.
  assert (Hr : In r (StreetlampStateRepository.rows_at dev (Some m) tbl))
    by (rewrite H; now left).
  apply in_rows_at in Hr. destruct Hr as (Hr & He & Ht).
  repeat split; try assumption. intros r' Hr' He'. rewrite Ht.
  apply Hall. apply in_times_of. eauto.
Qed.

Lemma find_latest_none dev tbl :
  (forall r, In r tbl -> StreetlampState.dev_eui r <> dev) ->
  StreetlampStateRepository.find_latest_by_dev_eui dev tbl = Ok None.
Proof.
  intros Hn. unfold StreetlampStateRepository.find_latest_by_dev_eui.
  pose proof (sql_max_spec (StreetlampStateRepository.times_of dev tbl)) as Hm.
  destruct (sql_max (StreetlampStateRepository.times_of dev tbl)) as [m|];
    [|reflexivity].
  destruct Hm as [Hin _]. apply in_times_of in Hin.
  destruct Hin as (r & Hr & He & _). destruct (Hn r Hr He).
Qed.

(** Two readings of a device that share its latest timestamp. *)
Lemma find_latest_two_rows dev tbl r1 s :
  In r1 tbl -> StreetlampState.dev_eui r1 = dev ->
  StreetlampState.dev_eui s = dev ->
  StreetlampState.time s = StreetlampState.time r1 ->
  (forall r', In r' tbl -> StreetlampState.dev_eui r' = dev ->
              StreetlampState.time r' <= StreetlampState.time r1) ->
  StreetlampStateRepository.find_latest_by_dev_eui dev (tbl ++ [s])
  = Raise MultipleResultsFound.
Proof.
  intros Hr1 He1 Hes Hts Hmax.
  unfold StreetlampStateRepository.find_latest_by_dev_eui.
  pose proof (sql_max_spec
                (StreetlampStateRepository.times_of dev (tbl ++ [s]))) as Hm.
  destruct (sql_max (StreetlampStateRepository.times_of dev (tbl ++ [s])))
    as [m|].
  - destruct Hm as [Hin Hall].
    assert (Hm : m = StreetlampState.time r1).
    { apply in_times_of in Hin. destruct Hin as (r & Hr & He & Ht).
      assert (StreetlampState.time r1 <= m).
      { apply Hall. apply in_times_of. exists r1.
        repeat split; try assumption. apply in_or_app. now left. }
      apply in_app_or in Hr. destruct Hr as [Hr | [<- | []]].
      - pose proof (Hmax r Hr He). lia.
      - lia. }
    subst m. apply scalar_one_or_none_raise. split; [reflexivity|].
    unfold StreetlampStateRepository.rows_at. rewrite filter_app, length_app.
    cbn [filter]. rewrite Hts, Z.eqb_refl, Hes, String.eqb_refl.
    cbn [andb List.length].
    assert (Hf : In r1 (filter
                          (fun r => (StreetlampState.time r
                                     =? StreetlampState.time r1)
                                    && String.eqb (StreetlampState.dev_eui r)
                                                  dev) tbl)).
    { apply filter_In. split; [exact Hr1|].
      now rewrite Z.eqb_refl, He1, String.eqb_refl. }
    destruct (filter _ tbl); [destruct Hf | cbn [List.length]; lia].
  - exfalso.
    assert (Hi : In (StreetlampState.time s)
                    (StreetlampStateRepository.times_of dev (tbl ++ [s]))).
    { apply in_times_of. exists s. repeat split; try assumption.
      apply in_or_app. right. now left. }
    rewrite Hm in Hi. destruct Hi.
Qed.

(** X4: [find_latest_by_dev_eui] returns a reading of the device whose
    time is maximal among the readings of the device; it returns [None]
    exactly when the device has no reading; and it raises, with
    [MultipleResultsFound], exactly when at least two readings of the
    device carry the maximal time. *)
Theorem find_latest_by_dev_eui_spec (dev : string)
        (tbl : list StreetlampState.t) :
  (forall r,
     StreetlampStateRepository.find_latest_by_dev_eui dev tbl = Ok (Some r) ->
     In r tbl /\ StreetlampState.dev_eui r = dev
     /\ forall r', In r' tbl -> StreetlampState.dev_eui r' = dev ->
                   StreetlampState.time r' <= StreetlampState.time r)
  /\ (StreetlampStateRepository.find_latest_by_dev_eui dev tbl = Ok None <->
      forall r, In r tbl -> StreetlampState.dev_eui r <> dev)
  /\ (forall e,
        StreetlampStateRepository.find_latest_by_dev_eui dev tbl = Raise e <->
        e = MultipleResultsFound
        /\ exists t,
             (forall r', In r' tbl -> StreetlampState.dev_eui r' = dev ->
                         StreetlampState.time r' <= t)
             /\ (2 <= List.length
                        (filter (fun r => Z.eqb (StreetlampState.time r) t)
                                (readings_of dev tbl)))%nat).
Proof.
  unfold StreetlampStateRepository.find_latest_by_dev_eui.
  pose proof (sql_max_spec (StreetlampStateRepository.times_of dev tbl)) as Hm.
  destruct (sql_max (StreetlampStateRepository.times_of dev tbl)) as [m|].
  - destruct Hm as [Hin Hall].
    assert (Hle : forall r', In r' tbl -> StreetlampState.dev_eui r' = dev ->
                             StreetlampState.time r' <= m).
    { intros r' Hr' He. apply Hall. apply in_times_of. eauto. }
    apply in_times_of in Hin. destruct Hin as (r0 & Hr0 & He0 & Ht0).
    pose proof (rows_at_readings dev m tbl) as Hrows.
    split; [|split].
    + intros r H. apply scalar_one_or_none_some in H.
      assert (Hr : In r (StreetlampStateRepository.rows_at dev (Some m) tbl))
        by (rewrite H; now left).
      apply in_rows_at in Hr. destruct Hr as (Hr & He & Ht).
      repeat split; try assumption. intros r' Hr' He'. rewrite Ht. auto.
    + split.
      * intros H. apply scalar_one_or_none_none in H.
        assert (Hr : In r0 (StreetlampStateRepository.rows_at dev (Some m) tbl))
          by (apply in_rows_at; auto).
        rewrite H in Hr. destruct Hr.
      * intros H. exfalso. apply (H r0 Hr0 He0).
    + intros e. rewrite scalar_one_or_none_raise, Hrows. split.
      * intros [-> Hl]. split; [reflexivity|]. exists m. auto.
      * intros [-> (t & Ht & Hl)]. split; [reflexivity|].
        assert (t = m).
        { destruct (filter (fun r => Z.eqb (StreetlampState.time r) t)
                           (readings_of dev tbl)) as [|r1 l] eqn:Hf;
            [cbn in Hl; lia|].
          assert (Hr1 : In r1 (filter (fun r => Z.eqb (StreetlampState.time r) t)
                                      (readings_of dev tbl)))
            by (rewrite Hf; now left).
          apply filter_In in Hr1. destruct Hr1 as [Hr1 Ht1].
          apply Z.eqb_eq in Ht1. unfold readings_of in Hr1.
          apply filter_In in Hr1. destruct Hr1 as [Hr1 He1].
          apply String.eqb_eq in He1.
          pose proof (Hle r1 Hr1 He1). pose proof (Ht r0 Hr0 He0). lia. }
        now subst t.
  - assert (Hnone : forall r, In r tbl -> StreetlampState.dev_eui r <> dev).
    { intros r Hr He.
      assert (Hi : In (StreetlampState.time r)
                      (StreetlampStateRepository.times_of dev tbl))
        by (apply in_times_of; eauto).
      rewrite Hm in Hi. destruct Hi. }
    cbn. split; [discriminate | split; [tauto|]].
    intros e. split; [discriminate|].
    intros [_ (t & _ & Hl)]. exfalso.
    destruct (filter (fun r => Z.eqb (StreetlampState.time r) t)
                     (readings_of dev tbl)) as [|r1 l] eqn:Hf;
      [cbn in Hl; lia|].
    assert (Hr1 : In r1 (filter (fun r => Z.eqb (StreetlampState.time r) t)
                                (readings_of dev tbl)))
      by (rewrite Hf; now left).
    apply filter_In in Hr1. destruct Hr1 as [Hr1 _]. unfold readings_of in Hr1.
    apply filter_In in Hr1. destruct Hr1 as [Hr1 He1].
    apply String.eqb_eq in He1. apply (Hnone r1 Hr1 He1).
Qed.

Lemma raise_alarm_frame local time dev sds a sv db :
  let db' := StreetlampStateService.raise_alarm local time dev sds a sv db in
  Db.streetlamps db' = Db.streetlamps db
  /\ Db.streetlamp_states db' = Db.streetlamp_states db
  /\ Db.stream_states db' = Db.stream_states db
  /\ Db.hourly_streetlamp_state db' = Db.hourly_streetlamp_state db
  /\ Db.daily_streetlamp_state db' = Db.daily_streetlamp_state db
  /\ Db.weekly_streetlamp_state db' = Db.weekly_streetlamp_state db
  /\ Db.monthly_streetlamp_state db' = Db.monthly_streetlamp_state db
  /\ Db.streetlamp_alarms db'
     = Db.streetlamp_alarms db ++ [_make_alarm local time dev sds a sv].
Proof. destruct db. cbn. repeat split. Qed.

Lemma insert_state_frame local ssc time sds db :
  let r := StreetlampStateService.insert_state local ssc time sds db in
  Db.streetlamps (fst r) = Db.streetlamps db
  /\ Db.streetlamp_alarms (fst r) = Db.streetlamp_alarms db
  /\ Db.hourly_streetlamp_state (fst r) = Db.hourly_streetlamp_state db
  /\ Db.daily_streetlamp_state (fst r) = Db.daily_streetlamp_state db
  /\ Db.weekly_streetlamp_state (fst r) = Db.weekly_streetlamp_state db
  /\ Db.monthly_streetlamp_state (fst r) = Db.monthly_streetlamp_state db
  /\ exists i s,
       snd r = Some i
       /\ Db.streetlamp_states (fst r) = Db.streetlamp_states db ++ [s]
       /\ StreetlampState.id s = i
       /\ StreetlampState.dev_eui s = StreetlampStateCreate.dev_eui ssc
       /\ StreetlampState.time s = instant local time.
Proof.
  destruct db. cbn. repeat split. eexists. eexists. repeat split.
Qed.

Lemma create_stored local ssc db db' i :
  StreetlampStateService.create local ssc db = Ok (db', Some i) ->
  exists s,
    Db.streetlamp_states db' = Db.streetlamp_states db ++ [s]
    /\ StreetlampState.dev_eui s = StreetlampStateCreate.dev_eui ssc
    /\ StreetlampState.time s
       = instant local (StreetlampStateCreate.time ssc).
Proof.
  intros H.
  destruct (decode_state_data (StreetlampStateCreate.data ssc)) as [sds|e]
    eqn:Hd; [|unfold StreetlampStateService.create in H; rewrite Hd in H;
              discriminate H].
  rewrite (create_decoded local ssc sds db Hd) in H. cbv zeta in H.
  set (time := astimezone local America_Santo_Domingo
                 (StreetlampStateCreate.time ssc)) in *.
  assert (Hins : Ok (StreetlampStateService.insert_state local ssc time sds db)
                 = Ok (db', Some i) ->
                 exists s,
                   Db.streetlamp_states db' = Db.streetlamp_states db ++ [s]
                   /\ StreetlampState.dev_eui s
                      = StreetlampStateCreate.dev_eui ssc
                   /\ StreetlampState.time s
                      = instant local (StreetlampStateCreate.time ssc)).
  { intros Hi0.
    assert (Hi : StreetlampStateService.insert_state local ssc time sds db
                 = (db', Some i)) by congruence.
    clear Hi0.
    destruct (insert_state_frame local ssc time sds db)
      as (_ & _ & _ & _ & _ & _ & i' & s & _ & H9 & _ & H11 & H12).
    cbv zeta in *. rewrite Hi in *. cbn [fst] in *.
    exists s. repeat split; try assumption.
    rewrite H12. unfold time. apply instant_astimezone. }
  destruct (StreetlampStateService.any_invalid_value sds);
    [discriminate H|].
  destruct (Float64.gtb (StreetlampDeviceState.power sds) _);
    [discriminate H|].
  destruct (Float64.gtb (StreetlampDeviceState.frequency sds) _);
    [discriminate H|].
  destruct (StreetlampStateRepository.find_latest_by_dev_eui _ _)
    as [[ls|]|e]; cbn [bind] in H; try discriminate H;
    [|exact (Hins H)].
  destruct (StreetlampStateService.over_energy _ _ _ _ _) as [[|]|e];
    cbn [bind] in H; try discriminate H. exact (Hins H).
Qed.

(** X5: when [create] returns, the devices and the four rollup
    tables are as before.  If it returns [None], one alarm of the
    device, not cleared and stamped with the instant of the message, was
    appended and neither the readings nor the watermarks changed.  If it
    returns an id, no alarm was added and one reading of the device,
    which carries that id and the instant of the message, was
    appended. *)
Theorem create_frame local ssc db db' r :
  StreetlampStateService.create local ssc db = Ok (db', r) ->
  Db.streetlamps db' = Db.streetlamps db
  /\ Db.hourly_streetlamp_state db' = Db.hourly_streetlamp_state db
  /\ Db.daily_streetlamp_state db' = Db.daily_streetlamp_state db
  /\ Db.weekly_streetlamp_state db' = Db.weekly_streetlamp_state db
  /\ Db.monthly_streetlamp_state db' = Db.monthly_streetlamp_state db
  /\ match r with
     | None =>
         Db.streetlamp_states db' = Db.streetlamp_states db
         /\ Db.stream_states db' = Db.stream_states db
         /\ exists a,
              Db.streetlamp_alarms db' = Db.streetlamp_alarms db ++ [a]
              /\ StreetlampAlarm.dev_eui a = StreetlampStateCreate.dev_eui ssc
              /\ StreetlampAlarm.time a
                 = instant local (StreetlampStateCreate.time ssc)
              /\ StreetlampAlarm.cleared a = false
     | Some i =>
         Db.streetlamp_alarms db' = Db.streetlamp_alarms db
         /\ exists s,
              Db.streetlamp_states db' = Db.streetlamp_states db ++ [s]
              /\ StreetlampState.id s = i
              /\ StreetlampState.dev_eui s = StreetlampStateCreate.dev_eui ssc
              /\ StreetlampState.time s
                 = instant local (StreetlampStateCreate.time ssc)
     end.
Proof.
  intros H.
  destruct (decode_state_data (StreetlampStateCreate.data ssc)) as [sds|e]
    eqn:Hd; [|unfold StreetlampStateService.create in H; rewrite Hd in H;
              discriminate H].
  rewrite (create_decoded local ssc sds db Hd) in H. cbv zeta in H.
  set (time := astimezone local America_Santo_Domingo
                 (StreetlampStateCreate.time ssc)) in *.
  match goal with
  | |- ?G =>
      assert (Halarm : forall a sv,
                Ok (StreetlampStateService.raise_alarm local time
                      (StreetlampStateCreate.dev_eui ssc) sds a sv db, None)
                = Ok (db', r) -> G);
      [|assert (Hins : Ok (StreetlampStateService.insert_state local ssc time
                             sds db) = Ok (db', r) -> G)]
  end.
  { intros a sv Ha. injection Ha as <- <-.
    destruct (raise_alarm_frame local time (StreetlampStateCreate.dev_eui ssc)
                sds a sv db) as (H1 & H2 & H3 & H4 & H5 & H6 & H7 & H8).
    cbv zeta in *. repeat split; try assumption.
    eexists. split; [exact H8|]. repeat split.
    unfold time. cbn [_make_alarm StreetlampAlarm.time].
    apply instant_astimezone. }
  { intros Hi0.
    assert (Hi : StreetlampStateService.insert_state local ssc time sds db
                 = (db', r)) by congruence.
    clear Hi0.
    destruct (insert_state_frame local ssc time sds db)
      as (H1 & H2 & H4 & H5 & H6 & H7 & i & s & H8 & H9 & H10 & H11 & H12).
    cbv zeta in *. rewrite Hi in *. cbn [fst snd] in *. subst r.
    clear Hi.
    repeat split; try assumption.
    exists s. repeat split; try assumption.
    rewrite H12. unfold time. apply instant_astimezone. }
  destruct (StreetlampStateService.any_invalid_value sds);
    [exact (Halarm _ _ H)|].
  destruct (Float64.gtb (StreetlampDeviceState.power sds) _);
    [exact (Halarm _ _ H)|].
  destruct (Float64.gtb (StreetlampDeviceState.frequency sds) _);
    [exact (Halarm _ _ H)|].
  destruct (StreetlampStateRepository.find_latest_by_dev_eui _ _)
    as [[ls|]|e]; cbn [bind] in H; try discriminate H;
    [|exact (Hins H)].
  destruct (StreetlampStateService.over_energy _ _ _ _ _) as [[|]|e];
    cbn [bind] in H; try discriminate H;
    [exact (Halarm _ _ H) | exact (Hins H)].
Qed.

(** A second reading of the sample device, one hour after the first. *)
Lemma create_frame_witness :
  (exists i,
     StreetlampStateService.create UTC (sample_message (at_hour 6) good_state)
       db_one_reading
     = Ok (ingest UTC (sample_message (at_hour 6) good_state) db_one_reading,
           Some i))
  /\ Db.streetlamp_alarms
       (ingest UTC (sample_message (at_hour 6) good_state) db_one_reading)
     = Db.streetlamp_alarms db_one_reading
  /\ List.length
       (Db.streetlamp_states
          (ingest UTC (sample_message (at_hour 6) good_state) db_one_reading))
     = 2%nat.
Proof.
  assert (H : exists i,
             StreetlampStateService.create UTC
               (sample_message (at_hour 6) good_state) db_one_reading
             = Ok (ingest UTC (sample_message (at_hour 6) good_state)
                     db_one_reading, Some i))
    by (eexists; vm_compute; reflexivity).
  split; [exact H|].
  destruct H as [i H].
  destruct (create_frame UTC _ _ _ _ H)
    as (_ & _ & _ & _ & _ & Ha & s & Hs & _).
  split; [exact Ha|].
  rewrite Hs, length_app. reflexivity.
Defined.

(** X6: the first reading of a device that passes rules 1 to 3 is
    stored, whatever its energy: rule 4 needs a prior reading. *)
Theorem first_reading_accepted local ssc sds db :
  decode_state_data (StreetlampStateCreate.data ssc) = Ok sds ->
  StreetlampStateService.any_invalid_value sds = false ->
  Float64.gtb (StreetlampDeviceState.power sds)
              StreetlampStateService.max_power = false ->
  Float64.gtb (StreetlampDeviceState.frequency sds)
              StreetlampStateService.max_frequency = false ->
  (forall r, In r (Db.streetlamp_states db) ->
             StreetlampState.dev_eui r <> StreetlampStateCreate.dev_eui ssc) ->
  StreetlampStateService.create local ssc db
  = Ok (StreetlampStateService.insert_state local ssc
          (astimezone local America_Santo_Domingo
             (StreetlampStateCreate.time ssc)) sds db).
Proof.
  intros Hd Hi Hp Hf Hn. rewrite (create_decoded local ssc sds db Hd).
  cbv zeta. rewrite Hi, Hp, Hf, (find_latest_none _ _ Hn). reflexivity.
Qed.

Lemma first_reading_accepted_witness :
  StreetlampStateService.create UTC
    (sample_message (at_hour 5)
       (sample_state 900000000 (Float64.of_Z 90) volts)) Db.empty
  = Ok (StreetlampStateService.insert_state UTC
          (sample_message (at_hour 5)
             (sample_state 900000000 (Float64.of_Z 90) volts))
          (astimezone UTC America_Santo_Domingo (at_hour 5))
          (sample_state 900000000 (Float64.of_Z 90) volts) Db.empty).
Proof.
  apply (first_reading_accepted UTC
           (sample_message (at_hour 5)
              (sample_state 900000000 (Float64.of_Z 90) volts))
           (sample_state 900000000 (Float64.of_Z 90) volts) Db.empty);
    try (vm_compute; reflexivity).
  intros r [].
Defined.

(** X7: once [create] has stored a reading whose time equals that of
    the latest reading of its device, every later reading of this device
    that passes rules 1 to 3 makes [create] raise
    [MultipleResultsFound]. *)
Theorem duplicate_timestamp_blocks_device local ssc1 ssc2 sds2 db db1 i ls :
  StreetlampStateRepository.find_latest_by_dev_eui
    (StreetlampStateCreate.dev_eui ssc1) (Db.streetlamp_states db)
  = Ok (Some ls) ->
  instant local (StreetlampStateCreate.time ssc1) = StreetlampState.time ls ->
  StreetlampStateService.create local ssc1 db = Ok (db1, Some i) ->
  StreetlampStateCreate.dev_eui ssc2 = StreetlampStateCreate.dev_eui ssc1 ->
  decode_state_data (StreetlampStateCreate.data ssc2) = Ok sds2 ->
  StreetlampStateService.any_invalid_value sds2 = false ->
  Float64.gtb (StreetlampDeviceState.power sds2)
              StreetlampStateService.max_power = false ->
  Float64.gtb (StreetlampDeviceState.frequency sds2)
              StreetlampStateService.max_frequency = false ->
  StreetlampStateService.create local ssc2 db1 = Raise MultipleResultsFound.
Proof.
  intros Hls Ht Hc He Hd Hi Hp Hf.
  destruct (create_stored local ssc1 db db1 i Hc) as (s & Hs & Hes & Hts).
  apply find_latest_some in Hls. destruct Hls as (Hin & Hel & Hmax).
  rewrite (create_decoded local ssc2 sds2 db1 Hd). cbv zeta.
  rewrite Hi, Hp, Hf, Hs, He.
  rewrite (find_latest_two_rows _ _ ls s Hin Hel Hes); [reflexivity | | exact Hmax].
  now rewrite Hts.
Qed.

Lemma duplicate_timestamp_blocks_device_witness :
  StreetlampStateService.create UTC (sample_message (at_hour 5) good_state)
    db_one_reading
  = Ok (ingest UTC (sample_message (at_hour 5) good_state) db_one_reading,
        Some 2)
  /\ StreetlampStateService.create UTC
       (sample_message (at_hour 7) good_state)
       (ingest UTC (sample_message (at_hour 5) good_state) db_one_reading)
     = Raise MultipleResultsFound.
Proof.
  assert (H : StreetlampStateService.create UTC
                (sample_message (at_hour 5) good_state) db_one_reading
              = Ok (ingest UTC (sample_message (at_hour 5) good_state)
                      db_one_reading, Some 2)) by (vm_compute; reflexivity).
  split; [exact H|].
  apply (duplicate_timestamp_blocks_device UTC
           (sample_message (at_hour 5) good_state)
           (sample_message (at_hour 7) good_state) good_state
           db_one_reading _ 2 prior_reading);
    try exact H; vm_compute; reflexivity.
Defined.

Lemma upsert_producer_names name ts tbl :
  map StreamState.name (StreamStateRepository.upsert_producer name ts tbl)
  = if existsb (fun r => String.eqb (StreamState.name r) name) tbl
    then map StreamState.name tbl
    else map StreamState.name tbl ++ [name].
Proof.
  induction tbl as [|r tbl IH];
    cbn [StreamStateRepository.upsert_producer existsb map app];
    [reflexivity|].
  destruct (String.eqb (StreamState.name r) name) eqn:E; cbn [orb map].
  - reflexivity.
  - rewrite IH. destruct (existsb _ tbl); reflexivity.
Qed.

Lemma upsert_producer_nodup name ts tbl :
  NoDup (map StreamState.name tbl) ->
  NoDup (map StreamState.name
           (StreamStateRepository.upsert_producer name ts tbl)).
Proof.
  intros Hnd. rewrite upsert_producer_names.
  destruct (existsb _ tbl) eqn:E; [exact Hnd|].
  apply NoDup_app; [exact Hnd | constructor; [intros [] | constructor] |].
  intros a Ha [<- | []]. apply in_map_iff in Ha. destruct Ha as (r & Hn & Hr).
  assert (Ht : existsb (fun r => String.eqb (StreamState.name r) name) tbl
               = true).
  { apply existsb_exists. exists r. split; [exact Hr | now apply String.eqb_eq]. }
  congruence.
Qed.

Lemma watermark_none name tbl :
  watermark name tbl = None <->
  forall r, In r tbl -> StreamState.name r <> name.
Proof.
  unfold watermark. split.
  - intros H r Hr Hn. apply (find_none _ _ H) in Hr.
    apply String.eqb_eq in Hn. congruence.
  - intros H. destruct (find _ tbl) as [r|] eqn:E; [|reflexivity].
    apply find_some in E. destruct E as [Hr Hn].
    apply String.eqb_eq in Hn. destruct (H r Hr Hn).
Qed.

Lemma watermark_upsert_row name ts tbl :
  watermark name (StreamStateRepository.upsert_producer name ts tbl)
  = Some {| StreamState.name := name;
            StreamState.producer_ts := Some ts;
            StreamState.consumer_ts :=
              match watermark name tbl with
              | Some r => StreamState.consumer_ts r
              | None => None
              end |}.
Proof.
  unfold watermark.
  induction tbl as [|r tbl IH];
    cbn [StreamStateRepository.upsert_producer find StreamState.name].
  - now rewrite String.eqb_refl.
  - destruct (String.eqb (StreamState.name r) name) eqn:E.
    + cbn [find StreamState.name]. rewrite E.
      apply String.eqb_eq in E. now rewrite E.
    + cbn [find]. rewrite E. exact IH.
Qed.

(** X8: [update_producer] keeps the stream names unique; afterwards
    the row with exactly this name carries the new producer timestamp
    and the consumer timestamp it had (null for a new row); the rows
    with other names are as before; and the table grows by one row
    exactly when no row had the name. *)
Theorem update_producer_spec local name dt tbl :
  (NoDup (map StreamState.name tbl) ->
   NoDup (map StreamState.name
            (StreamStateRepository.update_producer local name dt tbl)))
  /\ watermark name (StreamStateRepository.update_producer local name dt tbl)
     = Some {| StreamState.name := name;
               StreamState.producer_ts := Some (instant local dt);
               StreamState.consumer_ts :=
                 match watermark name tbl with
                 | Some r => StreamState.consumer_ts r
                 | None => None
                 end |}
  /\ (forall name', name' <> name ->
        watermark name'
          (StreamStateRepository.update_producer local name dt tbl)
        = watermark name' tbl)
  /\ List.length (StreamStateRepository.update_producer local name dt tbl)
     = match watermark name tbl with
       | Some _ => List.length tbl
       | None => S (List.length tbl)
       end.
Proof.
  unfold StreamStateRepository.update_producer.
  split; [apply upsert_producer_nodup|].
  split; [apply watermark_upsert_row|].
  split.
  - intros name' Hne. apply watermark_upsert_other.
    apply String.eqb_neq. congruence.
  - unfold watermark.
    induction tbl as [|r tbl IH];
      cbn [StreamStateRepository.upsert_producer find List.length];
      [reflexivity|].
    destruct (String.eqb (StreamState.name r) name); [reflexivity|].
    cbn [List.length]. rewrite IH. destruct (find _ tbl); reflexivity.
Qed.

(** X9: [update_consumer] changes nothing when no row carries exactly
    the name; otherwise it sets the consumer timestamp of that row and
    keeps its producer timestamp; rows with other names, the names and
    the producer timestamps of all rows are as before. *)
Theorem update_consumer_spec local name dt tbl :
  (watermark name tbl = None ->
   StreamStateRepository.update_consumer local name dt tbl = tbl)
  /\ (forall r, watermark name tbl = Some r ->
        watermark name (StreamStateRepository.update_consumer local name dt tbl)
        = Some {| StreamState.name := StreamState.name r;
                  StreamState.producer_ts := StreamState.producer_ts r;
                  StreamState.consumer_ts := Some (instant local dt) |})
  /\ (forall name', name' <> name ->
        watermark name'
          (StreamStateRepository.update_consumer local name dt tbl)
        = watermark name' tbl)
  /\ map StreamState.name
       (StreamStateRepository.update_consumer local name dt tbl)
     = map StreamState.name tbl
  /\ map StreamState.producer_ts
       (StreamStateRepository.update_consumer local name dt tbl)
     = map StreamState.producer_ts tbl.
Proof.
  split; [|split; [|split]].
  - intros H. rewrite update_consumer_map.
    rewrite <- (map_id tbl) at 2. apply map_ext_in. intros r Hr.
    unfold set_consumer.
    destruct (String.eqb (StreamState.name r) name) eqn:E; [|reflexivity].
    apply String.eqb_eq in E.
    destruct (proj1 (watermark_none name tbl) H r Hr E).
  - intros r. rewrite update_consumer_map. unfold watermark.
    induction tbl as [|a tbl IH]; cbn [find map]; [discriminate|].
    rewrite set_consumer_name. unfold set_consumer at 1.
    destruct (String.eqb (StreamState.name a) name) eqn:E.
    + intros [= <-]. reflexivity.
    + exact IH.
  - intros name' Hne. rewrite update_consumer_map. unfold watermark.
    induction tbl as [|a tbl IH]; cbn [find map]; [reflexivity|].
    rewrite set_consumer_name. unfold set_consumer at 1.
    destruct (String.eqb (StreamState.name a) name') eqn:E'; [|exact IH].
    destruct (String.eqb (StreamState.name a) name) eqn:E; [|reflexivity].
    apply String.eqb_eq in E, E'. congruence.
  - apply update_consumer_producers.
Qed.

Lemma stage_loop_keeps {A : Type} (f : Db.t -> A) st local pull :
  (forall tbl db, f (stage_set_table st tbl db) = f db) ->
  (forall S db, f (Db.set_stream_states S db) = f db) ->
  forall ds db n db' n',
    stage_loop st local pull ds (db, n) = Ok (db', n') -> f db' = f db.
Proof.
  intros Ht Hs. induction ds as [|s ds IH]; intros db n db' n' H.
  - cbn in H. now injection H as <- <-.
  - cbn [stage_loop] in H.
    destruct (stage_device st local pull s (db, n)) as [[db1 n1]|] eqn:Hd;
      cbn [bind] in H; [|discriminate].
    rewrite (IH _ _ _ _ H).
    apply stage_device_cases in Hd.
    destruct Hd as [(_ & -> & _) | (rg & tbl & nr & _ & _ & -> & _)];
      [reflexivity|].
    unfold after_pull. now rewrite Hs, Ht.
Qed.

Lemma stage_loop_keeps_raw st local pull ds db n db' n' :
  (forall tbl d, raw_data_kept d (stage_set_table st tbl d)) ->
  stage_loop st local pull ds (db, n) = Ok (db', n') ->
  raw_data_kept db db'.
Proof.
  intros Ht H. unfold raw_data_kept.
  repeat split;
    match goal with
    | |- ?f db' = ?f db =>
        apply (stage_loop_keeps f st local pull
                 (fun tbl d => ltac:(first [exact (proj1 (Ht tbl d))
                                           | exact (proj1 (proj2 (Ht tbl d)))
                                           | exact (proj2 (proj2 (Ht tbl d)))]))
                 (fun _ _ => eq_refl) _ _ _ _ _ H)
    end.
Qed.

(** X10: a pass of any of the four stages that returns leaves the
    devices, the raw readings, the alarms and the rollup tables of the
    three other resolutions as they were. *)
Theorem aggregate_frame local pull db db' n :
  (StreetlampHourlyAggregationService.aggregate local pull db = Ok (db', n) ->
   raw_data_kept db db'
   /\ Db.daily_streetlamp_state db' = Db.daily_streetlamp_state db
   /\ Db.weekly_streetlamp_state db' = Db.weekly_streetlamp_state db
   /\ Db.monthly_streetlamp_state db' = Db.monthly_streetlamp_state db)
  /\ (StreetlampDailyAggregationService.aggregate local pull db = Ok (db', n) ->
      raw_data_kept db db'
      /\ Db.hourly_streetlamp_state db' = Db.hourly_streetlamp_state db
      /\ Db.weekly_streetlamp_state db' = Db.weekly_streetlamp_state db
      /\ Db.monthly_streetlamp_state db' = Db.monthly_streetlamp_state db)
  /\ (StreetlampWeeklyAggregationService.aggregate local pull db = Ok (db', n) ->
      raw_data_kept db db'
      /\ Db.hourly_streetlamp_state db' = Db.hourly_streetlamp_state db
      /\ Db.daily_streetlamp_state db' = Db.daily_streetlamp_state db
      /\ Db.monthly_streetlamp_state db' = Db.monthly_streetlamp_state db)
  /\ (StreetlampMonthlyAggregationService.aggregate local pull db
      = Ok (db', n) ->
      raw_data_kept db db'
      /\ Db.hourly_streetlamp_state db' = Db.hourly_streetlamp_state db
      /\ Db.daily_streetlamp_state db' = Db.daily_streetlamp_state db
      /\ Db.weekly_streetlamp_state db' = Db.weekly_streetlamp_state db).
Proof.
  unfold StreetlampHourlyAggregationService.aggregate,
    StreetlampDailyAggregationService.aggregate,
    StreetlampWeeklyAggregationService.aggregate,
    StreetlampMonthlyAggregationService.aggregate, raw_data_kept.
  rewrite hourly_loop_stage, daily_loop_stage, weekly_loop_stage,
    monthly_loop_stage.
  split; [|split; [|split]]; intros H; repeat split;
    match type of H with
    | stage_loop ?st _ _ _ _ = _ =>
        match goal with
        | |- ?f db' = ?f db =>
            apply (stage_loop_keeps f st local pull
                     (fun _ _ => eq_refl) (fun _ _ => eq_refl) _ _ _ _ _ H)
        end
    end.
Qed.

Lemma aggregate_frame_witness :
  raw_data_kept db_two_readings db_first_pass.
Proof.
  apply (proj1 (aggregate_frame UTC (sample_pull Db.hourly_streetlamp_state)
                  db_two_readings db_first_pass 1)).
  vm_compute. reflexivity.
Defined.

(** X11: [run_agg_process] never touches the queue, the devices, the
    raw readings or the alarms, and it is all or nothing: either the
    four stages ran in the order hourly, daily, weekly, monthly, each on
    the store the one before left, and the result is stored and
    "Finished" logged, or one of the four stages raised after the stages
    before it returned, the store is as before and the exception that
    this stage raised is the one logged. *)
Theorem run_agg_process_all_or_nothing local
        hourly_pull daily_pull weekly_pull monthly_pull (w : World.t) :
  let w' := Main.run_agg_process local hourly_pull daily_pull weekly_pull
              monthly_pull w in
  World.queue w' = World.queue w
  /\ raw_data_kept (World.db w) (World.db w')
  /\ ((exists db1 n1 db2 n2 db3 n3 db4 n4,
         StreetlampHourlyAggregationService.aggregate local hourly_pull
           (World.db w) = Ok (db1, n1)
         /\ StreetlampDailyAggregationService.aggregate local daily_pull db1
            = Ok (db2, n2)
         /\ StreetlampWeeklyAggregationService.aggregate local weekly_pull db2
            = Ok (db3, n3)
         /\ StreetlampMonthlyAggregationService.aggregate local monthly_pull
              db3 = Ok (db4, n4)
         /\ World.db w' = db4
         /\ World.log w'
            = World.log w
              ++ [LogInfo "Started running the aggregation process";
                  LogInfo "Finished running the aggregation process"])
      \/ (exists e,
            stage_raises local hourly_pull daily_pull weekly_pull
              monthly_pull (World.db w) e
            /\ World.db w' = World.db w
            /\ World.log w'
               = World.log w
                 ++ [LogInfo "Started running the aggregation process";
                     LogException
                       "Failed to finish running the aggregation process"
                       e])).
Proof.
  cbv zeta. unfold Main.run_agg_process, stage_raises.
  destruct (StreetlampHourlyAggregationService.aggregate local hourly_pull
              (World.db w)) as [[db1 n1]|e1] eqn:H1; cbn [bind fst].
  2:{ cbn [World.queue World.db World.log]. rewrite <- app_assoc.
      repeat split. right. exists e1.
      split; [now left | split; reflexivity]. }
  destruct (StreetlampDailyAggregationService.aggregate local daily_pull db1)
    as [[db2 n2]|e2] eqn:H2; cbn [bind fst].
  2:{ cbn [World.queue World.db World.log]. rewrite <- app_assoc.
      repeat split. right. exists e2.
      split; [right; left; exists db1, n1; auto | split; reflexivity]. }
  destruct (StreetlampWeeklyAggregationService.aggregate local weekly_pull db2)
    as [[db3 n3]|e3] eqn:H3; cbn [bind fst].
  2:{ cbn [World.queue World.db World.log]. rewrite <- app_assoc.
      repeat split. right. exists e3.
      split; [right; right; left; exists db1, n1, db2, n2; auto
             | split; reflexivity]. }
  destruct (StreetlampMonthlyAggregationService.aggregate local monthly_pull
              db3) as [[db4 n4]|e4] eqn:H4; cbn [bind fst].
  2:{ cbn [World.queue World.db World.log]. rewrite <- app_assoc.
      repeat split. right. exists e4.
      split; [right; right; right; exists db1, n1, db2, n2, db3, n3; auto
             | split; reflexivity]. }
  cbn [World.queue World.db World.log]. rewrite <- app_assoc.
  split; [reflexivity|]. split.
  - unfold StreetlampHourlyAggregationService.aggregate in H1.
    unfold StreetlampDailyAggregationService.aggregate in H2.
    unfold StreetlampWeeklyAggregationService.aggregate in H3.
    unfold StreetlampMonthlyAggregationService.aggregate in H4.
    rewrite hourly_loop_stage in H1. rewrite daily_loop_stage in H2.
    rewrite weekly_loop_stage in H3. rewrite monthly_loop_stage in H4.
    apply stage_loop_keeps_raw in H1; [|intros; repeat split].
    apply stage_loop_keeps_raw in H2; [|intros; repeat split].
    apply stage_loop_keeps_raw in H3; [|intros; repeat split].
    apply stage_loop_keeps_raw in H4; [|intros; repeat split].
    destruct H1 as (A1 & A2 & A3), H2 as (B1 & B2 & B3),
      H3 as (C1 & C2 & C3), H4 as (D1 & D2 & D3).
    unfold raw_data_kept. repeat split; congruence.
  - left. exists db1, n1, db2, n2, db3, n3, db4, n4. repeat split; assumption.
Qed.

Lemma filter_filter_and {A : Type} (p q : A -> bool) (l : list A) :
  filter q (filter p l) = filter (fun x => p x && q x) l.
Proof.
  induction l as [|a l IH]; [reflexivity|]. cbn [filter].
  destruct (p a); cbn [filter andb]; [|exact IH].
  destruct (q a); [f_equal|]; exact IH.
Qed.

Lemma proc_item_goes_through local xdel_raises it ssc st :
  parse_raw (value it) = Ok ssc ->
  (StreetlampStateCreate.data ssc <> [] ->
   exists r, StreetlampStateService.create local ssc (Main.b_db st) = Ok r) ->
  exists st',
    Main.proc_item local xdel_raises it st = (st', None)
    /\ Main.b_db st' = handle_entry local (Main.b_db st) it
    /\ Main.b_queue st'
       = (if xdel_raises (item_id it) then Main.b_queue st
          else xdel (item_id it) (Main.b_queue st))
    /\ Main.b_log st'
       = Main.b_log st
         ++ (if xdel_raises (item_id it)
             then [LogError "Failed creating streetlamp states" RedisError]
             else [])
    /\ Main.n st <= Main.n st' <= Main.n st + 1.
Proof.
  intros Hp Hc. unfold Main.proc_item, Main.try_item, handle_entry, ingest.
  rewrite Hp.
  destruct (StreetlampStateCreate.data ssc) as [|c cs] eqn:Hd.
  - destruct (xdel_raises (item_id it)); eexists; (split; [reflexivity|]);
      cbn [Main.b_db Main.b_queue Main.b_log Main.n];
      rewrite ?app_nil_r; repeat split; lia.
  - destruct Hc as [[db1 ssid] Hc]; [discriminate|]. rewrite Hc. cbn [bind].
    destruct (xdel_raises (item_id it)); eexists; (split; [reflexivity|]);
      cbn [Main.b_db Main.b_queue Main.b_log Main.n];
      rewrite ?app_nil_r; repeat split; destruct ssid; lia.
Qed.

Lemma proc_items_go_through local xdel_raises items :
  forall st,
    goes_through local items (Main.b_db st) ->
    exists st',
      Main.proc_items local xdel_raises items st = (st', None)
      /\ Main.b_db st' = fold_left (handle_entry local) items (Main.b_db st)
      /\ Main.b_queue st'
         = filter (fun e => negb (deleted xdel_raises items e))
                  (Main.b_queue st)
      /\ Main.b_log st' = Main.b_log st ++ redis_errors xdel_raises items
      /\ Main.n st <= Main.n st' <= Main.n st + Z.of_nat (List.length items).
Proof.
  induction items as [|it items IH]; intros st Hg.
  - exists st. cbn [Main.proc_items fold_left deleted existsb negb].
    unfold redis_errors. cbn [filter map List.length].
    rewrite app_nil_r. repeat split; try lia.
    induction (Main.b_queue st) as [|e q IHq]; [reflexivity|].
    cbn [filter]. now rewrite <- IHq.
  - destruct (Hg [] it items eq_refl) as (ssc & Hp & Hc).
    cbn [fold_left] in Hc.
    destruct (proc_item_goes_through local xdel_raises it ssc st Hp Hc)
      as (st1 & H1 & Hdb & Hq & Hl & Hn).
    destruct (IH st1) as (st' & H' & Hdb' & Hq' & Hl' & Hn').
    { intros pre it' post Heq. rewrite Hdb.
      apply (Hg (it :: pre) it' post). now rewrite Heq. }
    exists st'. cbn [Main.proc_items]. rewrite H1.
    split; [exact H'|]. split; [|split; [|split]].
    + rewrite Hdb', Hdb. reflexivity.
    + rewrite Hq', Hq. unfold deleted. cbn [existsb].
      destruct (xdel_raises (item_id it)) eqn:Hx.
      * apply filter_ext. intros e. now rewrite andb_false_r.
      * unfold xdel. rewrite filter_filter_and. apply filter_ext. intros e.
        rewrite andb_true_r, negb_orb. reflexivity.
    + rewrite Hl', Hl. unfold redis_errors. cbn [filter].
      destruct (xdel_raises (item_id it)); cbn [map];
        now rewrite <- app_assoc.
    + cbn [List.length]. lia.
Qed.

(** X12: when every entry that a batch reads parses and is created
    without an exception, the batch handles all of them in order: the
    store is the one that handling each entry in turn gives, the queue
    loses exactly the entries with the id of a read entry whose deletion
    went through, one error is logged per failed deletion, and the
    number of stored readings that is logged lies between 0 and the
    number of entries read. *)
Theorem batch_goes_through local xdel_raises last_id_seen batch_size
        (w : World.t) :
  let items := xread last_id_seen batch_size (World.queue w) in
  goes_through local items (World.db w) ->
  exists n,
    Main.proc_streetlamp_state_batch local xdel_raises last_id_seen
      batch_size w
    = ({| World.db := fold_left (handle_entry local) items (World.db w);
          World.queue :=
            filter (fun e => negb (deleted xdel_raises items e))
                   (World.queue w);
          World.log :=
            World.log w ++ redis_errors xdel_raises items
            ++ [LogDebug "streetlamp state created" n] |}, tt)
    /\ 0 <= n <= Z.of_nat (List.length items).
Proof.
  intros items Hg. unfold Main.proc_streetlamp_state_batch. fold items.
  destruct (proc_items_go_through local xdel_raises items
              {| Main.b_db := World.db w; Main.b_queue := World.queue w;
                 Main.b_log := World.log w; Main.n := 0;
                 Main.last_id_seen := last_id_seen |} Hg)
    as (st' & H & Hdb & Hq & Hl & Hn).
  cbn [Main.b_db Main.b_queue Main.b_log Main.n] in *.
  rewrite H, Hdb, Hq, Hl. exists (Main.n st').
  split; [now rewrite <- app_assoc | lia].
Qed.

Lemma batch_goes_through_witness :
  goes_through UTC (xread (0, 0) 1000 two_entries) Db.empty
  /\ World.queue
       (fst (Main.proc_streetlamp_state_batch UTC second_xdel_fails (0, 0)
               1000
               {| World.db := Db.empty; World.queue := two_entries;
                  World.log := [] |}))
     = [ {| item_id := (2, 0);
            value := Json (sample_message (at_hour 6) nan_state) |} ].
Proof.
  assert (Hg : goes_through UTC (xread (0, 0) 1000 two_entries) Db.empty).
  { intros pre it post Heq. change (xread (0, 0) 1000 two_entries)
      with two_entries in Heq. unfold two_entries in Heq.
    destruct pre as [|a [|b [|c pre]]]; cbn [app] in Heq.
    - injection Heq as <- _. eexists. split; [reflexivity|].
      intros _. vm_compute. eauto.
    - injection Heq as <- <- _. eexists. split; [reflexivity|].
      intros _. vm_compute. eauto.
    - discriminate Heq.
    - discriminate Heq. }
  split; [exact Hg|].
  destruct (batch_goes_through UTC second_xdel_fails (0, 0) 1000
              {| World.db := Db.empty; World.queue := two_entries;
                 World.log := [] |} Hg) as (n & H & _).
  rewrite H. reflexivity.
Defined.

(** X13: [round_to_hour] and [round_to_day] round down: the result
    is at most the argument and less than one hour (one day) before it,
    on the same date (and in the same hour), with the smaller fields
    zero; applying either twice changes nothing; [round_to_hour] keeps
    the zone and [round_to_day] drops it. *)
Theorem truncations_floor (dt : datetime) :
  (wall (round_to_hour dt) <= wall dt < wall (round_to_hour dt) + us_per_hour
   /\ tz (round_to_hour dt) = tz dt
   /\ date_of (round_to_hour dt) = date_of dt
   /\ hour (round_to_hour dt) = hour dt
   /\ minute (round_to_hour dt) = 0
   /\ second (round_to_hour dt) = 0
   /\ microsecond (round_to_hour dt) = 0
   /\ round_to_hour (round_to_hour dt) = round_to_hour dt)
  /\ (wall (round_to_day dt) <= wall dt < wall (round_to_day dt) + us_per_day
      /\ tz (round_to_day dt) = None
      /\ date_of (round_to_day dt) = date_of dt
      /\ hour (round_to_day dt) = 0
      /\ minute (round_to_day dt) = 0
      /\ second (round_to_day dt) = 0
      /\ microsecond (round_to_day dt) = 0
      /\ round_to_day (round_to_day dt) = round_to_day dt).
Proof.
  destruct dt as [W z].
  unfold round_to_hour, round_to_day, date_of, hour, minute, second,
    microsecond, us_per_day, us_per_hour, us_per_second.
  cbn [wall tz].
  change (24 * (3600 * 1000000)) with 86400000000.
  change (3600 * 1000000) with 3600000000.
  change (60 * 1000000) with 60000000.
  assert (Hh : (W - W mod 3600000000) mod 3600000000 = 0)
    by (Z.div_mod_to_equations; lia).
  assert (Hd : (W - W mod 86400000000) mod 86400000000 = 0)
    by (Z.div_mod_to_equations; lia).
  split.
  - repeat split; try (Z.div_mod_to_equations; lia).
    + f_equal. Z.div_mod_to_equations; lia.
    + rewrite Hh. now rewrite Z.sub_0_r.
  - repeat split; try (Z.div_mod_to_equations; lia).
    + f_equal. Z.div_mod_to_equations; lia.
    + rewrite Hd. now rewrite Z.sub_0_r.
Qed.

(** X14: [round_to_week] returns the naive midnight of the Monday of
    the argument's week: its weekday is 0, its time of day is 00:00:00,
    it is at most the argument and less than seven days before it, and
    applying it twice changes nothing. *)
Theorem round_to_week_monday (dt : datetime) :
  weekday (round_to_week dt) = 0
  /\ tz (round_to_week dt) = None
  /\ wall (round_to_week dt) <= wall dt
     < wall (round_to_week dt) + 7 * us_per_day
  /\ wall (round_to_week dt)
     = wall (round_to_day dt) - weekday dt * us_per_day
  /\ hour (round_to_week dt) = 0
  /\ minute (round_to_week dt) = 0
  /\ second (round_to_week dt) = 0
  /\ microsecond (round_to_week dt) = 0
  /\ round_to_week (round_to_week dt) = round_to_week dt.
Proof.
  destruct dt as [W z].
  unfold round_to_week, round_to_day, weekday, hour, minute, second,
    microsecond, us_per_day, us_per_hour, us_per_second.
  cbn [wall tz].
  change (24 * (3600 * 1000000)) with 86400000000.
  change (3600 * 1000000) with 3600000000.
  change (60 * 1000000) with 60000000.
  set (q := W / 86400000000).
  assert (Hq : W - W mod 86400000000 = q * 86400000000)
    by (unfold q; Z.div_mod_to_equations; lia).
  rewrite Hq.
  set (k := (q + 3) mod 7).
  assert (Hk : 0 <= k < 7) by (unfold k; apply Z.mod_pos_bound; lia).
  assert (Hm : q * 86400000000 - k * 86400000000 = (q - k) * 86400000000)
    by lia.
  rewrite Hm.
  assert (Hdiv : (q - k) * 86400000000 / 86400000000 = q - k)
    by (apply Z.div_mul; lia).
  assert (Hmod : ((q - k) * 86400000000) mod 86400000000 = 0)
    by (apply Z.mod_mul; lia).
  assert (Hw : (q - k + 3) mod 7 = 0).
  { unfold k. Z.div_mod_to_equations. lia. }
  repeat split.
  - now rewrite Hdiv.
  - unfold q. Z.div_mod_to_equations. lia.
  - unfold q. Z.div_mod_to_equations. lia.
  - now rewrite Hmod.
  - Z.div_mod_to_equations. lia.
  - Z.div_mod_to_equations. lia.
  - Z.div_mod_to_equations. lia.
  - f_equal. rewrite Hmod, Z.sub_0_r, Hdiv, Hw. lia.
Qed.

(** X15: [last_month] raises [ValueError] whenever the current month
    in Santo Domingo is January, because it builds a datetime with month
    0; in the months February to December it returns the first day of
    the month before, at midnight in Santo Domingo. *)
Theorem last_month_january (clock : Z) :
  (month (UtilsNow.now clock) = 1 ->
   UtilsNow.last_month clock = Raise ValueError)
  /\ (1 <= year (UtilsNow.now clock) <= 9999 ->
      2 <= month (UtilsNow.now clock) <= 12 ->
      UtilsNow.last_month clock
      = Ok (mk_datetime (year (UtilsNow.now clock))
              (month (UtilsNow.now clock) - 1) 1 0 0 0 0
              (Some America_Santo_Domingo)))
  /\ month (UtilsNow.now january_noon) = 1
  /\ UtilsNow.last_month march_noon
     = Ok (mk_datetime 2024 2 1 0 0 0 0 (Some America_Santo_Domingo)).
Proof.
  unfold UtilsNow.last_month, UtilsNow.datetime_new.
  split; [|split; [|split]].
  - intros ->. cbn [Z.sub Z.leb Z.compare Z.opp Z.pos_sub].
    now rewrite !andb_false_r.
  - intros Hy Hm.
    set (y := year (UtilsNow.now clock)) in *.
    set (m := month (UtilsNow.now clock)) in *.
    assert (Hd : 1 <= UtilsNow.days_in_month y (m - 1)).
    { unfold UtilsNow.days_in_month.
      destruct (m - 1 =? 2); [destruct (UtilsNow.is_leap y); lia|].
      destruct ((m - 1 =? 4) || (m - 1 =? 6) || (m - 1 =? 9) || (m - 1 =? 11));
        lia. }
    replace (1 <=? y) with true by (symmetry; apply Z.leb_le; lia).
    replace (y <=? 9999) with true by (symmetry; apply Z.leb_le; lia).
    replace (1 <=? m - 1) with true by (symmetry; apply Z.leb_le; lia).
    replace (m - 1 <=? 12) with true by (symmetry; apply Z.leb_le; lia).
    replace (1 <=? UtilsNow.days_in_month y (m - 1)) with true
      by (symmetry; apply Z.leb_le; lia).
    reflexivity.
  - vm_compute. reflexivity.
  - vm_compute. reflexivity.
Qed.

Lemma last_month_january_witness :
  UtilsNow.last_month january_noon = Raise ValueError.
Proof.
  apply (proj1 (last_month_january january_noon)). vm_compute. reflexivity.
Defined.

(** X16: [today_midnight] is the midnight of today's date in Santo
    Domingo read in the zone of the process and then shown in Santo
    Domingo: its wall clock is that midnight shifted by the difference
    of the two offsets.  It is 00:00 when the process runs with the
    offset of Santo Domingo and 20:00 of the day before when it runs in
    UTC.  [yesterday_midnight] is exactly one day earlier. *)
Theorem today_midnight_zone (local : tzinfo) (clock : Z) :
  let midnight := wall (round_to_day (UtilsNow.now clock)) in
  tz (UtilsNow.today_midnight local clock) = Some America_Santo_Domingo
  /\ wall (UtilsNow.today_midnight local clock)
     = midnight + (utcoffset America_Santo_Domingo - utcoffset local)
  /\ (utcoffset local = utcoffset America_Santo_Domingo ->
      wall (UtilsNow.today_midnight local clock) = midnight
      /\ hour (UtilsNow.today_midnight local clock) = 0)
  /\ (utcoffset local = 0 ->
      wall (UtilsNow.today_midnight local clock) = midnight - 4 * us_per_hour
      /\ hour (UtilsNow.today_midnight local clock) = 20)
  /\ wall (UtilsNow.yesterday_midnight local clock)
     = wall (UtilsNow.today_midnight local clock) - us_per_day
  /\ tz (UtilsNow.yesterday_midnight local clock)
     = Some America_Santo_Domingo.
Proof.
  unfold UtilsNow.today_midnight, UtilsNow.yesterday_midnight, UtilsNow.now,
    astimezone, instant, round_to_day, hour, America_Santo_Domingo,
    us_per_day, us_per_hour, us_per_second.
  cbn [wall tz utcoffset]. cbv zeta.
  change (24 * (3600 * 1000000)) with 86400000000.
  change (3600 * 1000000) with 3600000000.
  change (-4 * 3600 * 1000000) with (-14400000000).
  repeat split; try intros ->; try (Z.div_mod_to_equations; lia).
Qed.

(** X17: [last_week] is a Monday, in the zone of Santo Domingo, at
    the time of day of [today_midnight], between 7 and 13 days before
    it. *)
Theorem last_week_monday (local : tzinfo) (clock : Z) :
  let t := UtilsNow.today_midnight local clock in
  let r := UtilsNow.last_week local clock in
  tz r = Some America_Santo_Domingo
  /\ weekday r = 0
  /\ 7 * us_per_day <= wall t - wall r <= 13 * us_per_day
  /\ wall r mod us_per_day = wall t mod us_per_day.
Proof.
  cbv zeta. split; [reflexivity|]. unfold UtilsNow.last_week.
  generalize (UtilsNow.today_midnight local clock) as t.
  intros [W z]. cbv zeta. unfold weekday, us_per_day, us_per_hour,
    us_per_second. cbn [wall tz].
  change (24 * (3600 * 1000000)) with 86400000000.
  set (q := W / 86400000000).
  set (k := (q + 3) mod 7).
  assert (Hk : 0 <= k < 7) by (unfold k; apply Z.mod_pos_bound; lia).
  assert (Hdiv : (W - (k * 86400000000 + 7 * 86400000000)) / 86400000000
                 = q - k - 7).
  { unfold q. Z.div_mod_to_equations. nia. }
  repeat split.
  - rewrite Hdiv. unfold k. Z.div_mod_to_equations. lia.
  - lia.
  - lia.
  - Z.div_mod_to_equations. nia.
Qed.

(** X18: [find_oldest_by_dev_eui] returns a reading of the device
    whose time is minimal among the readings of the device; it returns
    [None] exactly when the device has no reading; and it raises, with
    [MultipleResultsFound], exactly when at least two readings of the
    device carry the minimal time. *)
Theorem find_oldest_by_dev_eui_spec (dev : string)
        (tbl : list StreetlampState.t) :
  (forall r,
     StreetlampStateRepository.find_oldest_by_dev_eui dev tbl = Ok (Some r) ->
     In r tbl /\ StreetlampState.dev_eui r = dev
     /\ forall r', In r' tbl -> StreetlampState.dev_eui r' = dev ->
                   StreetlampState.time r <= StreetlampState.time r')
  /\ (StreetlampStateRepository.find_oldest_by_dev_eui dev tbl = Ok None <->
      forall r, In r tbl -> StreetlampState.dev_eui r <> dev)
  /\ (forall e,
        StreetlampStateRepository.find_oldest_by_dev_eui dev tbl = Raise e <->
        e = MultipleResultsFound
        /\ exists t,
             (forall r', In r' tbl -> StreetlampState.dev_eui r' = dev ->
                         t <= StreetlampState.time r')
             /\ (2 <= List.length
                        (filter (fun r => Z.eqb (StreetlampState.time r) t)
                                (readings_of dev tbl)))%nat).
Proof.
  unfold StreetlampStateRepository.find_oldest_by_dev_eui.
  pose proof (sql_min_spec (StreetlampStateRepository.times_of dev tbl)) as Hm.
  destruct (sql_min (StreetlampStateRepository.times_of dev tbl)) as [m|].
  - destruct Hm as [Hin Hall].
    assert (Hle : forall r', In r' tbl -> StreetlampState.dev_eui r' = dev ->
                             m <= StreetlampState.time r').
    { intros r' Hr' He. apply Hall. apply in_times_of. eauto. }
    apply in_times_of in Hin. destruct Hin as (r0 & Hr0 & He0 & Ht0).
    pose proof (rows_at_readings dev m tbl) as Hrows.
    split; [|split].
    + intros r H. apply scalar_one_or_none_some in H.
      assert (Hr : In r (StreetlampStateRepository.rows_at dev (Some m) tbl))
        by (rewrite H; now left).
      apply in_rows_at in Hr. destruct Hr as (Hr & He & Ht).
      repeat split; try assumption. intros r' Hr' He'. rewrite Ht. auto.
    + split.
      * intros H. apply scalar_one_or_none_none in H.
        assert (Hr : In r0 (StreetlampStateRepository.rows_at dev (Some m) tbl))
          by (apply in_rows_at; auto).
        rewrite H in Hr. destruct Hr.
      * intros H. exfalso. apply (H r0 Hr0 He0).
    + intros e. rewrite scalar_one_or_none_raise, Hrows. split.
      * intros [-> Hl]. split; [reflexivity|]. exists m. auto.
      * intros [-> (t & Ht & Hl)]. split; [reflexivity|].
        assert (t = m).
        { destruct (filter (fun r => Z.eqb (StreetlampState.time r) t)
                           (readings_of dev tbl)) as [|r1 l] eqn:Hf;
            [cbn in Hl; lia|].
          assert (Hr1 : In r1 (filter
                                 (fun r => Z.eqb (StreetlampState.time r) t)
                                 (readings_of dev tbl)))
            by (rewrite Hf; now left).
          apply filter_In in Hr1. destruct Hr1 as [Hr1 Ht1].
          apply Z.eqb_eq in Ht1. unfold readings_of in Hr1.
          apply filter_In in Hr1. destruct Hr1 as [Hr1 He1].
          apply String.eqb_eq in He1.
          pose proof (Hle r1 Hr1 He1). pose proof (Ht r0 Hr0 He0). lia. }
        now subst t.
  - assert (Hnone : forall r, In r tbl -> StreetlampState.dev_eui r <> dev).
    { intros r Hr He.
      assert (Hi : In (StreetlampState.time r)
                      (StreetlampStateRepository.times_of dev tbl))
        by (apply in_times_of; eauto).
      rewrite Hm in Hi. destruct Hi. }
    cbn. split; [discriminate | split; [tauto|]].
    intros e. split; [discriminate|].
    intros [_ (t & _ & Hl)]. exfalso.
    destruct (filter (fun r => Z.eqb (StreetlampState.time r) t)
                     (readings_of dev tbl)) as [|r1 l] eqn:Hf;
      [cbn in Hl; lia|].
    assert (Hr1 : In r1 (filter (fun r => Z.eqb (StreetlampState.time r) t)
                                (readings_of dev tbl)))
      by (rewrite Hf; now left).
    apply filter_In in Hr1. destruct Hr1 as [Hr1 _]. unfold readings_of in Hr1.
    apply filter_In in Hr1. destruct Hr1 as [Hr1 He1].
    apply String.eqb_eq in He1. apply (Hnone r1 Hr1 He1).
Qed.

Lemma stage_without_watermark st local pull db :
  (forall s, In s (Db.streetlamps db) ->
     StreamStateRepository.find_by_name
       (stage_name st (Streetlamp.device_eui s)) (Db.stream_states db)
     = None) ->
  stage_loop st local pull (Db.streetlamps db) (db, 0) = Ok (db, 0).
Proof.
  intros H. apply stage_loop_settled. intros s Hs.
  unfold range_of, get_range. now rewrite (H s Hs).
Qed.

(** X19: a pass of any of the four stages over a store in which no
    registered device has a watermark row for that stage (none has
    reported yet) returns 0 and leaves the store as it is, without
    calling the upsert. *)
Theorem aggregate_without_watermark local pull db :
  ((forall s, In s (Db.streetlamps db) ->
      StreamStateRepository.find_by_name
        (StreetlampHourlyAggregationService.strname (Streetlamp.device_eui s))
        (Db.stream_states db) = None) ->
   StreetlampHourlyAggregationService.aggregate local pull db = Ok (db, 0))
  /\ ((forall s, In s (Db.streetlamps db) ->
         StreamStateRepository.find_by_name
           (StreetlampDailyAggregationService.strname (Streetlamp.device_eui s))
           (Db.stream_states db) = None) ->
      StreetlampDailyAggregationService.aggregate local pull db = Ok (db, 0))
  /\ ((forall s, In s (Db.streetlamps db) ->
         StreamStateRepository.find_by_name
           (StreetlampWeeklyAggregationService.strname
              (Streetlamp.device_eui s))
           (Db.stream_states db) = None) ->
      StreetlampWeeklyAggregationService.aggregate local pull db = Ok (db, 0))
  /\ ((forall s, In s (Db.streetlamps db) ->
         StreamStateRepository.find_by_name
           (StreetlampMonthlyAggregationService.strname
              (Streetlamp.device_eui s))
           (Db.stream_states db) = None) ->
      StreetlampMonthlyAggregationService.aggregate local pull db
      = Ok (db, 0)).
Proof.
  unfold StreetlampHourlyAggregationService.aggregate,
    StreetlampDailyAggregationService.aggregate,
    StreetlampWeeklyAggregationService.aggregate,
    StreetlampMonthlyAggregationService.aggregate.
  rewrite hourly_loop_stage, daily_loop_stage, weekly_loop_stage,
    monthly_loop_stage.
  split; [|split; [|split]]; intros H.
  - apply (stage_without_watermark hourly_stage local pull db H).
  - apply (stage_without_watermark daily_stage local pull db H).
  - apply (stage_without_watermark weekly_stage local pull db H).
  - apply (stage_without_watermark monthly_stage local pull db H).
Qed.

Lemma aggregate_without_watermark_witness :
  StreetlampHourlyAggregationService.aggregate UTC
    (sample_pull Db.hourly_streetlamp_state) two_devices
  = Ok (two_devices, 0).
Proof.
  apply (proj1 (aggregate_without_watermark UTC
                  (sample_pull Db.hourly_streetlamp_state) two_devices)).
  intros s _. reflexivity.
Defined.

Lemma nan_rate (y d : Float64.float) :
  Float64.gtb (Float64.div (Float64.sub S754_nan y) d)
              StreetlampStateService.max_ecr = false.
Proof. destruct y, d; reflexivity. Qed.

Lemma nan_prior_rate (x d : Float64.float) :
  Float64.gtb (Float64.div (Float64.sub x S754_nan) d)
              StreetlampStateService.max_ecr = false.
Proof. destruct x, d; reflexivity. Qed.

(** X20: a reading whose [energy_in] is NaN, or that follows a stored
    reading whose [energy_in] is NaN, is never stopped by rule 4: when
    it passes rules 1 to 3 it is stored. *)
Theorem nan_energy_bypasses_energy_rule local ssc sds db ls :
  decode_state_data (StreetlampStateCreate.data ssc) = Ok sds ->
  StreetlampStateService.any_invalid_value sds = false ->
  Float64.gtb (StreetlampDeviceState.power sds)
              StreetlampStateService.max_power = false ->
  Float64.gtb (StreetlampDeviceState.frequency sds)
              StreetlampStateService.max_frequency = false ->
  StreetlampStateRepository.find_latest_by_dev_eui
    (StreetlampStateCreate.dev_eui ssc) (Db.streetlamp_states db) = Ok ls ->
  StreetlampDeviceState.energy_in sds = S754_nan
  \/ (exists ls0, ls = Some ls0
                  /\ StreetlampState.dev_energy_in ls0 = S754_nan) ->
  StreetlampStateService.create local ssc db
  = Ok (StreetlampStateService.insert_state local ssc
          (astimezone local America_Santo_Domingo
             (StreetlampStateCreate.time ssc)) sds db).
Proof.
  intros Hd Hi Hp Hf Hl He. rewrite (create_decoded local ssc sds db Hd).
  cbv zeta. rewrite Hi, Hp, Hf, Hl. cbn [bind].
  destruct ls as [ls|]; [|reflexivity].
  rewrite over_energy_eq. cbv zeta. cbn [bind].
  destruct He as [He | (ls0 & [= <-] & He)]; rewrite He.
  - now rewrite nan_rate.
  - now rewrite nan_prior_rate.
Qed.

Lemma nan_energy_bypasses_energy_rule_witness :
  StreetlampStateService.create UTC
    (sample_message (at_hour 6) nan_energy_state) db_one_reading
  = Ok (StreetlampStateService.insert_state UTC
          (sample_message (at_hour 6) nan_energy_state)
          (astimezone UTC America_Santo_Domingo (at_hour 6))
          nan_energy_state db_one_reading).
Proof.
  apply (nan_energy_bypasses_energy_rule UTC
           (sample_message (at_hour 6) nan_energy_state) nan_energy_state
           db_one_reading (Some prior_reading));
    try (vm_compute; reflexivity).
  left. reflexivity.
Defined.

Lemma guarded_ratio (x total : Float64.float) :
  (if Float64.neqb total (S754_zero false)
   then Float64.truediv x total else Ok (S754_zero false))
  = Ok (if Float64.neqb total (S754_zero false)
        then Float64.div x total else S754_zero false).
Proof.
  unfold Float64.neqb. destruct (SFeqb total (S754_zero false)) eqn:E;
    cbn [negb]; [reflexivity|].
  now rewrite truediv_nonzero by exact E.
Qed.

Lemma per_device_returns (x : Float64.float) (n : Z) :
  DashboardEnergy.per_device x n
  = Ok (if n =? 0 then S754_zero false
        else Float64.div x (Float64.of_Z n)).
Proof.
  unfold DashboardEnergy.per_device.
  destruct (Z.eqb_spec n 0) as [H|H]; cbn [negb]; [reflexivity|].
  now rewrite truediv_nonzero by (apply of_Z_nonzero; exact H).
Qed.

Lemma energy_to_co2_returns (x : Float64.float) :
  energy_to_co2 x
  = Ok (Float64.round
          (Float64.mul (Float64.of_ratio false 699 1000000)
             (Float64.div x (Float64.of_Z 1000))) 1).
Proof.
  unfold energy_to_co2. now rewrite truediv_nonzero by reflexivity.
Qed.

(** X21: for a summary whose device count is a count,
    [_get_energy_summary] returns: no division raises.  With no device
    the four per-device averages are 0.0; with an [on_time] of 0.0 the
    two savings percentages are 0.0; without a summary every figure is
    0.0. *)
Theorem energy_summary_returns (summ : StreetlampStateSummary.t) :
  count_in_range summ ->
  (exists r,
     DashboardEnergy._get_energy_summary (Some summ) = Ok r
     /\ (StreetlampStateSummary.ndevices summ = 0 ->
         StreetlampsEnergyConsumption.avg_in_watts
           (StreetlampEnergySummary.consumption r) = S754_zero false
         /\ StreetlampsEnergySavings.avg_in_watts
              (StreetlampEnergySummary.savings r) = S754_zero false
         /\ StreetlampsDimmingSavings.avg_in_watts
              (StreetlampEnergySummary.dimming_savings r) = S754_zero false
         /\ StreetlampsCo2Savings.avg_in_ton
              (StreetlampEnergySummary.co2_savings r) = S754_zero false)
     /\ (StreetlampStateSummary.on_time summ = S754_zero false ->
         StreetlampsEnergySavings.percentage
           (StreetlampEnergySummary.savings r) = S754_zero false
         /\ StreetlampsDimmingSavings.percentage
              (StreetlampEnergySummary.dimming_savings r) = S754_zero false))
  /\ DashboardEnergy._get_energy_summary None
     = Ok {| StreetlampEnergySummary.consumption :=
               {| StreetlampsEnergyConsumption.total_in_kw := S754_zero false;
                  StreetlampsEnergyConsumption.avg_in_watts :=
                    S754_zero false |};
             StreetlampEnergySummary.savings :=
               {| StreetlampsEnergySavings.percentage := S754_zero false;
                  StreetlampsEnergySavings.avg_in_watts := S754_zero false |};
             StreetlampEnergySummary.dimming_savings :=
               {| StreetlampsDimmingSavings.percentage := S754_zero false;
                  StreetlampsDimmingSavings.avg_in_watts :=
                    S754_zero false |};
             StreetlampEnergySummary.co2_savings :=
               {| StreetlampsCo2Savings.total_in_ton := S754_zero false;
                  StreetlampsCo2Savings.avg_in_ton := S754_zero false |} |}.
Proof.
  intros _. split; [|reflexivity].
  unfold DashboardEnergy._get_energy_summary,
    DashboardEnergy._get_energy_consumption_summary,
    DashboardService._get_energy_savings_summary,
    DashboardEnergy._get_energy_dimming_savings_summary,
    DashboardEnergy._get_energy_co2_savings_summary.
  fold (DashboardEnergy.per_device
          (Float64.sub
             (Float64.mul (Float64.of_Z 250)
                (Float64.div (StreetlampStateSummary.on_time summ)
                   (Float64.of_Z 3600)))
             (StreetlampStateSummary.energy_in summ))
          (StreetlampStateSummary.ndevices summ)).
  rewrite !(truediv_nonzero _ (Float64.of_Z 3600)) by reflexivity.
  rewrite !(truediv_nonzero _ (Float64.of_Z 1000)) by reflexivity.
  cbn [bind]. rewrite !guarded_ratio. cbn [bind].
  change (if negb (StreetlampStateSummary.ndevices summ =? 0)
          then Float64.truediv ?x (Float64.of_Z ?n)
          else Ok (S754_zero false))
    with (DashboardEnergy.per_device x n).
  rewrite !per_device_returns. cbn [bind].
  rewrite !energy_to_co2_returns. cbn [bind].
  eexists. split; [reflexivity|].
  cbn [StreetlampEnergySummary.consumption StreetlampEnergySummary.savings
       StreetlampEnergySummary.dimming_savings
       StreetlampEnergySummary.co2_savings
       StreetlampsEnergyConsumption.avg_in_watts
       StreetlampsEnergySavings.avg_in_watts
       StreetlampsEnergySavings.percentage
       StreetlampsDimmingSavings.avg_in_watts
       StreetlampsDimmingSavings.percentage
       StreetlampsCo2Savings.avg_in_ton].
  split.
  - intros ->. cbn [Z.eqb]. repeat split; reflexivity.
  - intros ->. split; reflexivity.
Qed.

Lemma energy_summary_returns_witness :
  count_in_range (summary_of 0 0 900)
  /\ exists r,
       DashboardEnergy._get_energy_summary (Some (summary_of 0 0 900)) = Ok r.
Proof.
  assert (H : count_in_range (summary_of 0 0 900))
    by (unfold count_in_range; cbn; lia).
  split; [exact H|].
  destruct (energy_summary_returns (summary_of 0 0 900) H)
    as [(r & Hr & _) _].
  exists r. exact Hr.
Defined.

Lemma get_range_watermarks local oldest nm db r c p :
  StreamStateRepository.find_by_name nm (Db.stream_states db) = Some r ->
  StreamState.consumer_ts r = Some c ->
  StreamState.producer_ts r = Some p ->
  get_range local oldest nm db = Ok (watermark_range local c p).
Proof.
  intros Hf Hc Hp. unfold get_range, watermark_range.
  rewrite Hf, Hp, Hc. cbn [bind]. unfold Datetime.eqb, of_timestamptz.
  cbn [tz wall utcoffset UTC]. rewrite !Z.sub_0_r.
  destruct (c =? p); reflexivity.
Qed.

(** X22: when the watermark row found for a device has both
    timestamps set, each of the four [_get_*_range] methods returns no
    range if they are equal and otherwise the range from the consumer to
    the producer timestamp, in the zone of Santo Domingo; this is so
    also when the producer timestamp is the earlier one, and the range
    then runs backwards. *)
Theorem range_when_watermarks_differ local dev db r c p :
  StreamState.consumer_ts r = Some c ->
  StreamState.producer_ts r = Some p ->
  (StreamStateRepository.find_by_name
     (StreetlampHourlyAggregationService.strname dev) (Db.stream_states db)
   = Some r ->
   StreetlampHourlyAggregationService._get_hourly_range local
     (StreetlampHourlyAggregationService.strname dev) dev db
   = Ok (watermark_range local c p))
  /\ (StreamStateRepository.find_by_name
        (StreetlampDailyAggregationService.strname dev) (Db.stream_states db)
      = Some r ->
      StreetlampDailyAggregationService._get_daily_range local
        (StreetlampDailyAggregationService.strname dev) dev db
      = Ok (watermark_range local c p))
  /\ (StreamStateRepository.find_by_name
        (StreetlampWeeklyAggregationService.strname dev) (Db.stream_states db)
      = Some r ->
      StreetlampWeeklyAggregationService._get_weekly_range local
        (StreetlampWeeklyAggregationService.strname dev) dev db
      = Ok (watermark_range local c p))
  /\ (StreamStateRepository.find_by_name
        (StreetlampMonthlyAggregationService.strname dev) (Db.stream_states db)
      = Some r ->
      StreetlampMonthlyAggregationService._get_monthly_range local
        (StreetlampMonthlyAggregationService.strname dev) dev db
      = Ok (watermark_range local c p))
  /\ (p < c ->
      exists rg,
        watermark_range local c p = Some rg
        /\ instant local (t1 rg) < instant local (t0 rg)).
Proof.
  intros Hc Hp.
  split; [|split; [|split; [|split]]].
  - intros Hf. now apply get_range_watermarks with (r := r).
  - intros Hf. now apply get_range_watermarks with (r := r).
  - intros Hf. now apply get_range_watermarks with (r := r).
  - intros Hf. now apply get_range_watermarks with (r := r).
  - intros Hlt. unfold watermark_range.
    destruct (Z.eqb_spec c p) as [E|E]; [lia|].
    eexists. split; [reflexivity|]. cbn [t0 t1].
    rewrite !instant_convert. exact Hlt.
Qed.

Lemma range_when_watermarks_differ_witness :
  exists rg,
    StreetlampHourlyAggregationService._get_hourly_range UTC
      (StreetlampHourlyAggregationService.strname "5058000000000001")
      "5058000000000001" late_store = Ok (Some rg)
    /\ instant UTC (t1 rg) < instant UTC (t0 rg).
Proof.
  destruct (range_when_watermarks_differ UTC "5058000000000001" late_store
              late_row (instant UTC (at_hour 5)) (instant UTC (at_hour 3))
              eq_refl eq_refl) as (Hh & _ & _ & _ & Hinv).
  destruct Hinv as (rg & Hrg & Hlt); [vm_compute; reflexivity|].
  exists rg. split; [|exact Hlt].
  rewrite Hh by reflexivity. now rewrite Hrg.
Defined.

Lemma sub_self (e : Float64.float) :
  Float64.sub e e = S754_zero false \/ Float64.sub e e = S754_nan.
Proof.
  destruct e as [s | s | | s m ex]; try (destruct s; cbn; auto; fail).
  - right. reflexivity.
  - left. unfold Float64.sub, SFsub. cbv zeta. rewrite Z.sub_diag.
    reflexivity.
Qed.

Lemma zero_rate :
  Float64.gtb (Float64.div (S754_zero false) (Float64.of_Z 1))
              StreetlampStateService.max_ecr = false
  /\ Float64.gtb (Float64.div S754_nan (Float64.of_Z 1))
                 StreetlampStateService.max_ecr = false.
Proof. split; reflexivity. Qed.

(** X24: a reading that passes rules 1 to 3 and has the time and the
    [energy_in] of the latest stored reading of its device, as when an
    entry is delivered again after its reading was stored, is stored a
    second time. *)
Theorem redelivered_reading_stored_twice local ssc sds db ls :
  decode_state_data (StreetlampStateCreate.data ssc) = Ok sds ->
  StreetlampStateService.any_invalid_value sds = false ->
  Float64.gtb (StreetlampDeviceState.power sds)
              StreetlampStateService.max_power = false ->
  Float64.gtb (StreetlampDeviceState.frequency sds)
              StreetlampStateService.max_frequency = false ->
  StreetlampStateRepository.find_latest_by_dev_eui
    (StreetlampStateCreate.dev_eui ssc) (Db.streetlamp_states db)
  = Ok (Some ls) ->
  StreetlampState.time ls = instant local (StreetlampStateCreate.time ssc) ->
  StreetlampState.dev_energy_in ls = StreetlampDeviceState.energy_in sds ->
  StreetlampStateService.create local ssc db
  = Ok (StreetlampStateService.insert_state local ssc
          (astimezone local America_Santo_Domingo
             (StreetlampStateCreate.time ssc)) sds db).
Proof.
  intros Hd Hi Hp Hf Hl Ht He. rewrite (create_decoded local ssc sds db Hd).
  cbv zeta. rewrite Hi, Hp, Hf, Hl. cbn [bind].
  rewrite over_energy_eq. cbv zeta. cbn [bind].
  assert (H0 : sub_aware local
                 (astimezone local America_Santo_Domingo
                    (StreetlampStateCreate.time ssc))
                 (of_timestamptz (StreetlampState.time ls)) = 0).
  { unfold sub_aware. rewrite instant_astimezone, Ht.
    unfold of_timestamptz, instant. cbn. lia. }
  rewrite H0, He.
  change (Float64.float_div_mod_quot (total_seconds 0) (Float64.of_Z 3600))
    with (S754_zero false).
  change (Float64.eqb (S754_zero false) (S754_zero false)) with true.
  cbv iota.
  destruct (sub_self (StreetlampDeviceState.energy_in sds)) as [-> | ->].
  - now rewrite (proj1 zero_rate).
  - now rewrite (proj2 zero_rate).
Qed.

Lemma redelivered_reading_stored_twice_witness :
  List.length
    (Db.streetlamp_states
       (ingest UTC (sample_message (at_hour 5) good_state) db_one_reading))
  = 2%nat.
Proof.
  unfold ingest.
  rewrite (redelivered_reading_stored_twice UTC
             (sample_message (at_hour 5) good_state) good_state
             db_one_reading prior_reading);
    try (vm_compute; reflexivity).
Defined.

Lemma run_agg_process_keeps local hourly_pull daily_pull weekly_pull
      monthly_pull (w : World.t) :
  let w' := Main.run_agg_process local hourly_pull daily_pull weekly_pull
              monthly_pull w in
  World.queue w' = World.queue w
  /\ raw_data_kept (World.db w) (World.db w').
Proof.
  cbv zeta. unfold Main.run_agg_process.
  destruct (StreetlampHourlyAggregationService.aggregate local hourly_pull
              (World.db w)) as [[db1 n1]|e1] eqn:H1; cbn [bind fst];
    [|repeat split].
  destruct (StreetlampDailyAggregationService.aggregate local daily_pull db1)
    as [[db2 n2]|e2] eqn:H2; cbn [bind fst]; [|repeat split].
  destruct (StreetlampWeeklyAggregationService.aggregate local weekly_pull db2)
    as [[db3 n3]|e3] eqn:H3; cbn [bind fst]; [|repeat split].
  destruct (StreetlampMonthlyAggregationService.aggregate local monthly_pull
              db3) as [[db4 n4]|e4] eqn:H4; cbn [bind fst]; [|repeat split].
  cbn [World.queue World.db]. split; [reflexivity|].
  unfold StreetlampHourlyAggregationService.aggregate in H1.
  unfold StreetlampDailyAggregationService.aggregate in H2.
  unfold StreetlampWeeklyAggregationService.aggregate in H3.
  unfold StreetlampMonthlyAggregationService.aggregate in H4.
  rewrite hourly_loop_stage in H1. rewrite daily_loop_stage in H2.
  rewrite weekly_loop_stage in H3. rewrite monthly_loop_stage in H4.
  apply stage_loop_keeps_raw in H1; [|intros; repeat split].
  apply stage_loop_keeps_raw in H2; [|intros; repeat split].
  apply stage_loop_keeps_raw in H3; [|intros; repeat split].
  apply stage_loop_keeps_raw in H4; [|intros; repeat split].
  destruct H1 as (A1 & A2 & A3), H2 as (B1 & B2 & B3),
    H3 as (C1 & C2 & C3), H4 as (D1 & D2 & D3).
  unfold raw_data_kept. repeat split; congruence.
Qed.

Lemma batch_head_fails local xdel_raises (w : World.t) :
  head_fails (World.queue w) ->
  exists log',
    Main.proc_streetlamp_state_batch local xdel_raises (0, 0) 1000 w
    = ({| World.db := World.db w; World.queue := World.queue w;
          World.log := log' |}, tt).
Proof.
  intros (it & rest & e & Hx & He & Hf).
  unfold Main.proc_streetlamp_state_batch. rewrite Hx.
  destruct Hf as [Hp | (ssc & Hp & Hd & Hdec)].
  - cbn [Main.proc_items]. unfold Main.proc_item. rewrite Hp.
    eexists. reflexivity.
  - rewrite (failed_entry_leaves_loop local xdel_raises it ssc _ e rest Hp Hd);
      [eexists; reflexivity | | exact He].
    unfold StreetlampStateService.create. now rewrite Hdec.
Qed.

Lemma turn_head_fails local xdel_raises hourly_pull daily_pull weekly_pull
      monthly_pull now now' (w : World.t) (t : Float64.float) :
  head_fails (World.queue w) ->
  exists w1 t1,
    Main.proc_streetlamp_states_turn local xdel_raises hourly_pull daily_pull
      weekly_pull monthly_pull now now' (0, 0) (w, t) = (w1, t1)
    /\ World.queue w1 = World.queue w
    /\ Db.streetlamp_states (World.db w1) = Db.streetlamp_states (World.db w)
    /\ Db.streetlamp_alarms (World.db w1) = Db.streetlamp_alarms (World.db w).
Proof.
  intros Hh. unfold Main.proc_streetlamp_states_turn.
  destruct (batch_head_fails local xdel_raises w Hh) as (log' & Hb).
  rewrite Hb.
  set (w1 := {| World.db := World.db w; World.queue := World.queue w;
                World.log := log' |}).
  destruct (run_agg_process_keeps local hourly_pull daily_pull weekly_pull
              monthly_pull w1) as (Hq & _ & Hs & Ha).
  cbv zeta in Hq, Hs, Ha.
  destruct (Float64.gtb _ _); eexists _, _; (split; [reflexivity|]).
  - split; [exact Hq | split; [exact Hs | exact Ha]].
  - repeat split.
Qed.

(** X23: when the oldest entry of the queue does not parse, or its
    payload does not decode, the loop of [proc_streetlamp_states] never
    gets past it: however many turns it runs, the queue, the stored
    readings and the alarms stay as they were. *)
Theorem failing_head_blocks_queue local xdel_raises
        hourly_pull daily_pull weekly_pull monthly_pull clock (w : World.t) :
  head_fails (World.queue w) ->
  let w' := fst (Main.proc_streetlamp_states local xdel_raises hourly_pull
                   daily_pull weekly_pull monthly_pull clock w) in
  World.queue w' = World.queue w
  /\ Db.streetlamp_states (World.db w') = Db.streetlamp_states (World.db w)
  /\ Db.streetlamp_alarms (World.db w') = Db.streetlamp_alarms (World.db w).
Proof.
  intros Hh. cbv zeta. unfold Main.proc_streetlamp_states. cbv zeta.
  generalize (S754_zero false) as t. revert w Hh.
  induction clock as [|c clock IH]; intros w Hh t; cbn [fold_left]; cbv beta.
  - repeat split.
  - destruct (turn_head_fails local xdel_raises hourly_pull daily_pull
                weekly_pull monthly_pull (fst c) (snd c) w t Hh)
      as (w1 & t1 & Ht & Hq & Hs & Ha).
    unfold Float64.float, stream_id in *. rewrite Ht.
    destruct (IH w1 ltac:(rewrite Hq; exact Hh) t1) as (I1 & I2 & I3).
    split; [exact (eq_trans I1 Hq)|].
    split; [exact (eq_trans I2 Hs) | exact (eq_trans I3 Ha)].
Qed.

Lemma failing_head_blocks_queue_witness :
  head_fails poisoned_queue
  /\ World.queue
       (fst (Main.proc_streetlamp_states UTC (fun _ => false)
               (sample_pull Db.hourly_streetlamp_state)
               (sample_pull Db.daily_streetlamp_state)
               (sample_pull Db.weekly_streetlamp_state)
               (sample_pull Db.monthly_streetlamp_state)
               [(Float64.of_Z 1000, Float64.of_Z 1001)]
               (poisoned_world [])))
     = poisoned_queue.
Proof.
  assert (H : head_fails poisoned_queue).
  { eexists _, _, StructError. split; [reflexivity|].
    split; [discriminate|]. right. eexists. split; [reflexivity|].
    split; [discriminate | reflexivity]. }
  split; [exact H|].
  apply (failing_head_blocks_queue UTC (fun _ => false)
           (sample_pull Db.hourly_streetlamp_state)
           (sample_pull Db.daily_streetlamp_state)
           (sample_pull Db.weekly_streetlamp_state)
           (sample_pull Db.monthly_streetlamp_state)
           [(Float64.of_Z 1000, Float64.of_Z 1001)] (poisoned_world []) H).
Defined.
